(** * Verification of [complete-deployer.js]

    The script scaffolds a Hardhat project for the AIR token, drives
    [npm] and [hardhat] through [execSync], and offers a [--quick] mode
    that deploys through the ethers SDK directly.

    The embedding is shallow.  The file system, the process environment,
    the subprocesses and the SDK are the script's whole world: the file
    system is a finite map from paths to nodes, the console and every
    external operation are recorded as a chronological list of events,
    and everything the script cannot decide by itself (exit statuses of
    external tools, answers of the RPC endpoint, the clock) is read from a
    [World] record, over which all theorems quantify. *)

From Stdlib Require Import ZArith Ascii String List Bool Lia.
From stdpp Require Import gmap strings list.

Local Open Scope Z_scope.

(** ** Strings

    File contents are sequences of bytes (UTF-8, which is what
    [fs.writeFileSync] writes for a JavaScript string). *)

Definition dquote : ascii := "034"%char.
Definition backtick : ascii := "096"%char.
Definition newline : string := String "010"%char EmptyString.

(** The templates of the script are JavaScript template literals, in which
    a backtick cannot occur.  They are written here as in the source, with
    a backtick standing for each double quote of the source; [lit] turns
    the backticks into the double quotes. *)
Fixpoint lit (s : string) : string :=
  match s with
  | EmptyString => EmptyString
  | String c r => String (if Ascii.eqb c backtick then dquote else c) (lit r)
  end.

(** [a || b] of JavaScript on a value that is [undefined] or a string: the
    empty string is falsy as well. *)
Definition or_default (v : option string) (d : string) : string :=
  match v with
  | Some s => if String.eqb s "" then d else s
  | None => d
  end.

(** Truthiness of such a value. *)
Definition truthy (v : option string) : bool :=
  match v with
  | Some s => negb (String.eqb s "")
  | None => false
  end.

(** [Array.prototype.includes] on strings. *)
Definition includes (l : list string) (x : string) : bool :=
  existsb (String.eqb x) l.

(** ** JSON.stringify

    The values the script serialises are objects whose members are strings
    or such objects; members are kept in insertion order (none of the
    keys is an array index). *)

#[local] Set Warnings "-register-all".

Inductive json : Type :=
| JString (s : string)
| JObject (members : list (string * json)).

Definition hex_lower (n : N) : ascii :=
  ascii_of_N (if (n <? 10)%N then 48 + n else 87 + n)%N.

(** QuoteJSONString, one code unit at a time: the two-character escapes,
    [\u00xx] for the other control characters, everything else as it is. *)
Definition quote_char (c : ascii) : string :=
  let n := N_of_ascii c in
  if (n =? 8)%N then "\b"
  else if (n =? 9)%N then "\t"
  else if (n =? 10)%N then "\n"
  else if (n =? 12)%N then "\f"
  else if (n =? 13)%N then "\r"
  else if (n =? 34)%N then String "\" (String dquote EmptyString)
  else if (n =? 92)%N then "\\"
  else if (n <? 32)%N then
    "\u00" +:+ String (hex_lower (n / 16)) (String (hex_lower (n mod 16)) EmptyString)
  else String c EmptyString.

Fixpoint quote_body (s : string) : string :=
  match s with
  | EmptyString => EmptyString
  | String c r => quote_char c +:+ quote_body r
  end.

Definition QuoteJSONString (s : string) : string :=
  String dquote (quote_body s +:+ String dquote EmptyString).

(** SerializeJSONProperty / SerializeJSONObject of ECMAScript, with the
    indentation unit [gap] and the current indentation [indent]. *)
Fixpoint SerializeJSONProperty (gap indent : string) (v : json) : string :=
  match v with
  | JString s => QuoteJSONString s
  | JObject members =>
      let stepback := indent in
      let indent := indent +:+ gap in
      let partial :=
        List.map (fun kv : string * json =>
                    QuoteJSONString (fst kv) +:+ ":" +:+
                    (if String.eqb gap "" then "" else " ") +:+
                    SerializeJSONProperty gap indent (snd kv)) members in
      match partial with
      | [] => "{}"
      | _ =>
          if String.eqb gap "" then "{" +:+ String.concat "," partial +:+ "}"
          else "{" +:+ newline +:+ indent +:+
               String.concat ("," +:+ newline +:+ indent) partial +:+
               newline +:+ stepback +:+ "}"
      end
  end.

(** [JSON.stringify(value, null, 2)]. *)
Definition JSON_stringify2 (v : json) : string :=
  SerializeJSONProperty "  " "" v.

(** ** The templates *)

Record CompleteDeployer : Type := {
  projectName : string;
  privateKey : string;
  rpcUrl : string
}.

Definition packageJson : json :=
  JObject
    [ ("name", JString "air-token-project");
      ("version", JString "1.0.0");
      ("scripts",
        JObject
          [ ("compile", JString "npx hardhat compile");
            ("deploy", JString "npx hardhat run scripts/deploy.js --network baseSepolia");
            ("test", JString "npx hardhat test") ]);
      ("devDependencies",
        JObject
          [ ("@nomiclabs/hardhat-ethers", JString "^2.2.3");
            ("@openzeppelin/contracts", JString "^4.9.3");
            ("ethers", JString "^6.10.0");
            ("hardhat", JString "^2.20.2") ]) ].

Definition hardhatConfig (this : CompleteDeployer) : string :=
  lit "
require(`@nomiclabs/hardhat-ethers`);

module.exports = {
  solidity: `0.8.20`,
  networks: {
    baseSepolia: {
      url: `" +:+ rpcUrl this +:+
  lit "`,
      chainId: 84532,
      accounts: process.env.PRIVATE_KEY ? [process.env.PRIVATE_KEY] : []
    }
  }
};
".

Definition airContract : string :=
  lit "
// SPDX-License-Identifier: MIT
pragma solidity ^0.8.20;

import `@openzeppelin/contracts/token/ERC20/ERC20.sol`;
import `@openzeppelin/contracts/access/Ownable.sol`;

contract AIR is ERC20, Ownable {
    constructor() ERC20(`AIR Token`, `AIR`) Ownable(msg.sender) {
        _mint(msg.sender, 1000000 * 10**decimals()); // 1 million tokens
    }
    
    function mint(address to, uint256 amount) public onlyOwner {
        _mint(to, amount);
    }
}
".

Definition deployScript : string :=
  lit "
const { ethers } = require(`hardhat`);

async function main() {
  console.log(`🚀 Starting AIR token deployment...`);
  
  const [deployer] = await ethers.getSigners();
  console.log(`Deployer:`, deployer.address);
  
  const balance = await ethers.provider.getBalance(deployer.address);
  console.log(`Balance:`, ethers.formatEther(balance), `ETH`);
  
  // Deploy contract
  const AIR = await ethers.getContractFactory(`AIR`);
  const air = await AIR.deploy();
  
  await air.waitForDeployment();
  const address = await air.getAddress();
  
  console.log(`✅ AIR Token deployed to:`, address);
  console.log(`Name:`, await air.name());
  console.log(`Symbol:`, await air.symbol());
  console.log(`Total Supply:`, ethers.formatEther(await air.totalSupply()));
  
  // Save deployment info
  const deploymentInfo = {
    address: address,
    deployer: deployer.address,
    network: `base-sepolia`,
    timestamp: new Date().toISOString()
  };
  
  require(`fs`).writeFileSync(`deployment-info.json`, JSON.stringify(deploymentInfo, null, 2));
  console.log(`📄 Deployment info saved to deployment-info.json`);
}

main().catch((error) => {
  console.error(error);
  process.exit(1);
});
".

Definition envTemplate (this : CompleteDeployer) : string :=
  lit "PRIVATE_KEY=your_private_key_here
RPC_URL=" +:+ rpcUrl this.

Definition gitignore : string :=
  lit "node_modules/
.env
deployment-info.json
artifacts/
cache/".

Definition monitorScript (this : CompleteDeployer) : string :=
  lit "
const { ethers } = require(`ethers`);

async function monitor() {
    const provider = new ethers.JsonRpcProvider(`" +:+ rpcUrl this +:+
  lit "`);
    
    try {
        const deploymentInfo = require(`./deployment-info.json`);
        const contract = new ethers.Contract(
            deploymentInfo.address,
            [`function name() view returns (string)`],
            provider
        );
        
        console.log(`👀 Monitoring AIR token...`);
        console.log(`Contract:`, deploymentInfo.address);
        console.log(`Name:`, await contract.name());
        console.log(`BaseScan: https://sepolia.basescan.org/address/` + deploymentInfo.address);
        
    } catch (error) {
        console.log(`Monitoring error:`, error.message);
    }
}

monitor();
".
(** ** The world of the script *)

(** What an SDK or runtime call that settles gives back: a value, or what
    it throws. *)
Inductive result (E A : Type) : Type :=
| Ok (a : A)
| Err (err : E).
Arguments Ok {E A} a.
Arguments Err {E A} err.

Inductive errno : Type := EEXIST | ENOENT | ENOTDIR | EISDIR.

(** What is thrown, by its class: [console.error] prints the class, the
    handlers of the script read the message. *)
Inductive exn : Type :=
| Error (message : string)                              (* new Error(message) *)
| SystemError (code : errno) (syscall : string) (p : string)
| TypeError (message : string)
| OtherError (name message : string).                   (* any other class, by its name *)

(** A deployed contract as [ContractFactory.deploy] returns it. *)
Record contract : Type := {
  c_address : string;      (* contract.getAddress() *)
  c_hash : string          (* contract.deploymentTransaction().hash *)
}.

(** The ethers SDK together with the chain behind the RPC endpoint, as one
    process sees them: each function is called once at most in a process,
    and two processes need not get the same answers.  The answers are
    those of calls that settle.  [reachable] says whether the
    [JsonRpcProvider] of ethers finds the network behind its URL; when it
    does not, no request is answered (see [stalls] below). *)
Record Ethers : Type := {
  Wallet : string -> result exn string;        (* new ethers.Wallet(key).address *)
  getSigners : result exn (list string);       (* addresses of ethers.getSigners() *)
  getBalance : string -> result exn Z;
  formatEther : Z -> string;
  ContractFactory : string -> result exn unit; (* new ethers.ContractFactory(abi, bytecode, wallet) *)
  getContractFactory : string -> result exn unit;  (* ethers.getContractFactory(name) *)
  deploy : string -> result exn contract;      (* factory.deploy(), by bytecode or contract name *)
  waitForDeployment : contract -> result exn unit;
  erc20_name : string -> result exn string;    (* contract.name() at an address *)
  erc20_symbol : string -> result exn string;
  erc20_totalSupply : string -> result exn Z;
  reachable : bool                             (* the provider finds the network *)
}.

Inductive node : Type :=
| Dir
| File (content : string).

Record World : Type := {
  argv : list string;                          (* process.argv *)
  env : gmap string string;                    (* process.env *)
  disk : gmap (list string) node;              (* the launch directory, before the run *)
  now : Z;                                     (* the clock, in ms since the epoch *)
  tool : string -> Z;                          (* exit status of an external tool *)
  parse_address : string -> result string (option string);
    (* JSON.parse of a file's text, then its [address] member when that
       is a string; or the message of what is thrown *)
  sdk : Ethers;                                (* ethers, in quick mode *)
  hardhat : Ethers;                            (* require("hardhat").ethers, in scripts/deploy.js *)
  monitoring : Ethers                          (* ethers, in monitor.js *)
}.

(** ** Events

    Everything the process does to its surroundings, in order.  File
    system events carry the path as the script passes it. *)

Inductive sdk_call : Type :=
| NewProvider (url : string)
| NewWallet
| GetSigners
| GetBalance (address : string)
| NewContractFactory (bytecode : string)
| GetContractFactory (contractName : string)
| Deploy (code : string)
| WaitForDeployment (address : string)
| ReadName (address : string)
| ReadSymbol (address : string)
| ReadTotalSupply (address : string)
| NewContract.

Inductive event : Type :=
| Stdout (text : string)                               (* console.log *)
| Stderr (text : string)                               (* console.error *)
| Mkdir (p : string)
| Chdir (p : string)
| WriteFile (p : string) (data : string)
| FsError (syscall : string) (p : string) (code : errno)
| RequireError (p : string)                            (* a failed require() *)
| Sdk (call : sdk_call) (ok : bool)
| Spawn (command : string)
| Exited (command : string) (status : Z)
| Sub (command : string) (e : event).                  (* an event of a child process *)

(** The calls that send a request to the RPC endpoint.  Constructing a
    provider, a wallet, a factory or a contract object sends nothing. *)
Definition is_network_call (c : sdk_call) : bool :=
  match c with
  | GetBalance _ | Deploy _ | WaitForDeployment _
  | ReadName _ | ReadSymbol _ | ReadTotalSupply _ => true
  | _ => false
  end.

(** ** The monad of the script: state, trace, exceptions, process exit *)

Definition errno_text (c : errno) : string :=
  match c with
  | EEXIST => "EEXIST: file already exists"
  | ENOENT => "ENOENT: no such file or directory"
  | ENOTDIR => "ENOTDIR: not a directory"
  | EISDIR => "EISDIR: illegal operation on a directory"
  end.

(** [error.message]; system errors in Node's layout for a call on one
    path ([mkdir], [open]).  For [chdir] Node names the working directory
    as well, by its absolute path, which is not part of this model: the
    text given for [chdir] is not the one of Node, and no statement below
    rests on it. *)
Definition message (e : exn) : string :=
  match e with
  | Error m => m
  | TypeError m => m
  | OtherError _ m => m
  | SystemError c syscall p => errno_text c +:+ ", " +:+ syscall +:+ " '" +:+ p +:+ "'"
  end.

(** The first line of what [console.error(error)] prints, the class and
    the message; the stack frames and the properties that follow are left
    out. *)
Definition inspect (e : exn) : string :=
  match e with
  | TypeError m => "TypeError: " +:+ m
  | OtherError name m => name +:+ ": " +:+ m
  | _ => "Error: " +:+ message e
  end.

Record state : Type := {
  files : gmap (list string) node;   (* paths from the launch directory *)
  cwd : list string
}.

Inductive outcome (A : Type) : Type :=
| Return (a : A)
| Throw (e : exn)
| Exit (code : Z).                   (* process.exit(code) *)
Arguments Return {A} a.
Arguments Throw {A} e.
Arguments Exit {A} code.

Definition M (A : Type) : Type := state -> outcome A * state * list event.

#[global] Instance M_ret : MRet M := fun A a s => (Return a, s, []).

#[global] Instance M_bind : MBind M := fun A B k m s =>
  match m s with
  | (Return a, s1, t1) =>
      match k a s1 with (r, s2, t2) => (r, s2, t1 ++ t2) end
  | (Throw e, s1, t1) => (Throw e, s1, t1)
  | (Exit c, s1, t1) => (Exit c, s1, t1)
  end.

Definition emit (e : event) : M unit := fun s => (Return tt, s, [e]).
Definition throw {A} (e : exn) : M A := fun s => (Throw e, s, []).
Definition process_exit {A} (code : Z) : M A := fun s => (Exit code, s, []).

(** [try { body } catch (error) { handler(error) }]: only a thrown value
    is caught, [process.exit] is not. *)
Definition try_catch {A} (body : M A) (handler : exn -> M A) : M A := fun s =>
  match body s with
  | (Throw e, s1, t1) =>
      match handler e s1 with (r, s2, t2) => (r, s2, t1 ++ t2) end
  | other => other
  end.

Definition console_log (text : string) : M unit := emit (Stdout text).
Definition console_error (text : string) : M unit := emit (Stderr text).

(** An SDK call: the event, then the value or the throw. *)
Definition call {A} (c : sdk_call) (r : result exn A) : M A :=
  match r with
  | Ok a => emit (Sdk c true) ;; mret a
  | Err e => emit (Sdk c false) ;; throw e
  end.

(** ** The file system

    Paths are lists of components below the launch directory, which is a
    directory throughout.  The script uses relative paths only, without
    [..]; a path is resolved against the working directory.  The errors
    modelled are the structural ones (the target or its parent being
    absent, a file or a directory). *)

Fixpoint split_path (p : string) : list string :=
  match p with
  | EmptyString => [EmptyString]
  | String c r =>
      if Ascii.eqb c "/" then EmptyString :: split_path r
      else match split_path r with
           | h :: t => String c h :: t
           | [] => [String c EmptyString]
           end
  end.

Definition components (p : string) : list string :=
  List.filter (fun c => negb (String.eqb c "" || String.eqb c ".")) (split_path p).

Definition resolve (s : state) (p : string) : list string :=
  cwd s ++ components p.

Definition stat (fs : gmap (list string) node) (q : list string) : option node :=
  match q with
  | [] => Some Dir
  | _ => fs !! q
  end.

Definition fs_error {A} (code : errno) (syscall p : string) : M A :=
  emit (FsError syscall p code) ;; throw (SystemError code syscall p).

Definition existsSync (p : string) : M bool := fun s =>
  (Return (match stat (files s) (resolve s p) with Some _ => true | None => false end),
   s, []).

Definition mkdirSync (p : string) : M unit := fun s =>
  let q := resolve s p in
  match stat (files s) q with
  | Some _ => fs_error EEXIST "mkdir" p s
  | None =>
      match stat (files s) (removelast q) with
      | Some Dir => (Return tt, {| files := <[q := Dir]> (files s); cwd := cwd s |}, [Mkdir p])
      | Some (File _) => fs_error ENOTDIR "mkdir" p s
      | None => fs_error ENOENT "mkdir" p s
      end
  end.

Definition writeFileSync (p data : string) : M unit := fun s =>
  let q := resolve s p in
  match stat (files s) q with
  | Some Dir => fs_error EISDIR "open" p s
  | _ =>
      match stat (files s) (removelast q) with
      | Some Dir =>
          (Return tt, {| files := <[q := File data]> (files s); cwd := cwd s |},
           [WriteFile p data])
      | Some (File _) => fs_error ENOTDIR "open" p s
      | None => fs_error ENOENT "open" p s
      end
  end.

Definition chdir (p : string) : M unit := fun s =>
  let q := resolve s p in
  match stat (files s) q with
  | Some Dir => (Return tt, {| files := files s; cwd := q |}, [Chdir p])
  | Some (File _) => fs_error ENOTDIR "chdir" p s
  | None => fs_error ENOENT "chdir" p s
  end.

(** [require(p)] of a JSON file: the text of the file, when there is one. *)
Definition require_text (p : string) : M string := fun s =>
  match stat (files s) (resolve s p) with
  | Some (File text) => (Return text, s, [])
  | _ => (Throw (Error ("Cannot find module '" +:+ p +:+ "'")), s, [RequireError p])
  end.

(** [array.forEach(f)]. *)
Fixpoint forEach {A} (l : list A) (f : A -> M unit) : M unit :=
  match l with
  | [] => mret tt
  | x :: r => f x ;; forEach r f
  end.

(** ** Date.prototype.toISOString

    The time value is a number of milliseconds since the epoch, UTC.  The
    year, month and day of a day number are computed in closed form over
    the 400-year cycle of the calendar, which counts from 1 March of year
    0 (719468 days before the epoch). *)

Definition msPerDay : Z := 86400000.

(** The date of a day of the cycle: the year within the cycle (0 to 400,
    January and February counting for the next year), the month and the
    day of the month. *)
Definition date_of_doe (doe : Z) : Z * Z * Z :=
  let yoe := (doe - doe / 1460 + doe / 36524 - doe / 146096) / 365 in
  let doy := doe - (365 * yoe + yoe / 4 - yoe / 100) in
  let mp := (5 * doy + 2) / 153 in
  let d := doy - (153 * mp + 2) / 5 + 1 in
  let m := if mp <? 10 then mp + 3 else mp - 9 in
  (yoe + (if m <=? 2 then 1 else 0), m, d).

Definition civil_from_days (day : Z) : Z * Z * Z :=
  let z := day + 719468 in
  let era := z / 146097 in
  let '(y, m, d) := date_of_doe (z mod 146097) in
  (y + era * 400, m, d).

Definition digit (d : Z) : ascii := ascii_of_N (Z.to_N (48 + d)).

(** The last [width] decimal digits of [n], zero padded. *)
Fixpoint pad (width : nat) (n : Z) (acc : string) : string :=
  match width with
  | O => acc
  | S k => pad k (n / 10) (String (digit (n mod 10)) acc)
  end.

Definition toISOString (t : Z) : string :=
  let '(y, m, d) := civil_from_days (t / msPerDay) in
  let ms := t mod msPerDay in
  let year :=
    if (0 <=? y) && (y <=? 9999) then pad 4 y ""
    else (if y <? 0 then "-" else "+") +:+ pad 6 (Z.abs y) "" in
  year +:+ "-" +:+ pad 2 m "" +:+ "-" +:+ pad 2 d "" +:+ "T" +:+
  pad 2 (ms / 3600000) "" +:+ ":" +:+ pad 2 (ms / 60000 mod 60) "" +:+ ":" +:+
  pad 2 (ms / 1000 mod 60) "" +:+ "." +:+ pad 3 (ms mod 1000) "" +:+ "Z".

(** ** The script *)

(** [constructor()] *)
Definition constructor (w : World) : CompleteDeployer :=
  {| projectName := "air-token-project";
     privateKey := or_default (env w !! "PRIVATE_KEY") "YOUR_PRIVATE_KEY_HERE";
     rpcUrl := or_default (env w !! "RPC_URL") "https://sepolia.base.org" |}.

(** *** Child processes

    A child shares the file system and inherits the working directory and
    the console; its events appear under [Sub].  An error that nothing
    catches is printed and gives status 1.  The child is followed to its
    end, every call of its script settling: a request that is never
    answered is the matter of [stalls]. *)

Definition child (command : string) (body : M unit) : M Z := fun s =>
  match body s with
  | (r, s1, t) =>
      let t1 := match r with Throw e => t ++ [Stderr (inspect e)] | _ => t end in
      let status := match r with Return _ => 0 | Throw _ => 1 | Exit c => c end in
      (Return status, {| files := files s1; cwd := cwd s |}, List.map (Sub command) t1)
  end.

(** The record [scripts/deploy.js] saves; [timestamp] is
    [new Date().toISOString()]. *)
Definition deploymentInfo (address deployer timestamp : string) : json :=
  JObject [ ("address", JString address);
            ("deployer", JString deployer);
            ("network", JString "base-sepolia");
            ("timestamp", JString timestamp) ].

(** [main()] of [scripts/deploy.js]. *)
Definition deploy_main (w : World) : M unit :=
  console_log "🚀 Starting AIR token deployment..." ;;
  signers ← call GetSigners (getSigners (hardhat w)) ;
  deployer ← match signers with
             | d :: _ => mret d
             | [] => throw (TypeError "Cannot read properties of undefined (reading 'address')")
             end ;
  console_log ("Deployer: " +:+ deployer) ;;
  balance ← call (GetBalance deployer) (getBalance (hardhat w) deployer) ;
  console_log ("Balance: " +:+ formatEther (hardhat w) balance +:+ " ETH") ;;
  call (GetContractFactory "AIR") (getContractFactory (hardhat w) "AIR") ;;
  air ← call (Deploy "AIR") (deploy (hardhat w) "AIR") ;
  call (WaitForDeployment (c_address air)) (waitForDeployment (hardhat w) air) ;;
  let address := c_address air in
  console_log ("✅ AIR Token deployed to: " +:+ address) ;;
  n ← call (ReadName address) (erc20_name (hardhat w) address) ;
  console_log ("Name: " +:+ n) ;;
  sy ← call (ReadSymbol address) (erc20_symbol (hardhat w) address) ;
  console_log ("Symbol: " +:+ sy) ;;
  supply ← call (ReadTotalSupply address) (erc20_totalSupply (hardhat w) address) ;
  console_log ("Total Supply: " +:+ formatEther (hardhat w) supply) ;;
  writeFileSync "deployment-info.json"
    (JSON_stringify2 (deploymentInfo address deployer (toISOString (now w)))) ;;
  console_log "📄 Deployment info saved to deployment-info.json".

(** [scripts/deploy.js] as a whole: [main().catch(...)]. *)
Definition deploy_js (w : World) : M unit :=
  try_catch (deploy_main w)
    (fun error => console_error (inspect error) ;; process_exit 1).

(** [monitor()] of [monitor.js], generated for the deployer [this].  The
    text written to the file holds the URL of [this] between double
    quotes, as it is: the text is this program when the URL stands for
    itself there ([plain_url]). *)
Definition monitor (w : World) (this : CompleteDeployer) : M unit :=
  call (NewProvider (rpcUrl this)) (Ok tt) ;;
  try_catch
    (text ← require_text "./deployment-info.json" ;
     address ← match parse_address w text with
               | Ok (Some a) => mret a
               | Ok None =>
                   emit (Sdk NewContract false) ;;
                   throw (Error "invalid value for Contract target")
               | Err m => emit (RequireError "./deployment-info.json") ;; throw (Error m)
               end ;
     emit (Sdk NewContract true) ;;
     console_log "👀 Monitoring AIR token..." ;;
     console_log ("Contract: " +:+ address) ;;
     n ← call (ReadName address) (erc20_name (monitoring w) address) ;
     console_log ("Name: " +:+ n) ;;
     console_log ("BaseScan: https://sepolia.basescan.org/address/" +:+ address))
    (fun error => console_log ("Monitoring error: " +:+ message error)).

(** The script file a child is asked to run, when the disk holds it. *)
Definition on_disk (p expected : string) : M bool := fun s =>
  (Return (match stat (files s) (resolve s p) with
           | Some (File text) => String.eqb text expected
           | _ => false
           end), s, []).

Definition deploy_command : string :=
  "npx hardhat run scripts/deploy.js --network baseSepolia".
Definition monitor_command : string := "node monitor.js".

(** The child of a command, run to its end, and its exit status.  [npm]
    and the Hardhat compiler are external tools, of which the world gives
    the status.  Hardhat and Node asked to run a script that the disk
    holds as this repository generates it run the embedded script, after a
    start-up of their own (status [tool w command]) that can fail too; with
    any other file in its place the child is one more external tool. *)
Definition launch (w : World) (this : CompleteDeployer) (command : string) : M Z :=
  if String.eqb command deploy_command then
    known ← on_disk "scripts/deploy.js" deployScript ;
    if known && (tool w command =? 0) then child command (deploy_js w)
    else mret (tool w command)
  else if String.eqb command monitor_command then
    known ← on_disk "monitor.js" (monitorScript this) ;
    if known && (tool w command =? 0) then child command (monitor w this)
    else mret (tool w command)
  else mret (tool w command).

(** [execSync(command, { stdio: 'inherit' })]: a status other than 0
    throws. *)
Definition execSync (w : World) (this : CompleteDeployer) (command : string) : M unit :=
  emit (Spawn command) ;;
  status ← launch w this command ;
  emit (Exited command status) ;;
  if status =? 0 then mret tt else throw (Error ("Command failed: " +:+ command)).

Definition runCommand (w : World) (this : CompleteDeployer) (command : string) : M unit :=
  try_catch (execSync w this command)
    (fun error => throw (Error ("Command failed: " +:+ command))).

(** [if (!fs.existsSync(dir)) fs.mkdirSync(dir)], which the script does
    for the project directory and for each of its sub-directories. *)
Definition mkdir_if_missing (dir : string) : M unit :=
  present ← existsSync dir ;
  if negb present then mkdirSync dir else mret tt.

Definition createProjectStructure (this : CompleteDeployer) : M unit :=
  console_log "📁 Creating project structure..." ;;
  mkdir_if_missing (projectName this) ;;
  chdir (projectName this) ;;
  let dirs := ["contracts"; "scripts"; "artifacts"; "cache"] in
  forEach dirs (fun dir => mkdir_if_missing dir).

Definition installDependencies (w : World) (this : CompleteDeployer) : M unit :=
  console_log "📦 Installing dependencies..." ;;
  writeFileSync "package.json" (JSON_stringify2 packageJson) ;;
  runCommand w this "npm install".

Definition createConfigFiles (this : CompleteDeployer) : M unit :=
  console_log "⚙️  Creating configuration files..." ;;
  writeFileSync "hardhat.config.js" (hardhatConfig this) ;;
  writeFileSync "contracts/AIR.sol" airContract ;;
  writeFileSync "scripts/deploy.js" deployScript ;;
  writeFileSync ".env.example" (envTemplate this) ;;
  writeFileSync ".gitignore" gitignore.

Definition deployContract (w : World) (this : CompleteDeployer) : M unit :=
  console_log "📤 Deploying AIR token..." ;;
  (if negb (truthy (env w !! "PRIVATE_KEY")) &&
      String.eqb (privateKey this) "YOUR_PRIVATE_KEY_HERE"
   then throw (Error "Please set PRIVATE_KEY environment variable or update the script")
   else mret tt) ;;
  runCommand w this "npx hardhat compile" ;;
  runCommand w this "npx hardhat run scripts/deploy.js --network baseSepolia".

Definition startMonitoring (w : World) (this : CompleteDeployer) : M unit :=
  console_log "📊 Starting deployment monitoring..." ;;
  writeFileSync "monitor.js" (monitorScript this) ;;
  runCommand w this "node monitor.js".

(** The five steps of [run], the body of its [try]. *)
Definition steps (w : World) (this : CompleteDeployer) : M unit :=
  createProjectStructure this ;;
  installDependencies w this ;;
  createConfigFiles this ;;
  deployContract w this ;;
  startMonitoring w this ;;
  console_log (newline +:+ "🎉 DEPLOYMENT COMPLETE! Your AIR token is live on Base Sepolia.").

Definition run (w : World) (this : CompleteDeployer) : M unit :=
  console_log ("🚀 STARTING COMPLETE AIR TOKEN DEPLOYMENT SYSTEM" +:+ newline) ;;
  try_catch (steps w this)
    (fun error =>
       console_error ("❌ Deployment failed: " +:+ message error) ;;
       process_exit 1).

Definition bytecode : string :=
  "0x608060405234801561001057600080fd5b5060405161051438038061051483398101604081905261002f916100df565b8282816003908161004091906102f7565b50600480546001600160a01b0319163317905561005c8382610064565b505050506103be565b600280546001600160a01b0319166001600160a01b0384161790556040516000906100909083906100c3565b604051809103906000f0801580156100ac573d6000803e3d6000fd5b509050806001600160a01b03163".

Definition quickDeploy (w : World) : M unit :=
  console_log "⚡ QUICK DEPLOYMENT MODE (Direct Ethers.js)" ;;
  call (NewProvider (or_default (env w !! "RPC_URL") "https://sepolia.base.org")) (Ok tt) ;;
  let privateKey := or_default (env w !! "PRIVATE_KEY") "YOUR_PRIVATE_KEY_HERE" in
  (if String.eqb privateKey "YOUR_PRIVATE_KEY_HERE" then
     console_log "❌ Please set PRIVATE_KEY environment variable" ;;
     process_exit 1
   else mret tt) ;;
  wallet ← call NewWallet (Wallet (sdk w) privateKey) ;
  console_log ("Deployer: " +:+ wallet) ;;
  balance ← call (GetBalance wallet) (getBalance (sdk w) wallet) ;
  console_log ("Balance: " +:+ formatEther (sdk w) balance +:+ " ETH") ;;
  call (NewContractFactory bytecode) (ContractFactory (sdk w) bytecode) ;;
  console_log "🚀 Deploying..." ;;
  contract ← call (Deploy bytecode) (deploy (sdk w) bytecode) ;
  call (WaitForDeployment (c_address contract)) (waitForDeployment (sdk w) contract) ;;
  console_log ("✅ Contract deployed to: " +:+ c_address contract) ;;
  console_log ("Transaction hash: " +:+ c_hash contract).

Definition main (w : World) : M unit :=
  let args := skipn 2 (argv w) in
  if includes args "--quick" then quickDeploy w
  else run w (constructor w).

(** The process: [main().catch(console.error)], from the launch directory.
    The exit code is the one of [process.exit] when it was called, and 0
    when the event loop runs empty, also after a logged rejection.  The
    process is followed to its end, every call settling: a request that is
    never answered is the matter of [stalls] and [exit_status]. *)
Definition start (w : World) : state := {| files := disk w; cwd := [] |}.

Definition process (w : World) : Z * state * list event :=
  match main w (start w) with
  | (Return _, s, t) => (0, s, t)
  | (Throw e, s, t) => (0, s, t ++ [Stderr (inspect e)])
  | (Exit c, s, t) => (c, s, t)
  end.

(** Quick mode was asked for. *)
Definition quick (w : World) : bool := includes (skipn 2 (argv w)) "--quick".

Definition exit_code (w : World) : Z := (process w).1.1.
Definition final (w : World) : state := (process w).1.2.
Definition trace (w : World) : list event := (process w).2.

(** ** Vocabulary of the properties *)

(** Console output and SDK calls: the events that leave the disk alone. *)
Definition console_or_sdk (e : event) : bool :=
  match e with
  | Stdout _ | Stderr _ | Sdk _ _ => true
  | _ => false
  end.

(** An event that reports a failure: a failed file-system call or
    [require], a failed SDK call, a child that ended with a status other
    than 0; in a child as well. *)
Fixpoint failure (e : event) : bool :=
  match e with
  | FsError _ _ _ | RequireError _ => true
  | Sdk _ ok => negb ok
  | Exited _ status => negb (status =? 0)
  | Sub _ e' => failure e'
  | _ => false
  end.

(** The events of the monitor script. *)
Definition in_monitor (e : event) : bool :=
  match e with
  | Sub command _ => String.eqb command monitor_command
  | _ => false
  end.

(** A failure outside the monitor script. *)
Definition hard (e : event) : bool := failure e && negb (in_monitor e).

(** A child that ended with a status other than 0. *)
Definition failed_exit (e : event) : bool :=
  match e with
  | Exited _ status => negb (status =? 0)
  | _ => false
  end.

(** No failure outside the monitor script; no child that failed. *)
Definition quiet (t : list event) : bool := forallb (fun e => negb (hard e)) t.
Definition clean (t : list event) : bool := forallb (fun e => negb (failed_exit e)) t.

(** The lines [run] prints first and last. *)
Definition starting : string :=
  "🚀 STARTING COMPLETE AIR TOKEN DEPLOYMENT SYSTEM" +:+ newline.
Definition complete : string :=
  newline +:+ "🎉 DEPLOYMENT COMPLETE! Your AIR token is live on Base Sepolia.".
Definition deployment_failed (m : string) : string := "❌ Deployment failed: " +:+ m.

(** What step 4 throws without a credential. *)
Definition credential_error : exn :=
  Error "Please set PRIVATE_KEY environment variable or update the script".

(** The files of steps 2 and 3, by the path the script passes and their
    text. *)
Definition scaffolded (this : CompleteDeployer) : list (string * string) :=
  [ ("package.json", JSON_stringify2 packageJson);
    ("hardhat.config.js", hardhatConfig this);
    ("contracts/AIR.sol", airContract);
    ("scripts/deploy.js", deployScript);
    (".env.example", envTemplate this);
    (".gitignore", gitignore) ].

(** All the files the script writes itself. *)
Definition generated (this : CompleteDeployer) : list (string * string) :=
  scaffolded this ++ [ ("monitor.js", monitorScript this) ].

(** The world [w] with PRIVATE_KEY set to [k], or unset. *)
Definition with_key (k : option string) (w : World) : World :=
  {| argv := argv w;
     env := match k with
            | Some v => <["PRIVATE_KEY" := v]> (env w)
            | None => delete "PRIVATE_KEY" (env w)
            end;
     disk := disk w;
     now := now w;
     tool := tool w;
     parse_address := parse_address w;
     sdk := sdk w;
     hardhat := hardhat w;
     monitoring := monitoring w |}.

(** ** Properties of endings and traces

    Each is stated of how a computation ended and of the events up to
    there, so that it can be followed through the steps of the script. *)

(** How a computation ended, without the value it returned. *)
Definition erase {A} (r : outcome A) : outcome unit :=
  match r with
  | Return _ => Return tt
  | Throw e => Throw e
  | Exit c => Exit c
  end.

(** [P] holds of every ending of [m] and the events up to it. *)
Definition holds (P : outcome unit -> list event -> Prop) {A} (m : M A) : Prop :=
  forall s r s' t, m s = (r, s', t) -> P (erase r) t.

(** Fail-stop runs: a run never calls [process.exit]; one that returns has
    seen no failure outside the monitor script; one that throws has seen no
    child end with a status other than 0, unless this is the last thing
    that happened and what is thrown is the error of that command. *)
Definition fail_stop (r : outcome unit) (t : list event) : Prop :=
  match r with
  | Return _ => quiet t = true
  | Throw e =>
      clean t = true \/
      exists l cmd st,
        t = l ++ [Exited cmd st] /\ clean l = true /\ st <> 0 /\
        e = Error ("Command failed: " +:+ cmd)
  | Exit _ => False
  end.

(** No event of the monitor script. *)
Definition no_monitor (r : outcome unit) (t : list event) : Prop :=
  forall e, ~ In (Sub monitor_command e) t.

(** No SDK call of the process itself (its children apart). *)
Definition no_call (r : outcome unit) (t : list event) : Prop :=
  forall c ok, ~ In (Sdk c ok) t.

(** The status of [npm install] is the one of the tool. *)
Definition npm_status (w : World) (r : outcome unit) (t : list event) : Prop :=
  forall st, In (Exited "npm install" st) t -> st = tool w "npm install".

(** The files written are among the generated ones. *)
Definition writes_generated (this : CompleteDeployer) (r : outcome unit)
    (t : list event) : Prop :=
  forall p d, In (WriteFile p d) t -> In (p, d) (generated this).

(** What steps 1 to 3 can do: nothing goes to the error stream, the only
    command is [npm install], and an error they throw is not the one about
    the credential. *)
Definition scaffolding (r : outcome unit) (t : list event) : Prop :=
  (forall x, ~ In (Stderr x) t) /\
  (forall cmd, In (Spawn cmd) t -> cmd = "npm install") /\
  match r with
  | Return _ => True
  | Throw e => message e <> message credential_error
  | Exit _ => False
  end.

(** Whatever a child writes is the deployment record. *)
Definition records (w : World) (r : outcome unit) (t : list event) : Prop :=
  forall cmd p d, In (Sub cmd (WriteFile p d)) t ->
    p = "deployment-info.json" /\
    exists c deployer others,
      getSigners (hardhat w) = Ok (deployer :: others) /\
      deploy (hardhat w) "AIR" = Ok c /\
      d = JSON_stringify2 (deploymentInfo (c_address c) deployer (toISOString (now w))).

(** ** Reading back what the deployment script writes *)

(** A syntactically valid address: [0x] and forty hexadecimal digits. *)
Definition is_hex (c : ascii) : bool :=
  let n := N_of_ascii c in
  ((48 <=? n) && (n <=? 57) || (65 <=? n) && (n <=? 70) || (97 <=? n) && (n <=? 102))%N.

Fixpoint all_chars (f : ascii -> bool) (s : string) : bool :=
  match s with
  | EmptyString => true
  | String c r => f c && all_chars f r
  end.

Definition is_address (s : string) : bool :=
  match s with
  | String c0 (String c1 r) =>
      Ascii.eqb c0 "0" && Ascii.eqb c1 "x" && (String.length r =? 40)%nat &&
      all_chars is_hex r
  | _ => false
  end.

(** The characters that QuoteJSONString leaves as they are. *)
Definition plain (c : ascii) : bool :=
  let n := N_of_ascii c in ((32 <=? n) && negb (n =? 34) && negb (n =? 92))%N.

(** The text of the deployment record, for fields that need no escape. *)
Definition record_text (address deployer timestamp : string) : string :=
  "{" +:+ newline +:+
  lit "  `address`: `" +:+ address +:+ lit "`," +:+ newline +:+
  lit "  `deployer`: `" +:+ deployer +:+ lit "`," +:+ newline +:+
  lit "  `network`: `base-sepolia`," +:+ newline +:+
  lit "  `timestamp`: `" +:+ timestamp +:+ lit "`" +:+ newline +:+
  "}".

(** DayFromYear of ECMAScript: the day number of 1 January of a year. *)
Definition DayFromYear (y : Z) : Z :=
  365 * (y - 1970) + (y - 1969) / 4 - (y - 1901) / 100 + (y - 1601) / 400.

(** The calendar: leap years, the length of a month, and the day number
    of a date. *)
Definition is_leap (y : Z) : bool :=
  (y mod 4 =? 0) && (negb (y mod 100 =? 0) || (y mod 400 =? 0)).

Definition days_in_month (y m : Z) : Z :=
  if m =? 2 then (if is_leap y then 29 else 28)
  else if (m =? 4) || (m =? 6) || (m =? 9) || (m =? 11) then 30
  else 31.

Definition days_from_civil (y m d : Z) : Z :=
  let y1 := if m <=? 2 then y - 1 else y in
  let era := y1 / 400 in
  let yoe := y1 mod 400 in
  let mp := if m <=? 2 then m + 9 else m - 3 in
  let doy := (153 * mp + 2) / 5 + d - 1 in
  let doe := yoe * 365 + yoe / 4 - yoe / 100 + doy in
  era * 146097 + doe - 719468.

Definition is_digit (c : ascii) : bool :=
  let n := N_of_ascii c in ((48 <=? n) && (n <=? 57))%N.

Definition digit_value (c : ascii) : Z := Z.of_N (N_of_ascii c) - 48.

(** [k] decimal digits, added to [acc]. *)
Fixpoint take_digits (k : nat) (acc : Z) (s : string) : option (Z * string) :=
  match k with
  | O => Some (acc, s)
  | S k' =>
      match s with
      | String c r =>
          if is_digit c then take_digits k' (10 * acc + digit_value c) r else None
      | EmptyString => None
      end
  end.

Definition expect (c : ascii) (s : string) : option string :=
  match s with
  | String c' r => if Ascii.eqb c c' then Some r else None
  | EmptyString => None
  end.

(** Four digits, or a sign and six digits; [-000000] is not a year. *)
Definition take_year (s : string) : option (Z * string) :=
  match s with
  | String c r =>
      if Ascii.eqb c "+" then take_digits 6 0 r
      else if Ascii.eqb c "-" then
        match take_digits 6 0 r with
        | Some (y, r') => if y =? 0 then None else Some (- y, r')
        | None => None
        end
      else take_digits 4 0 s
  | EmptyString => None
  end.

(** [Date.parse] on the complete form of the ISO 8601 format of
    ECMAScript, [YYYY-MM-DDTHH:mm:ss.sssZ] with the year in four digits or
    in six with a sign: the time value, when every field is in range. *)
Definition Date_parse (s : string) : option Z :=
  '(y, s) ← take_year s ;
  s ← expect "-" s ;
  '(m, s) ← take_digits 2 0 s ;
  s ← expect "-" s ;
  '(d, s) ← take_digits 2 0 s ;
  s ← expect "T" s ;
  '(h, s) ← take_digits 2 0 s ;
  s ← expect ":" s ;
  '(mi, s) ← take_digits 2 0 s ;
  s ← expect ":" s ;
  '(sec, s) ← take_digits 2 0 s ;
  s ← expect "." s ;
  '(ms, s) ← take_digits 3 0 s ;
  s ← expect "Z" s ;
  if String.eqb s "" && (1 <=? m) && (m <=? 12) && (1 <=? d) && (d <=? days_in_month y m)
     && (h <=? 23) && (mi <=? 59) && (sec <=? 59)
  then Some (days_from_civil y m d * msPerDay + h * 3600000 + mi * 60000 + sec * 1000 + ms)
  else None.

(** The time values of ECMAScript. *)
Definition valid_time (t : Z) : Prop := -8640000000000000 <= t <= 8640000000000000.

(** [f] holds of the [len] integers from [start] on. *)
Fixpoint forall_range (f : Z -> bool) (len : nat) (start : Z) : bool :=
  match len with
  | O => true
  | S k => f start && forall_range f k (start + 1)
  end.

(** The days of one cycle of 400 years, checked one by one: the date of a
    day is a date of the calendar, and counts back to the day. *)
Definition doe_ok (doe : Z) : bool :=
  let '(y, m, d) := date_of_doe doe in
  let yoe := if m <=? 2 then y - 1 else y in
  let mp := if m <=? 2 then m + 9 else m - 3 in
  (0 <=? yoe) && (yoe <=? 399) && (1 <=? m) && (m <=? 12) && (1 <=? d) &&
  (d <=? days_in_month y m) &&
  (yoe * 365 + yoe / 4 - yoe / 100 + ((153 * mp + 2) / 5 + d - 1) =? doe).

(** ** What ethers takes for bytecode

    [new ethers.ContractFactory(abi, bytecode, runner)] puts "0x" before a
    string that does not start with it and hands the string to [getBytes],
    which throws a TypeError unless the string matches
    [/^0x(?:[0-9a-f][0-9a-f])*$/i]: hexadecimal digits, in pairs. *)
Fixpoint hex_pairs (s : string) : bool :=
  match s with
  | EmptyString => true
  | String a (String b rest) => is_hex a && is_hex b && hex_pairs rest
  | String _ EmptyString => false
  end.

Definition is_bytes_like (s : string) : bool :=
  match s with
  | String c0 (String c1 rest) =>
      Ascii.eqb c0 "0" && (Ascii.eqb c1 "x" || Ascii.eqb c1 "X") && hex_pairs rest
  | _ => false
  end.

Definition accepts_bytecode (code : string) : bool :=
  is_bytes_like (if String.prefix "0x" code then code else "0x" +:+ code).

(** An SDK that checks the bytecode of a factory as ethers does. *)
Definition validating (e : Ethers) : Prop :=
  forall code, accepts_bytecode code = false -> exists err, ContractFactory e code = Err err.

(** ** The URL in the generated scripts

    [hardhat.config.js] and [monitor.js] hold the URL between double
    quotes, as it is.  The scripts are the programs embedded above when
    every character of the URL stands for itself there: no double quote,
    no backslash, no control character (a line break is one). *)
Definition plain_url (u : string) : bool := all_chars plain u.

(** ** Endpoints out of reach

    The answers of a world are those of calls that settle.  The
    [JsonRpcProvider] of ethers 6 does not report an endpoint on which it
    finds no network: it asks again every second, without end; a request
    that waits for it never settles, and the process that awaits the
    request never ends.  Quick mode and the monitor script use such a
    provider.  The deployment script uses the provider of Hardhat, which
    reports such an endpoint as an error: [reachable] is not read for
    it. *)

(** A request that is never answered. *)
Definition unanswered (w : World) (e : event) : bool :=
  match e with
  | Sdk c _ => is_network_call c && negb (reachable (sdk w))
  | Sub command (Sdk c _) =>
      String.eqb command monitor_command && is_network_call c &&
      negb (reachable (monitoring w))
  | _ => false
  end.

(** The run comes to a request that is never answered.  The events of
    [trace] up to that request are those of the run; the process does not
    come to the ones that follow, and does not end. *)
Definition stalls (w : World) : bool := existsb (unanswered w) (trace w).

(** The exit code of the process, when it ends. *)
Definition exit_status (w : World) : option Z :=
  if stalls w then None else Some (exit_code w).
(** ** Who does what *)

(** The events of the monitor script: lines on the standard output, the
    record that cannot be loaded, and of the SDK the provider, the contract
    object and the read of the name. *)
Definition monitor_event (e : event) : bool :=
  match e with
  | Stdout _ | RequireError _ => true
  | Sdk (NewProvider _) _ | Sdk NewContract _ | Sdk (ReadName _) _ => true
  | _ => false
  end.

(** The events of the deployment script. *)
Definition deploy_event (e : event) : bool :=
  match e with
  | Stdout _ | Stderr _ => true
  | Sdk c _ =>
      match c with
      | GetSigners | GetBalance _ | GetContractFactory _ | Deploy _
      | WaitForDeployment _ | ReadName _ | ReadSymbol _ | ReadTotalSupply _ => true
      | _ => false
      end
  | WriteFile p _ | FsError _ p _ => String.eqb p "deployment-info.json"
  | _ => false
  end.

(** A creation transaction is submitted, by the process or by a child. *)
Fixpoint is_deploy (e : event) : bool :=
  match e with
  | Sdk (Deploy _) _ => true
  | Sub _ e' => is_deploy e'
  | _ => false
  end.

(** The commands started, and the commands that ended, in order. *)
Definition spawned (t : list event) : list string :=
  omap (fun e => match e with Spawn cmd => Some cmd | _ => None end) t.

Definition exited (t : list event) : list (string * Z) :=
  omap (fun e => match e with Exited cmd st => Some (cmd, st) | _ => None end) t.

(** The four commands of [run], in the order of the steps. *)
Definition commands : list string :=
  [ "npm install"; "npx hardhat compile"; deploy_command; monitor_command ].

(** The events of a run in scaffold-and-deploy mode: the process itself
    makes no SDK call and loads no module; a child is one of the two
    scripts. *)
Definition expected (e : event) : bool :=
  match e with
  | Sdk _ _ | RequireError _ => false
  | Sub cmd e' =>
      String.eqb cmd monitor_command && monitor_event e' ||
      String.eqb cmd deploy_command && deploy_event e'
  | _ => true
  end.

Definition as_expected (r : outcome unit) (t : list event) : Prop :=
  forallb expected t = true.

(** The number of creation transactions submitted. *)
Definition deployments (t : list event) : nat := length (List.filter is_deploy t).

(** No creation transaction. *)
Definition no_deployment (r : outcome unit) (t : list event) : Prop :=
  deployments t = 0%nat.

(** The commands of a part of the script are [cs]: each one started has
    ended; a part that returns has run them all, in order and each with
    status 0; a part that does not has started the first ones only. *)
Definition in_order (cs : list string) (r : outcome unit) (t : list event) : Prop :=
  List.map fst (exited t) = spawned t /\
  match r with
  | Return _ => exited t = List.map (fun cmd => (cmd, 0)) cs
  | _ => spawned t `prefix_of` cs
  end.

(** The command [cmd] has not ended, not having been started. *)
Definition no_exit (cmd : string) (r : outcome unit) (t : list event) : Prop :=
  forall st, ~ In (Exited cmd st) t.

(** A record written by the deployment script is followed by the end of the
    deployment command, with status 0. *)
Definition recorded (r : outcome unit) (t : list event) : Prop :=
  forall p d, In (Sub deploy_command (WriteFile p d)) t ->
    In (Exited deploy_command 0) t.

(** ** What a run leaves alone *)

(** Outside [root], the disk of [s'] is the disk of [s]. *)
Definition within (root : list string) (s s' : state) : Prop :=
  forall q, ~ root `prefix_of` q -> files s' !! q = files s !! q.

(** The working directory is the same, and so is the disk outside it. *)
Definition stays (s s' : state) : Prop :=
  cwd s' = cwd s /\ within (cwd s) s s'.

(** A computation that keeps to the working directory. *)
Definition confined {A} (m : M A) : Prop :=
  forall s r s' t, m s = (r, s', t) -> stays s s'.

(** With a credential: nothing goes to the error stream, the process is
    not ended, and an error thrown is not the one about the credential and
    comes after a failure outside the monitor script. *)
Definition mishap (r : outcome unit) (t : list event) : Prop :=
  (forall x, ~ In (Stderr x) t) /\
  match r with
  | Return _ => True
  | Throw e =>
      message e <> message credential_error /\
      exists ev, In ev t /\ hard ev = true
  | Exit _ => False
  end.

(** The paths of the project: the directories of step 1 and the files of
    steps 2 and 3, from the launch directory. *)
Definition project_directories : list (list string) :=
  [ ["air-token-project"];
    ["air-token-project"; "contracts"];
    ["air-token-project"; "scripts"];
    ["air-token-project"; "artifacts"];
    ["air-token-project"; "cache"] ].

Definition scaffolded_paths : list (list string) :=
  [ ["air-token-project"; "package.json"];
    ["air-token-project"; "hardhat.config.js"];
    ["air-token-project"; "contracts"; "AIR.sol"];
    ["air-token-project"; "scripts"; "deploy.js"];
    ["air-token-project"; ".env.example"];
    ["air-token-project"; ".gitignore"] ].

(** The text of the record of a deployment. *)
Definition record_of (w : World) (c : contract) (deployer : string) : string :=
  JSON_stringify2 (deploymentInfo (c_address c) deployer (toISOString (now w))).
(** ** JSON.parse

    [require] of a [.json] file parses its text.  The values are those of
    [json]: a text with a number, an array or a literal in it is outside
    the model, and so is an escape [\u] of a surrogate; for them the
    result is [None], as it is for a text that is not JSON.  The members of
    an object are in the order of the text, a repeated key keeping its
    place and taking the last value. *)

Definition is_ws (c : ascii) : bool :=
  let n := N_of_ascii c in ((n =? 32) || (n =? 10) || (n =? 13) || (n =? 9))%N.

Fixpoint skip_ws (s : string) : string :=
  match s with
  | String c r => if is_ws c then skip_ws r else s
  | EmptyString => s
  end.

Definition hex_value (c : ascii) : option N :=
  let n := N_of_ascii c in
  if ((48 <=? n) && (n <=? 57))%N then Some (n - 48)%N
  else if ((65 <=? n) && (n <=? 70))%N then Some (n - 55)%N
  else if ((97 <=? n) && (n <=? 102))%N then Some (n - 87)%N
  else None.

(** The bytes of a code unit that is not a surrogate, in UTF-8. *)
Definition utf8 (u : N) : option string :=
  if (u <? 128)%N then Some (String (ascii_of_N u) EmptyString)
  else if (u <? 2048)%N then
    Some (String (ascii_of_N (192 + u / 64))
            (String (ascii_of_N (128 + u mod 64)) EmptyString))
  else if ((55296 <=? u) && (u <=? 57343))%N then None
  else
    Some (String (ascii_of_N (224 + u / 4096))
            (String (ascii_of_N (128 + u / 64 mod 64))
               (String (ascii_of_N (128 + u mod 64)) EmptyString))).

(** The character after a backslash, [u] apart. *)
Definition unescape (c : ascii) : option ascii :=
  let n := N_of_ascii c in
  if ((n =? 34) || (n =? 92) || (n =? 47))%N then Some c
  else if (n =? 98)%N then Some "008"%char
  else if (n =? 102)%N then Some "012"%char
  else if (n =? 110)%N then Some "010"%char
  else if (n =? 114)%N then Some "013"%char
  else if (n =? 116)%N then Some "009"%char
  else None.

(** The characters of a string up to the closing quote, and what follows
    it. *)
Fixpoint parse_chars (s : string) : option (string * string) :=
  match s with
  | EmptyString => None
  | String c r =>
      if Ascii.eqb c dquote then Some (EmptyString, r)
      else if Ascii.eqb c "\" then
        match r with
        | String e r1 =>
            if Ascii.eqb e "u" then
              match r1 with
              | String h1 (String h2 (String h3 (String h4 r2))) =>
                  match hex_value h1, hex_value h2, hex_value h3, hex_value h4 with
                  | Some d1, Some d2, Some d3, Some d4 =>
                      match utf8 (((d1 * 16 + d2) * 16 + d3) * 16 + d4)%N,
                            parse_chars r2 with
                      | Some bytes, Some (body, rest) => Some (bytes +:+ body, rest)
                      | _, _ => None
                      end
                  | _, _, _, _ => None
                  end
              | _ => None
              end
            else
              match unescape e, parse_chars r1 with
              | Some c', Some (body, rest) => Some (String c' body, rest)
              | _, _ => None
              end
        | EmptyString => None
        end
      else if (N_of_ascii c <? 32)%N then None
      else
        match parse_chars r with
        | Some (body, rest) => Some (String c body, rest)
        | None => None
        end
  end.

(** [CreateDataProperty] on the members of an object. *)
Fixpoint set_member (k : string) (v : json) (ms : list (string * json)) :
    list (string * json) :=
  match ms with
  | [] => [(k, v)]
  | (k', v') :: r =>
      if String.eqb k k' then (k', v) :: r else (k', v') :: set_member k v r
  end.

Definition object_of (ms : list (string * json)) : json :=
  JObject (fold_left (fun acc kv => set_member kv.1 kv.2 acc) ms []).

(** A value and what follows it; the members of an object, from a key on
    and up to the closing brace, and what follows it.  The recursion is
    on [fuel], of which the length of the text is enough. *)
Fixpoint parse_value (fuel : nat) (s : string) : option (json * string) :=
  match fuel with
  | O => None
  | S fuel' =>
      match s with
      | String c r =>
          if Ascii.eqb c dquote then
            match parse_chars r with
            | Some (str, rest) => Some (JString str, rest)
            | None => None
            end
          else if Ascii.eqb c "{" then
            match skip_ws r with
            | String c1 r1 =>
                if Ascii.eqb c1 "}" then Some (JObject [], r1)
                else
                  match parse_members fuel' (String c1 r1) with
                  | Some (ms, rest) => Some (object_of ms, rest)
                  | None => None
                  end
            | EmptyString => None
            end
          else None
      | EmptyString => None
      end
  end
with parse_members (fuel : nat) (s : string) : option (list (string * json) * string) :=
  match fuel with
  | O => None
  | S fuel' =>
      match skip_ws s with
      | String c r =>
          if Ascii.eqb c dquote then
            match parse_chars r with
            | Some (k, r1) =>
                match skip_ws r1 with
                | String c2 r2 =>
                    if Ascii.eqb c2 ":" then
                      match parse_value fuel' (skip_ws r2) with
                      | Some (v, r3) =>
                          match skip_ws r3 with
                          | String c4 r4 =>
                              if Ascii.eqb c4 "," then
                                match parse_members fuel' r4 with
                                | Some (ms, r5) => Some ((k, v) :: ms, r5)
                                | None => None
                                end
                              else if Ascii.eqb c4 "}" then Some ([(k, v)], r4)
                              else None
                          | EmptyString => None
                          end
                      | None => None
                      end
                    else None
                | EmptyString => None
                end
            | None => None
            end
          else None
      | EmptyString => None
      end
  end.

(** [JSON.parse]. *)
Definition JSON_parse (text : string) : option json :=
  match parse_value (String.length text) (skip_ws text) with
  | Some (v, rest) => if String.eqb (skip_ws rest) "" then Some v else None
  | None => None
  end.

(** The member [k] of an object. *)
Fixpoint member (k : string) (ms : list (string * json)) : option json :=
  match ms with
  | [] => None
  | (k', v) :: r => if String.eqb k k' then Some v else member k r
  end.

(** [value.address], when it is a string. *)
Definition address_of (v : json) : option string :=
  match v with
  | JObject ms =>
      match member "address" ms with
      | Some (JString a) => Some a
      | _ => None
      end
  | JString _ => None
  end.

(** An array index as a key: a decimal numeral without a leading zero. *)
Definition array_index (k : string) : bool :=
  match k with
  | EmptyString => false
  | String c r =>
      all_chars is_digit k && (negb (Ascii.eqb c "0") || String.eqb r "")
  end.

(** The keys of each object are distinct, and none is an array index:
    the members are then in the order in which the object enumerates
    them. *)
Fixpoint distinct (ks : list string) : bool :=
  match ks with
  | [] => true
  | k :: r => negb (existsb (String.eqb k) r) && distinct r
  end.

Fixpoint well_formed (v : json) : bool :=
  match v with
  | JString _ => true
  | JObject ms =>
      distinct (List.map fst ms) &&
      forallb (fun kv => negb (array_index kv.1) && well_formed kv.2) ms
  end.

(** The fuel that parsing the text of a value takes. *)
Fixpoint weight (v : json) : nat :=
  match v with
  | JString _ => 1
  | JObject ms => S (list_sum (List.map (fun kv => S (weight kv.2)) ms))
  end.

(** The text of a member of an object at the indentation [indent]. *)
Definition member_text (indent : string) (kv : string * json) : string :=
  QuoteJSONString kv.1 +:+ ":" +:+ " " +:+ SerializeJSONProperty "  " indent kv.2.

(** ** Worlds that differ in one input *)

(** The world [w] with other arguments on the command line. *)
Definition with_args (args : list string) (w : World) : World :=
  {| argv := args;
     env := env w;
     disk := disk w;
     now := now w;
     tool := tool w;
     parse_address := parse_address w;
     sdk := sdk w;
     hardhat := hardhat w;
     monitoring := monitoring w |}.

(** The world [w] with RPC_URL set to [u], or unset. *)
Definition with_rpc_url (u : option string) (w : World) : World :=
  {| argv := argv w;
     env := match u with
            | Some v => <["RPC_URL" := v]> (env w)
            | None => delete "RPC_URL" (env w)
            end;
     disk := disk w;
     now := now w;
     tool := tool w;
     parse_address := parse_address w;
     sdk := sdk w;
     hardhat := hardhat w;
     monitoring := monitoring w |}.

(** The world [w] with another disk in the launch directory. *)
Definition with_disk (fs : gmap (list string) node) (w : World) : World :=
  {| argv := argv w;
     env := env w;
     disk := fs;
     now := now w;
     tool := tool w;
     parse_address := parse_address w;
     sdk := sdk w;
     hardhat := hardhat w;
     monitoring := monitoring w |}.

(** The run that follows a run of [w]: the same world, with the disk as
    the first run left it. *)
Definition again (w : World) : World := with_disk (files (final w)) w.

Definition is_mkdir (e : event) : bool :=
  match e with
  | Mkdir _ => true
  | _ => false
  end.

(** What the deployment script does without a signer. *)
Definition unsigned : list event :=
  [ Stdout "🚀 Starting AIR token deployment...";
    Sdk GetSigners true;
    Stderr "TypeError: Cannot read properties of undefined (reading 'address')" ].

(** The events of the deployment script are those, the last one
    included. *)
Definition stops_unsigned (r : outcome unit) (t : list event) : Prop :=
  forall e, In (Sub deploy_command e) t ->
    In e unsigned /\
    In (Sub deploy_command
          (Stderr "TypeError: Cannot read properties of undefined (reading 'address')")) t.

(** ** A disk that takes the project *)

(** The paths the script and the deployment script write a file to. *)
Definition written_paths : list (list string) :=
  scaffolded_paths ++
  [ ["air-token-project"; "deployment-info.json"];
    ["air-token-project"; "monitor.js"] ].

(** A disk on which the project can be made, or made again: each of the
    directories of step 1 is a directory or absent, and no path a file is
    written to is a directory. *)
Definition suitable (fs : gmap (list string) node) : Prop :=
  (forall q, In q project_directories -> fs !! q = Some Dir \/ fs !! q = None) /\
  (forall q, In q written_paths -> fs !! q <> Some Dir).

(** A call of the file system that failed, in the process or in a child. *)
Fixpoint fs_failure (e : event) : bool :=
  match e with
  | FsError _ _ _ => true
  | Sub _ e' => fs_failure e'
  | _ => false
  end.

Definition no_fs_failure (t : list event) : bool :=
  forallb (fun e => negb (fs_failure e)) t.

(** The state after step 1 on a suitable disk: in the project directory,
    with the five directories in place. *)
Definition settled (s : state) : Prop :=
  cwd s = ["air-token-project"] /\
  (forall q, In q project_directories -> files s !! q = Some Dir) /\
  (forall q, In q written_paths -> files s !! q <> Some Dir).

(** A computation that keeps such a state and sees no call of the file
    system fail. *)
Definition safe {A} (m : M A) : Prop :=
  forall s r s' t, settled s -> m s = (r, s', t) -> settled s' /\ no_fs_failure t = true.

(** What is thrown says what went wrong: a call of the file system, the
    credential, or a command. *)
Definition told (r : outcome unit) (t : list event) : Prop :=
  match r with
  | Return _ => True
  | Throw e =>
      (exists x, In x t /\ fs_failure x = true) \/
      e = credential_error \/
      exists cmd st, st <> 0 /\ In (Exited cmd st) t /\ e = Error ("Command failed: " +:+ cmd)
  | Exit _ => False
  end.

(** ** Sample worlds *)

Definition sample_address : string := "0x5FbDB2315678afecb367f032d93F642f64180aa3".
Definition sample_deployer : string := "0xf39Fd6e51aad88F6F4ce6aB8827279cffFb92266".
Definition sample_key : string :=
  "0xac0974bec39a17e36ba4a6b4d238ff944bacb478cbed5efcae784d7bf4f2ff80".

(** A chain on which everything succeeds, behind an SDK that checks the
    bytecode it is given as ethers does. *)
Definition sample_sdk : Ethers :=
  {| Wallet := fun _ => Ok sample_deployer;
     getSigners := Ok [sample_deployer];
     getBalance := fun _ => Ok 1000000000000000000;
     formatEther := fun _ => "1.0";
     ContractFactory := fun code =>
       if accepts_bytecode code then Ok tt
       else Err (TypeError "invalid BytesLike value");
     getContractFactory := fun _ => Ok tt;
     deploy := fun _ => Ok {| c_address := sample_address; c_hash := "0xabc" |};
     waitForDeployment := fun _ => Ok tt;
     erc20_name := fun _ => Ok "AIR Token";
     erc20_symbol := fun _ => Ok "AIR";
     erc20_totalSupply := fun _ => Ok 1000000000000000000000000;
     reachable := true |}.

(** A node that the provider finds, and that answers every request of
    the script with an error. *)
Definition refusing_sdk : Ethers :=
  {| Wallet := Wallet sample_sdk;
     getSigners := getSigners sample_sdk;
     getBalance := fun _ => Err (Error "request refused by the node");
     formatEther := fun _ => "0.0";
     ContractFactory := ContractFactory sample_sdk;
     getContractFactory := getContractFactory sample_sdk;
     deploy := fun _ => Err (Error "request refused by the node");
     waitForDeployment := fun _ => Err (Error "request refused by the node");
     erc20_name := fun _ => Err (Error "request refused by the node");
     erc20_symbol := fun _ => Err (Error "request refused by the node");
     erc20_totalSupply := fun _ => Err (Error "request refused by the node");
     reachable := true |}.

(** An endpoint that cannot be reached: the provider does not find the
    network, and no request of the script is answered. *)
Definition unreachable_sdk : Ethers :=
  {| Wallet := Wallet sample_sdk;
     getSigners := getSigners sample_sdk;
     getBalance := getBalance sample_sdk;
     formatEther := formatEther sample_sdk;
     ContractFactory := ContractFactory sample_sdk;
     getContractFactory := getContractFactory sample_sdk;
     deploy := deploy sample_sdk;
     waitForDeployment := waitForDeployment sample_sdk;
     erc20_name := erc20_name sample_sdk;
     erc20_symbol := erc20_symbol sample_sdk;
     erc20_totalSupply := erc20_totalSupply sample_sdk;
     reachable := false |}.

(** An SDK that refuses the key it is given. *)
Definition key_refusing_sdk : Ethers :=
  {| Wallet := fun _ => Err (TypeError "invalid private key");
     getSigners := getSigners sample_sdk;
     getBalance := getBalance sample_sdk;
     formatEther := formatEther sample_sdk;
     ContractFactory := ContractFactory sample_sdk;
     getContractFactory := getContractFactory sample_sdk;
     deploy := deploy sample_sdk;
     waitForDeployment := waitForDeployment sample_sdk;
     erc20_name := erc20_name sample_sdk;
     erc20_symbol := erc20_symbol sample_sdk;
     erc20_totalSupply := erc20_totalSupply sample_sdk;
     reachable := true |}.

Definition sample_world (args : list string) (key : option string)
    (fs : gmap (list string) node) (tools : string -> Z)
    (chain : Ethers) (later : Ethers) : World :=
  {| argv := "node" :: "complete-deployer.js" :: args;
     env := match key with Some k => {[ "PRIVATE_KEY" := k ]} | None => ∅ end;
     disk := fs;
     now := 1700000000000;
     tool := tools;
     parse_address := fun _ => Ok (Some sample_address);
     sdk := chain;
     hardhat := chain;
     monitoring := later |}.

Definition all_ok : string -> Z := fun _ => 0.

(** The compiler fails. *)
Definition compile_fails : World :=
  sample_world [] (Some sample_key) ∅
    (fun c => if String.eqb c "npx hardhat compile" then 2 else 0)
    sample_sdk sample_sdk.

(** Quick mode with a credential: the node answers with an error, the
    endpoint cannot be reached, or the key is not one. *)
Definition quick_refused : World :=
  sample_world ["--quick"] (Some sample_key) ∅ all_ok refusing_sdk refusing_sdk.
Definition quick_out_of_reach : World :=
  sample_world ["--quick"] (Some sample_key) ∅ all_ok unreachable_sdk unreachable_sdk.
Definition quick_bad_key : World :=
  sample_world ["--quick"] (Some "0x1234") ∅ all_ok key_refusing_sdk key_refusing_sdk.

(** Quick mode without a credential. *)
Definition quick_without_key : World :=
  sample_world ["--quick"] None ∅ all_ok sample_sdk sample_sdk.

(** The deployment goes through; when the monitor script reads the
    contract, the node answers with an error, or the endpoint cannot be
    reached. *)
Definition monitor_refused : World :=
  sample_world [] (Some sample_key) ∅ all_ok sample_sdk refusing_sdk.
Definition monitor_out_of_reach : World :=
  sample_world [] (Some sample_key) ∅ all_ok sample_sdk unreachable_sdk.

(** A first run in an empty directory, with a credential and without. *)
Definition fresh_run : World :=
  sample_world [] (Some sample_key) ∅ all_ok sample_sdk sample_sdk.
Definition fresh_without_key : World :=
  sample_world [] None ∅ all_ok sample_sdk sample_sdk.

(** Quick mode with a credential, the endpoint answering. *)
Definition quick_run : World :=
  sample_world ["--quick"] (Some sample_key) ∅ all_ok sample_sdk sample_sdk.

(** Node fails to start on the monitor script. *)
Definition node_fails : World :=
  sample_world [] (Some sample_key) ∅
    (fun c => if String.eqb c "node monitor.js" then 1 else 0)
    sample_sdk sample_sdk.

(** Without a credential, and [npm install] fails. *)
Definition npm_fails_without_key : World :=
  sample_world [] None ∅
    (fun c => if String.eqb c "npm install" then 1 else 0)
    sample_sdk sample_sdk.

(** PRIVATE_KEY set to the text of the placeholder. *)
Definition placeholder_key : World :=
  sample_world [] (Some "YOUR_PRIVATE_KEY_HERE") ∅ all_ok sample_sdk sample_sdk.

(** The project path is taken by a regular file. *)
Definition project_is_a_file : World :=
  sample_world [] (Some sample_key) {[ ["air-token-project"] := File "notes" ]}
    all_ok sample_sdk sample_sdk.

(** The deployment goes through, and the read of the name that follows
    fails. *)
Definition read_fails : World :=
  sample_world [] (Some sample_key) ∅ all_ok
    {| Wallet := Wallet sample_sdk;
       getSigners := getSigners sample_sdk;
       getBalance := getBalance sample_sdk;
       formatEther := formatEther sample_sdk;
       ContractFactory := ContractFactory sample_sdk;
       getContractFactory := getContractFactory sample_sdk;
       deploy := deploy sample_sdk;
       waitForDeployment := waitForDeployment sample_sdk;
       erc20_name := fun _ => Err (Error "missing revert data");
       erc20_symbol := erc20_symbol sample_sdk;
       erc20_totalSupply := erc20_totalSupply sample_sdk;
       reachable := true |}
    sample_sdk.

(** The project directory is there, and in it a regular file named
    [contracts]. *)
Definition contracts_is_a_file : World :=
  sample_world [] (Some sample_key)
    {[ ["air-token-project"] := Dir;
       ["air-token-project"; "contracts"] := File "to do" ]}
    all_ok sample_sdk sample_sdk.

(** A world in which [require] parses a record as [JSON_parse] does. *)
Definition parsing (w : World) : World :=
  {| argv := argv w;
     env := env w;
     disk := disk w;
     now := now w;
     tool := tool w;
     parse_address := fun text =>
       match JSON_parse text with
       | Some v => Ok (address_of v)
       | None => Err "Unexpected token in JSON"
       end;
     sdk := sdk w;
     hardhat := hardhat w;
     monitoring := monitoring w |}.

(** Hardhat configured without an account: there is no signer. *)
Definition no_signer : World :=
  sample_world [] (Some sample_key) ∅ all_ok
    {| Wallet := Wallet sample_sdk;
       getSigners := Ok [];
       getBalance := getBalance sample_sdk;
       formatEther := formatEther sample_sdk;
       ContractFactory := ContractFactory sample_sdk;
       getContractFactory := getContractFactory sample_sdk;
       deploy := deploy sample_sdk;
       waitForDeployment := waitForDeployment sample_sdk;
       erc20_name := erc20_name sample_sdk;
       erc20_symbol := erc20_symbol sample_sdk;
       erc20_totalSupply := erc20_totalSupply sample_sdk;
       reachable := true |}
    sample_sdk.

(** * Properties *)

(** ** The monad *)

Lemma bind_unfold {A B} (m : M A) (k : A -> M B) (s : state) :
  (m ≫= k) s =
  match m s with
  | (Return a, s1, t1) => match k a s1 with (r, s2, t2) => (r, s2, t1 ++ t2) end
  | (Throw e, s1, t1) => (Throw e, s1, t1)
  | (Exit c, s1, t1) => (Exit c, s1, t1)
  end.
Proof. reflexivity. Qed.

(** How a sequence ends: its first part returned and the second part
    ended, or the first part ended it. *)
Lemma bind_inv {A B} (m : M A) (k : A -> M B) s r s' t :
  (m ≫= k) s = (r, s', t) ->
  (exists a s1 t1 t2,
      m s = (Return a, s1, t1) /\ k a s1 = (r, s', t2) /\ t = t1 ++ t2) \/
  (exists e, m s = (Throw e, s', t) /\ r = Throw e) \/
  (exists c, m s = (Exit c, s', t) /\ r = Exit c).
Proof.
  rewrite bind_unfold.
  destruct (m s) as [[[a | e | c] s1] t1].
  - destruct (k a s1) as [[r2 s2] t2] eqn:Hk. intros [= <- <- <-].
    left. by exists a, s1, t1, t2.
  - intros [= <- <- <-]. right. left. by exists e.
  - intros [= <- <- <-]. right. right. by exists c.
Qed.

Lemma call_unfold {A} (c : sdk_call) (r : result exn A) (s : state) :
  call c r s =
  match r with
  | Ok a => (Return a, s, [Sdk c true])
  | Err e => (Throw e, s, [Sdk c false])
  end.
Proof. by destruct r. Qed.

(** Unfolding of the monad's operations, leaving the script's strings and
    the world's answers alone. *)
Ltac msimpl :=
  cbv beta iota zeta
      delta [mbind M_bind mret M_ret emit throw process_exit console_log
             console_error try_catch call fst snd];
  cbn [app].

Ltac destruct_result :=
  match goal with
  | |- context [match ?r with Ok _ => _ | Err _ => _ end] =>
      let E := fresh "E" in destruct r eqn:E
  end.

(** ** Quick mode *)

Lemma or_default_unset (d : string) : or_default None d = d.
Proof. reflexivity. Qed.

(** What quick mode does without a credential. *)
Lemma quickDeploy_placeholder (w : World) (s : state) :
  or_default (env w !! "PRIVATE_KEY") "YOUR_PRIVATE_KEY_HERE" = "YOUR_PRIVATE_KEY_HERE" ->
  quickDeploy w s =
  (Exit 1, s,
   [ Stdout "⚡ QUICK DEPLOYMENT MODE (Direct Ethers.js)";
     Sdk (NewProvider (or_default (env w !! "RPC_URL") "https://sepolia.base.org")) true;
     Stdout "❌ Please set PRIVATE_KEY environment variable" ]).
Proof.
  intros Hkey. unfold quickDeploy. rewrite Hkey. reflexivity.
Qed.

Lemma process_quick (w : World) :
  quick w = true -> main w = quickDeploy w.
Proof. unfold main, quick. by intros ->. Qed.

Lemma process_scaffold (w : World) :
  quick w = false -> main w = run w (constructor w).
Proof. unfold main, quick. by intros ->. Qed.

(** The whole process in that case. *)
Lemma process_quick_placeholder (w : World) :
  quick w = true ->
  or_default (env w !! "PRIVATE_KEY") "YOUR_PRIVATE_KEY_HERE" = "YOUR_PRIVATE_KEY_HERE" ->
  process w =
    (1, start w,
     [ Stdout "⚡ QUICK DEPLOYMENT MODE (Direct Ethers.js)";
       Sdk (NewProvider (or_default (env w !! "RPC_URL") "https://sepolia.base.org")) true;
       Stdout "❌ Please set PRIVATE_KEY environment variable" ]).
Proof.
  intros Hq Hkey. unfold process. rewrite (process_quick w Hq).
  by rewrite (quickDeploy_placeholder w (start w) Hkey).
Qed.

(** C1: in quick mode, when the credential is the placeholder (as it is
    when PRIVATE_KEY is unset), the process prints the error and exits
    with code 1; all it did before is to construct the provider object: no
    request goes to the RPC endpoint, and no file is touched. *)
Theorem quick_mode_without_credential (w : World) :
  quick w = true ->
  or_default (env w !! "PRIVATE_KEY") "YOUR_PRIVATE_KEY_HERE" = "YOUR_PRIVATE_KEY_HERE" ->
  exit_code w = 1 /\
  trace w =
    [ Stdout "⚡ QUICK DEPLOYMENT MODE (Direct Ethers.js)";
      Sdk (NewProvider (or_default (env w !! "RPC_URL") "https://sepolia.base.org")) true;
      Stdout "❌ Please set PRIVATE_KEY environment variable" ] /\
  (forall c ok, In (Sdk c ok) (trace w) -> is_network_call c = false) /\
  final w = start w.
Proof.
  intros Hq Hkey.
  unfold exit_code, trace, final.
  rewrite (process_quick_placeholder w Hq Hkey). cbn [fst snd].
  repeat split.
  intros c ok [H | [H | [H | []]]]; try discriminate H.
  by injection H as <- <-.
Qed.

Lemma quick_mode_without_credential_witness :
  exit_code quick_without_key = 1.
Proof.
  apply (quick_mode_without_credential quick_without_key).
  - reflexivity.
  - reflexivity.
Defined.

(** Quick mode leaves the file system and the working directory as they
    are: its events are console output and SDK calls only, starting with
    the provider for the RPC endpoint; a creation transaction carries the
    hard-coded bytecode; and after a confirmed deployment the last two
    lines printed are the address and the transaction hash. *)
Lemma quick_mode_frame (w : World) :
  quick w = true ->
  final w = start w /\
  forallb console_or_sdk (trace w) = true /\
  (exists rest,
      trace w =
        Stdout "⚡ QUICK DEPLOYMENT MODE (Direct Ethers.js)"
        :: Sdk (NewProvider (or_default (env w !! "RPC_URL") "https://sepolia.base.org")) true
        :: rest) /\
  (forall code ok, In (Sdk (Deploy code) ok) (trace w) -> code = bytecode) /\
  (forall a, In (Sdk (WaitForDeployment a) true) (trace w) ->
     exists pre h,
       deploy (sdk w) bytecode = Ok {| c_address := a; c_hash := h |} /\
       trace w =
         pre ++ [ Stdout ("✅ Contract deployed to: " +:+ a);
                  Stdout ("Transaction hash: " +:+ h) ] /\
       exit_code w = 0).
Proof.
  intros Hq. unfold final, trace, exit_code, process.
  rewrite (process_quick w Hq). unfold quickDeploy.
  destruct (String.eqb _ _).
  { msimpl. split; [reflexivity |]. split; [reflexivity |]. split; [eauto |]. split.
    - intros code ok [H | [H | [H | []]]]; discriminate H.
    - intros a [H | [H | [H | []]]]; discriminate H. }
  msimpl.
  repeat (destruct_result; msimpl);
    (split; [reflexivity |]); (split; [reflexivity |]); (split; [eauto |]);
    (split;
     [ intros code ok H; cbn [In] in H;
       repeat (destruct H as [H | H]; [try discriminate H |]); try done;
       by injection H as <- _
     | intros a' H; cbn [In] in H;
       repeat (destruct H as [H | H]; [try discriminate H |]); try done ]).
  injection H as <-.
  match goal with c : contract |- _ => destruct c as [addr hash] end.
  cbn [c_address c_hash].
  eexists [_; _; _; _; _; _; _; _; _; _], hash.
  split; [reflexivity |]. split; reflexivity.
Qed.

(** With its endpoint in reach, quick mode comes to no request that is
    never answered. *)
Lemma quick_settles (w : World) :
  quick w = true -> reachable (sdk w) = true -> stalls w = false.
Proof.
  intros Hq Hreach. destruct (quick_mode_frame w Hq) as (_ & Hev & _).
  rewrite forallb_forall in Hev. unfold stalls.
  apply not_true_is_false. intros H. apply existsb_exists in H as (e & He & Hu).
  specialize (Hev e He). destruct e; try discriminate Hev; try discriminate Hu.
  cbn [unanswered] in Hu. rewrite Hreach, andb_false_r in Hu. discriminate Hu.
Qed.

(** The literal of [quickDeploy] is "0x" and 377 hexadecimal digits, an
    odd number: it is not bytecode for ethers. *)
Lemma bytecode_is_refused :
  String.length bytecode = 379%nat /\ accepts_bytecode bytecode = false.
Proof. split; vm_compute; reflexivity. Qed.

(** C8, at the failing input: quick mode with a key that ethers takes and
    an endpoint that answers.  The disk is left as it is, as the claim
    says.  But the factory is given the literal of [quickDeploy], which an
    SDK that checks bytecode as ethers does refuses: the run ends there,
    on the rejection that [main().catch(console.error)] prints, with exit
    code 0.  No creation transaction is submitted, and no address or
    transaction hash is printed, in any run. *)
Theorem quick_mode_submits_nothing (w : World) :
  quick w = true ->
  validating (sdk w) ->
  final w = start w /\
  (forall code ok, ~ In (Sdk (Deploy code) ok) (trace w)) /\
  (forall a ok, ~ In (Sdk (WaitForDeployment a) ok) (trace w)) /\
  (forall a b,
     or_default (env w !! "PRIVATE_KEY") "YOUR_PRIVATE_KEY_HERE" <> "YOUR_PRIVATE_KEY_HERE" ->
     Wallet (sdk w) (or_default (env w !! "PRIVATE_KEY") "YOUR_PRIVATE_KEY_HERE") = Ok a ->
     getBalance (sdk w) a = Ok b ->
     reachable (sdk w) = true ->
     exists e,
       ContractFactory (sdk w) bytecode = Err e /\
       trace w =
         [ Stdout "⚡ QUICK DEPLOYMENT MODE (Direct Ethers.js)";
           Sdk (NewProvider (or_default (env w !! "RPC_URL") "https://sepolia.base.org"))
             true;
           Sdk NewWallet true;
           Stdout ("Deployer: " +:+ a);
           Sdk (GetBalance a) true;
           Stdout ("Balance: " +:+ formatEther (sdk w) b +:+ " ETH");
           Sdk (NewContractFactory bytecode) false;
           Stderr (inspect e) ] /\
       exit_status w = Some 0).
Proof.
  intros Hq Hval.
  destruct (Hval bytecode (proj2 bytecode_is_refused)) as [e He].
  split; [exact (proj1 (quick_mode_frame w Hq)) |].
  assert (Hrun : forall a b,
            or_default (env w !! "PRIVATE_KEY") "YOUR_PRIVATE_KEY_HERE" <>
              "YOUR_PRIVATE_KEY_HERE" ->
            Wallet (sdk w) (or_default (env w !! "PRIVATE_KEY") "YOUR_PRIVATE_KEY_HERE") =
              Ok a ->
            getBalance (sdk w) a = Ok b ->
            process w =
              (0, start w,
               [ Stdout "⚡ QUICK DEPLOYMENT MODE (Direct Ethers.js)";
                 Sdk (NewProvider (or_default (env w !! "RPC_URL")
                                     "https://sepolia.base.org")) true;
                 Sdk NewWallet true;
                 Stdout ("Deployer: " +:+ a);
                 Sdk (GetBalance a) true;
                 Stdout ("Balance: " +:+ formatEther (sdk w) b +:+ " ETH");
                 Sdk (NewContractFactory bytecode) false;
                 Stderr (inspect e) ])).
  { intros a b Hkey Ha Hb. unfold process. rewrite (process_quick w Hq).
    unfold quickDeploy. apply String.eqb_neq in Hkey. rewrite Hkey. msimpl.
    rewrite Ha. msimpl. rewrite Hb. msimpl. by rewrite He. }
  assert (Hnone : forall x, In x (trace w) ->
            match x with
            | Sdk (Deploy _) _ | Sdk (WaitForDeployment _) _ => False
            | _ => True
            end).
  { unfold trace, process. rewrite (process_quick w Hq). unfold quickDeploy.
    destruct (String.eqb _ _); msimpl.
    { intros x Hx. cbn [In] in Hx.
      repeat (destruct Hx as [<- | Hx]; [done |]). done. }
    destruct (Wallet _ _); msimpl.
    2: { intros x Hx. cbn [In] in Hx.
         repeat (destruct Hx as [<- | Hx]; [done |]). done. }
    destruct (getBalance _ _); msimpl.
    2: { intros x Hx. cbn [In] in Hx.
         repeat (destruct Hx as [<- | Hx]; [done |]). done. }
    rewrite He. msimpl.
    intros x Hx. cbn [In] in Hx.
    repeat (destruct Hx as [<- | Hx]; [done |]). done. }
  split; [intros code ok H; exact (Hnone _ H) |].
  split; [intros a ok H; exact (Hnone _ H) |].
  intros a b Hkey Ha Hb Hreach. exists e. split; [exact He |].
  unfold exit_status. rewrite (quick_settles w Hq Hreach).
  unfold trace, exit_code. by rewrite (Hrun a b Hkey Ha Hb).
Qed.

Lemma quick_mode_submits_nothing_witness :
  final quick_run = start quick_run /\
  In (Sdk (NewContractFactory bytecode) false) (trace quick_run) /\
  (forall code ok, ~ In (Sdk (Deploy code) ok) (trace quick_run)) /\
  exit_status quick_run = Some 0.
Proof.
  assert (Hval : validating (sdk quick_run)).
  { intros code Hcode. cbn. rewrite Hcode. by eexists. }
  destruct (quick_mode_submits_nothing quick_run eq_refl Hval) as (H1 & H2 & _ & H4).
  split; [exact H1 |].
  destruct (H4 sample_deployer 1000000000000000000) as (e & He & Ht & Hx);
    [vm_compute; discriminate | reflexivity | reflexivity | reflexivity |].
  split; [rewrite Ht; cbn; tauto |]. by split.
Defined.

(** ** The file-system calls, case by case *)

Lemma existsSync_cases (p : string) (s : state) :
  exists b, existsSync p s = (Return b, s, []).
Proof. unfold existsSync. eauto. Qed.

Lemma mkdirSync_cases (p : string) (s : state) :
  mkdirSync p s =
    (Return tt, {| files := <[resolve s p := Dir]> (files s); cwd := cwd s |}, [Mkdir p]) \/
  exists c, mkdirSync p s = (Throw (SystemError c "mkdir" p), s, [FsError "mkdir" p c]).
Proof.
  unfold mkdirSync.
  destruct (stat (files s) (resolve s p)); [right; by eexists |].
  destruct (stat (files s) (removelast (resolve s p))) as [[] |];
    [by left | right; by eexists ..].
Qed.

Lemma writeFileSync_cases (p data : string) (s : state) :
  writeFileSync p data s =
    (Return tt, {| files := <[resolve s p := File data]> (files s); cwd := cwd s |},
     [WriteFile p data]) \/
  exists c, writeFileSync p data s = (Throw (SystemError c "open" p), s, [FsError "open" p c]).
Proof.
  unfold writeFileSync.
  destruct (stat (files s) (resolve s p)) as [[] |]; [right; by eexists | ..];
    (destruct (stat (files s) (removelast (resolve s p))) as [[] |];
     [by left | right; by eexists ..]).
Qed.

Lemma chdir_cases (p : string) (s : state) :
  chdir p s = (Return tt, {| files := files s; cwd := resolve s p |}, [Chdir p]) \/
  exists c, chdir p s = (Throw (SystemError c "chdir" p), s, [FsError "chdir" p c]).
Proof.
  unfold chdir.
  destruct (stat (files s) (resolve s p)) as [[] |]; [by left | right; by eexists ..].
Qed.

(** ** The children *)

(** The monitor script ends normally whatever happens in it: it writes
    nothing, and when one of its steps fails the last line it prints is the
    error. *)
Lemma monitor_cases (w : World) (this : CompleteDeployer) (s : state) :
  exists t,
    monitor w this s = (Return tt, s, t) /\
    t <> [] /\
    (forall p d, ~ In (WriteFile p d) t) /\
    (forall e, In e t -> failure e = true ->
       exists m, last t = Some (Stdout ("Monitoring error: " +:+ m))).
Proof.
  unfold monitor, require_text. msimpl.
  destruct (stat _ _) as [[| text] |]; msimpl.
  1, 3: eexists; split; [reflexivity |]; (split; [done |]); split;
    [ intros p d H; cbn [In] in H; repeat (destruct H as [H | H]; try discriminate H); done
    | intros e _ _; by eexists ].
  destruct (parse_address w text) as [[a |] | m]; msimpl.
  2, 3: eexists; split; [reflexivity |]; (split; [done |]); split;
    [ intros p d H; cbn [In] in H; repeat (destruct H as [H | H]; try discriminate H); done
    | intros e _ _; by eexists ].
  destruct_result; msimpl.
  - eexists; split; [reflexivity |]; (split; [done |]); split.
    + intros p d H; cbn [In] in H; repeat (destruct H as [H | H]; try discriminate H); done.
    + intros e H Hf. cbn [In] in H.
      repeat (destruct H as [H | H]; [subst e; discriminate Hf |]). done.
  - eexists; split; [reflexivity |]; (split; [done |]); split.
    + intros p d H; cbn [In] in H; repeat (destruct H as [H | H]; try discriminate H); done.
    + intros e _ _; by eexists.
Qed.

(** The deployment script ends normally or with [process.exit(1)].  When it
    ends normally none of its calls failed; the only file it writes is the
    deployment record, made of the address of the deployed contract, the
    first signer and the clock. *)
Lemma deploy_js_cases (w : World) (s : state) r s' t :
  deploy_js w s = (r, s', t) ->
  (r = Return tt \/ r = Exit 1) /\
  cwd s' = cwd s /\
  (r = Return tt -> forallb (fun e => negb (failure e)) t = true) /\
  (forall p d, In (WriteFile p d) t ->
     p = "deployment-info.json" /\
     exists c deployer others,
       getSigners (hardhat w) = Ok (deployer :: others) /\
       deploy (hardhat w) "AIR" = Ok c /\
       d = JSON_stringify2 (deploymentInfo (c_address c) deployer (toISOString (now w)))).
Proof.
  unfold deploy_js, deploy_main. msimpl.
  destruct (getSigners (hardhat w)) as [[| deployer others] | m] eqn:Esig; msimpl.
  1, 3: intros [= <- <- <-]; (split; [by right |]); (split; [done |]);
    (split; [done |]); intros p d H; cbn [In] in H;
    repeat (destruct H as [H | H]; try discriminate H); done.
  repeat (destruct_result; msimpl;
    [ | intros [= <- <- <-]; (split; [by right |]); (split; [done |]);
        (split; [done |]); intros p d H; cbn [In] in H;
        repeat (destruct H as [H | H]; try discriminate H); done ]).
  match goal with
  | |- context [writeFileSync ?p ?d ?st] =>
      destruct (writeFileSync_cases p d st) as [-> | [c ->]]
  end; msimpl.
  - intros [= <- <- <-]. split; [by left |]. split; [done |]. split; [done |].
    intros p d H; cbn [In] in H.
    repeat (destruct H as [H | H]; try discriminate H); try done.
    injection H as <- <-. split; [done |]. by eexists _, _, _.
  - intros [= <- <- <-]. split; [by right |]. split; [done |]. split; [done |].
    intros p d H; cbn [In] in H.
    repeat (destruct H as [H | H]; try discriminate H); done.
Qed.

(** A child ends with a status; it is an external tool, which is not seen
    to do anything, the deployment script or the monitor script. *)
Lemma launch_cases (w : World) (this : CompleteDeployer) (cmd : string) (s : state) :
  exists st tc s',
    launch w this cmd s = (Return st, s', List.map (Sub cmd) tc) /\
    cwd s' = cwd s /\
    ((tc = [] /\ s' = s /\ st = tool w cmd) \/
     (cmd = deploy_command /\
      (st = 0 -> forallb (fun e => negb (failure e)) tc = true) /\
      (forall p d, In (WriteFile p d) tc ->
         p = "deployment-info.json" /\
         exists c deployer others,
           getSigners (hardhat w) = Ok (deployer :: others) /\
           deploy (hardhat w) "AIR" = Ok c /\
           d = JSON_stringify2
                 (deploymentInfo (c_address c) deployer (toISOString (now w))))) \/
     (cmd = monitor_command /\ st = 0 /\ s' = s /\ tc <> [] /\
      (forall p d, ~ In (WriteFile p d) tc) /\
      (forall e, In e tc -> failure e = true ->
         exists m, last tc = Some (Stdout ("Monitoring error: " +:+ m))))).
Proof.
  assert (Htool : exists st tc s',
             (Return (tool w cmd), s, @nil event) = (Return st, s', List.map (Sub cmd) tc) /\
             cwd s' = cwd s /\ tc = [] /\ s' = s /\ st = tool w cmd).
  { by exists (tool w cmd), [], s. }
  destruct Htool as (st0 & tc0 & s0 & H1 & H2 & H3).
  unfold launch, on_disk.
  destruct (String.eqb cmd deploy_command) eqn:Ed; msimpl.
  { destruct (_ && _); msimpl; [| exists st0, tc0, s0; tauto].
    apply String.eqb_eq in Ed. subst cmd.
    unfold child. destruct (deploy_js w s) as [[r s1] t] eqn:Hd.
    destruct (deploy_js_cases w s r s1 t Hd) as ([-> | ->] & Hcwd & Hok & Hw).
    - exists 0, t, {| files := files s1; cwd := cwd s |}.
      split; [reflexivity |]. split; [reflexivity |]. right. left.
      split; [reflexivity |]. split; [by intros _; apply Hok | exact Hw].
    - exists 1, t, {| files := files s1; cwd := cwd s |}.
      split; [reflexivity |]. split; [reflexivity |]. right. left.
      split; [reflexivity |]. split; [discriminate | exact Hw]. }
  destruct (String.eqb cmd monitor_command) eqn:Em; msimpl;
    [| exists st0, tc0, s0; tauto].
  destruct (_ && _); msimpl; [| exists st0, tc0, s0; tauto].
  apply String.eqb_eq in Em. subst cmd.
  unfold child. destruct (monitor_cases w this s) as (t & -> & Hne & Hw & Hf).
  exists 0, t, s. destruct s as [fs wd]. cbn [files cwd].
  split; [reflexivity |]. split; [reflexivity |]. right. right. done.
Qed.

(** [runCommand] starts the child, lets it run to its end and throws when
    the status is not 0. *)
Lemma runCommand_unfold (w : World) (this : CompleteDeployer) (cmd : string)
    (s s' : state) (st : Z) (t : list event) :
  launch w this cmd s = (Return st, s', t) ->
  runCommand w this cmd s =
    ((if st =? 0 then Return tt else Throw (Error ("Command failed: " +:+ cmd))), s',
     Spawn cmd :: t ++ [Exited cmd st]).
Proof.
  intros H. unfold runCommand, execSync. msimpl. rewrite H.
  destruct (st =? 0); msimpl; by rewrite ?app_nil_r.
Qed.

(** ** Properties that compose

    A property of endings and traces that holds of the empty run and is
    kept when a run that returned is followed by another run holds of a
    sequence as soon as it holds of its parts.  Given that it holds of the
    single calls the script makes, it holds of each step of [run]. *)

Section Composition.

Variable P : outcome unit -> list event -> Prop.
Hypothesis P_nil : P (Return tt) [].
Hypothesis P_app : forall t1 r t2, P (Return tt) t1 -> P r t2 -> P r (t1 ++ t2).

Lemma holds_ret {A} (a : A) : holds P (mret a).
Proof. intros s r s' t [= <- <- <-]. exact P_nil. Qed.

Lemma holds_bind {A B} (m : M A) (k : A -> M B) :
  holds P m -> (forall a, holds P (k a)) -> holds P (m ≫= k).
Proof.
  intros Hm Hk s r s' t H.
  apply bind_inv in H
    as [(a & s1 & t1 & t2 & H1 & H2 & ->) | [(e & H1 & ->) | (c & H1 & ->)]].
  - apply P_app; [exact (Hm _ _ _ _ H1) | exact (Hk a _ _ _ _ H2)].
  - exact (Hm _ _ _ _ H1).
  - exact (Hm _ _ _ _ H1).
Qed.

Lemma holds_if {A} (b : bool) (m1 m2 : M A) :
  holds P m1 -> holds P m2 -> holds P (if b then m1 else m2).
Proof. by destruct b. Qed.

Lemma holds_forEach {A} (l : list A) (f : A -> M unit) :
  (forall x, holds P (f x)) -> holds P (forEach l f).
Proof.
  intros Hf. induction l as [| x l IH]; cbn [forEach].
  - apply holds_ret.
  - apply holds_bind; [apply Hf | intros _; exact IH].
Qed.

Lemma holds_existsSync (p : string) : holds P (existsSync p).
Proof. intros s r s' t [= <- <- <-]. exact P_nil. Qed.

Section Steps.

Variables (w : World) (this : CompleteDeployer).

Hypothesis P_stdout : forall x, P (Return tt) [Stdout x].
Hypothesis P_mkdir : forall p, P (Return tt) [Mkdir p].
Hypothesis P_chdir : forall p, P (Return tt) [Chdir p].
Hypothesis P_write :
  forall p d, In (p, d) (generated this) -> P (Return tt) [WriteFile p d].
Hypothesis P_fs_error :
  forall c syscall p, P (Throw (SystemError c syscall p)) [FsError syscall p c].
Hypothesis P_credential : P (Throw credential_error) [].
Hypothesis P_install : holds P (runCommand w this "npm install").
Hypothesis P_compile : holds P (runCommand w this "npx hardhat compile").
Hypothesis P_deploy : holds P (runCommand w this deploy_command).
Hypothesis P_monitor : holds P (runCommand w this monitor_command).

Lemma holds_console_log (x : string) : holds P (console_log x).
Proof. intros s r s' t [= <- <- <-]. apply P_stdout. Qed.

Lemma holds_mkdirSync (p : string) : holds P (mkdirSync p).
Proof.
  intros s r s' t H.
  destruct (mkdirSync_cases p s) as [E | [c E]]; rewrite E in H;
    injection H as <- <- <-; [apply P_mkdir | apply P_fs_error].
Qed.

Lemma holds_chdir (p : string) : holds P (chdir p).
Proof.
  intros s r s' t H.
  destruct (chdir_cases p s) as [E | [c E]]; rewrite E in H;
    injection H as <- <- <-; [apply P_chdir | apply P_fs_error].
Qed.

Lemma holds_writeFileSync (p d : string) :
  In (p, d) (generated this) -> holds P (writeFileSync p d).
Proof.
  intros Hin s r s' t H.
  destruct (writeFileSync_cases p d s) as [E | [c E]]; rewrite E in H;
    injection H as <- <- <-; [by apply P_write | apply P_fs_error].
Qed.

Lemma holds_mkdir_if_missing (dir : string) : holds P (mkdir_if_missing dir).
Proof.
  unfold mkdir_if_missing.
  apply holds_bind; [apply holds_existsSync | intros present].
  apply holds_if; [apply holds_mkdirSync | apply holds_ret].
Qed.

Lemma holds_createProjectStructure : holds P (createProjectStructure this).
Proof.
  unfold createProjectStructure.
  apply holds_bind; [apply holds_console_log | intros _].
  apply holds_bind; [apply holds_mkdir_if_missing | intros _].
  apply holds_bind; [apply holds_chdir | intros _].
  apply holds_forEach. intros dir. apply holds_mkdir_if_missing.
Qed.

Lemma holds_installDependencies : holds P (installDependencies w this).
Proof.
  unfold installDependencies.
  apply holds_bind; [apply holds_console_log | intros _].
  apply holds_bind; [| intros _; exact P_install].
  apply holds_writeFileSync. cbn. tauto.
Qed.

Lemma holds_createConfigFiles : holds P (createConfigFiles this).
Proof.
  unfold createConfigFiles.
  apply holds_bind; [apply holds_console_log | intros _].
  repeat (apply holds_bind; [apply holds_writeFileSync; cbn; tauto | intros _]).
  apply holds_writeFileSync; cbn; tauto.
Qed.

Lemma holds_deployContract : holds P (deployContract w this).
Proof.
  unfold deployContract.
  apply holds_bind; [apply holds_console_log | intros _].
  apply holds_bind; [| intros _].
  { apply holds_if; [| apply holds_ret].
    intros s r s' t [= <- <- <-]. exact P_credential. }
  apply holds_bind; [exact P_compile | intros _; exact P_deploy].
Qed.

Lemma holds_startMonitoring : holds P (startMonitoring w this).
Proof.
  unfold startMonitoring.
  apply holds_bind; [apply holds_console_log | intros _].
  apply holds_bind; [| intros _; exact P_monitor].
  apply holds_writeFileSync. cbn. tauto.
Qed.

Lemma holds_steps : holds P (steps w this).
Proof.
  unfold steps.
  apply holds_bind; [apply holds_createProjectStructure | intros _].
  apply holds_bind; [apply holds_installDependencies | intros _].
  apply holds_bind; [apply holds_createConfigFiles | intros _].
  apply holds_bind; [apply holds_deployContract | intros _].
  apply holds_bind; [apply holds_startMonitoring | intros _].
  apply holds_console_log.
Qed.

End Steps.

End Composition.

(** ** The process in scaffold-and-deploy mode *)

Lemma process_scaffold_cases (w : World) :
  quick w = false ->
  exists r s t,
    steps w (constructor w) (start w) = (r, s, t) /\
    match r with
    | Return _ => process w = (0, s, Stdout starting :: t)
    | Throw e =>
        process w = (1, s, Stdout starting :: t ++ [Stderr (deployment_failed (message e))])
    | Exit c => process w = (c, s, Stdout starting :: t)
    end.
Proof.
  intros Hq. unfold process. rewrite (process_scaffold w Hq). unfold run. msimpl.
  destruct (steps w (constructor w) (start w)) as [[r s] t].
  exists r, s, t. split; [reflexivity |]. destruct r; msimpl; by rewrite ?app_nil_r.
Qed.

(** The five steps, one after the other: each runs in the state the one
    before left, and the first that does not return ends the sequence. *)
Lemma steps_inv (w : World) (this : CompleteDeployer) s r s' t :
  steps w this s = (r, s', t) ->
  exists r1 s1 t1, createProjectStructure this s = (r1, s1, t1) /\
  match r1 with
  | Return _ =>
    exists r2 s2 t2, installDependencies w this s1 = (r2, s2, t2) /\
    match r2 with
    | Return _ =>
      exists r3 s3 t3, createConfigFiles this s2 = (r3, s3, t3) /\
      match r3 with
      | Return _ =>
        exists r4 s4 t4, deployContract w this s3 = (r4, s4, t4) /\
        match r4 with
        | Return _ =>
          exists r5 s5 t5, startMonitoring w this s4 = (r5, s5, t5) /\
          match r5 with
          | Return _ =>
              r = Return tt /\ s' = s5 /\
              t = t1 ++ t2 ++ t3 ++ t4 ++ t5 ++ [Stdout complete]
          | _ => r = r5 /\ s' = s5 /\ t = t1 ++ t2 ++ t3 ++ t4 ++ t5
          end
        | _ => r = r4 /\ s' = s4 /\ t = t1 ++ t2 ++ t3 ++ t4
        end
      | _ => r = r3 /\ s' = s3 /\ t = t1 ++ t2 ++ t3
      end
    | _ => r = r2 /\ s' = s2 /\ t = t1 ++ t2
    end
  | _ => r = r1 /\ s' = s1 /\ t = t1
  end.
Proof.
  unfold steps. msimpl.
  destruct (createProjectStructure this s) as [[[[] | e1 | c1] s1] t1] eqn:E1;
    (destruct (installDependencies w this s1) as [[[[] | e2 | c2] s2] t2] eqn:E2;
     [destruct (createConfigFiles this s2) as [[[[] | e3 | c3] s3] t3] eqn:E3;
      [destruct (deployContract w this s3) as [[[[] | e4 | c4] s4] t4] eqn:E4;
       [destruct (startMonitoring w this s4) as [[[[] | e5 | c5] s5] t5] eqn:E5 | ..]
      | ..] | ..]);
    intros [= <- <- <-];
    repeat (eexists _, _, _; (split; [first [reflexivity | eassumption] |]));
    cbn beta iota; by rewrite ?app_assoc.
Qed.

(** ** Fail-stop *)

Lemma quiet_app (t1 t2 : list event) : quiet (t1 ++ t2) = quiet t1 && quiet t2.
Proof. apply forallb_app. Qed.

Lemma clean_app (t1 t2 : list event) : clean (t1 ++ t2) = clean t1 && clean t2.
Proof. apply forallb_app. Qed.

Lemma failed_exit_hard (e : event) : failed_exit e = true -> hard e = true.
Proof. destruct e; try discriminate. unfold hard. cbn. by rewrite andb_true_r. Qed.

Lemma quiet_clean (t : list event) : quiet t = true -> clean t = true.
Proof.
  unfold quiet, clean. rewrite !forallb_forall. intros H e He.
  specialize (H e He). destruct (failed_exit e) eqn:E; [| done].
  by rewrite (failed_exit_hard e E) in H.
Qed.

Lemma clean_sub (cmd : string) (t : list event) : clean (List.map (Sub cmd) t) = true.
Proof. induction t; [done | exact IHt]. Qed.

Lemma fail_stop_app (t1 : list event) (r : outcome unit) (t2 : list event) :
  fail_stop (Return tt) t1 -> fail_stop r t2 -> fail_stop r (t1 ++ t2).
Proof.
  intros H1 H2. cbn in H1. destruct r as [[] | e | c]; cbn in *.
  - by rewrite quiet_app, H1, H2.
  - destruct H2 as [H2 | (l & cmd & st & -> & Hl & Hst & ->)].
    + left. by rewrite clean_app, (quiet_clean _ H1), H2.
    + right. exists (t1 ++ l), cmd, st. rewrite app_assoc.
      by rewrite clean_app, (quiet_clean _ H1), Hl.
  - done.
Qed.

Lemma fail_stop_runCommand (w : World) (this : CompleteDeployer) (cmd : string) :
  holds fail_stop (runCommand w this cmd).
Proof.
  intros s r s' t H.
  destruct (launch_cases w this cmd s) as (st & tc & s1 & Hl & _ & Hc).
  rewrite (runCommand_unfold _ _ _ _ _ _ _ Hl) in H.
  destruct (st =? 0) eqn:Est; injection H as <- <- <-; cbn [erase fail_stop].
  - apply Z.eqb_eq in Est. subst st.
    change (quiet (List.map (Sub cmd) tc ++ [Exited cmd 0]) = true).
    rewrite quiet_app, andb_true_r. unfold quiet.
    rewrite forallb_forall. intros e He. apply in_map_iff in He as (e' & <- & He').
    destruct Hc as [(-> & _) | [(-> & Hok & _) | (-> & _)]]; [done | |].
    + specialize (Hok eq_refl). rewrite forallb_forall in Hok.
      specialize (Hok e' He'). unfold hard. cbn. apply negb_true_iff in Hok.
      by rewrite Hok.
    + unfold hard. cbn. by rewrite andb_false_r.
  - right. exists (Spawn cmd :: List.map (Sub cmd) tc), cmd, st.
    split; [reflexivity |]. split; [exact (clean_sub cmd tc) |].
    split; [by apply Z.eqb_neq | reflexivity].
Qed.

Lemma fail_stop_steps (w : World) (this : CompleteDeployer) :
  holds fail_stop (steps w this).
Proof.
  apply holds_steps; try done; try apply fail_stop_runCommand.
  - exact fail_stop_app.
  - intros c syscall p. by left.
  - by left.
Qed.

(** A list holds one element at most that [f] accepts when the elements
    before and after one are all refused. *)
Lemma split_unique {A} (f : A -> bool) (l : list A) (x : A) (rest pre : list A)
    (y : A) (post : list A) :
  forallb (fun a => negb (f a)) l = true ->
  forallb (fun a => negb (f a)) rest = true ->
  f y = true ->
  l ++ x :: rest = pre ++ y :: post ->
  pre = l /\ y = x /\ post = rest.
Proof.
  intros Hl Hrest Hy. revert pre.
  induction l as [| a l IH]; intros [| p pre] H; cbn in *.
  - by injection H as -> ->.
  - injection H as -> ->. rewrite forallb_app in Hrest. cbn in Hrest.
    rewrite Hy in Hrest. cbn in Hrest. by rewrite andb_false_r in Hrest.
  - injection H as -> _. by rewrite Hy in Hl.
  - injection H as -> H. apply andb_true_iff in Hl as [_ Hl].
    by destruct (IH Hl pre H) as (-> & -> & ->).
Qed.

Lemma clean_no_failed_exit (t pre post : list event) (e : event) :
  clean t = true -> t = pre ++ e :: post -> failed_exit e = true -> False.
Proof.
  intros Ht -> He. rewrite clean_app in Ht. cbn in Ht. rewrite He in Ht.
  cbn in Ht. by rewrite andb_false_r in Ht.
Qed.

(** C3: in scaffold-and-deploy mode, when a child process ([npm install],
    [npx hardhat compile], [npx hardhat run ...], [node monitor.js]) ends
    with a status other than 0, all that follows is the report of the
    failed command, and the exit code is 1: no later step is begun. *)
Theorem failed_command_ends_run (w : World) (pre : list event) (cmd : string)
    (st : Z) (post : list event) :
  quick w = false ->
  trace w = pre ++ Exited cmd st :: post ->
  st <> 0 ->
  exit_code w = 1 /\
  post = [Stderr (deployment_failed ("Command failed: " +:+ cmd))].
Proof.
  intros Hq Ht Hst.
  assert (Hf : failed_exit (Exited cmd st) = true).
  { cbn. by apply negb_true_iff, Z.eqb_neq. }
  destruct (process_scaffold_cases w Hq) as (r & s & t & Hs & Hp).
  pose proof (fail_stop_steps w (constructor w) _ _ _ _ Hs) as Hfs.
  unfold trace, exit_code in *. destruct r as [[] | e | c]; cbn in Hfs.
  - rewrite Hp in *. cbn [fst snd] in *.
    exfalso. eapply (clean_no_failed_exit (Stdout starting :: t)); [| exact Ht | exact Hf].
    exact (quiet_clean _ Hfs).
  - rewrite Hp in *. cbn [fst snd] in *.
    destruct Hfs as [Hc | (l & cmd' & st' & -> & Hl & Hst' & ->)].
    + exfalso.
      eapply (clean_no_failed_exit
                (Stdout starting :: t ++ [Stderr (deployment_failed (message e))]));
        [| exact Ht | exact Hf].
      change (clean (t ++ [Stderr (deployment_failed (message e))]) = true).
      by rewrite clean_app, Hc.
    + split; [reflexivity |].
      rewrite <- app_assoc in Ht.
      change (Stdout starting :: l ++ [Exited cmd' st'] ++ ?x)
        with ((Stdout starting :: l) ++ Exited cmd' st' :: x) in Ht.
      apply (split_unique failed_exit) in Ht as (_ & Heq & ->); [| done ..].
      by injection Heq as -> _.
  - done.
Qed.

Lemma failed_command_ends_run_witness :
  exit_code compile_fails = 1 /\
  skipn 21 (trace compile_fails) =
    [Stderr (deployment_failed "Command failed: npx hardhat compile")].
Proof.
  apply (failed_command_ends_run compile_fails
           (firstn 20 (trace compile_fails)) "npx hardhat compile" 2
           (skipn 21 (trace compile_fails))).
  - reflexivity.
  - vm_compute. reflexivity.
  - lia.
Defined.

(** A run of the five steps that returns: each step returned. *)
Lemma steps_return (w : World) (this : CompleteDeployer) s s' t :
  steps w this s = (Return tt, s', t) ->
  exists s1 t1 s2 t2 s3 t3 s4 t4 t5,
    createProjectStructure this s = (Return tt, s1, t1) /\
    installDependencies w this s1 = (Return tt, s2, t2) /\
    createConfigFiles this s2 = (Return tt, s3, t3) /\
    deployContract w this s3 = (Return tt, s4, t4) /\
    startMonitoring w this s4 = (Return tt, s', t5) /\
    t = t1 ++ t2 ++ t3 ++ t4 ++ t5 ++ [Stdout complete].
Proof.
  intros H. apply steps_inv in H as (r1 & s1 & t1 & H1 & H).
  destruct r1 as [[] | |]; [| by destruct H ..].
  destruct H as (r2 & s2 & t2 & H2 & H).
  destruct r2 as [[] | |]; [| by destruct H ..].
  destruct H as (r3 & s3 & t3 & H3 & H).
  destruct r3 as [[] | |]; [| by destruct H ..].
  destruct H as (r4 & s4 & t4 & H4 & H).
  destruct r4 as [[] | |]; [| by destruct H ..].
  destruct H as (r5 & s5 & t5 & H5 & H).
  destruct r5 as [[] | |]; [| by destruct H ..].
  destruct H as (_ & -> & ->).
  by exists s1, t1, s2, t2, s3, t3, s4, t4, t5.
Qed.

Lemma or_default_falsy (v : option string) (d : string) :
  truthy v = false -> or_default v d = d.
Proof.
  destruct v as [k |]; cbn; [| done]. by destruct (String.eqb k "").
Qed.

(** Without a credential, step 4 throws before it runs anything. *)
Lemma deployContract_without_key (w : World) (s : state) :
  truthy (env w !! "PRIVATE_KEY") = false ->
  deployContract w (constructor w) s =
    (Throw credential_error, s, [Stdout "📤 Deploying AIR token..."]).
Proof.
  intros H. unfold deployContract. cbn [constructor privateKey].
  rewrite H, (or_default_falsy _ _ H). reflexivity.
Qed.

(** Without a credential the five steps do not return. *)
Lemma steps_without_key (w : World) (s s' : state) (t : list event) :
  truthy (env w !! "PRIVATE_KEY") = false ->
  steps w (constructor w) s <> (Return tt, s', t).
Proof.
  intros Hk Hs. apply steps_return in Hs
    as (s1 & t1 & s2 & t2 & s3 & t3 & s4 & t4 & t5 & _ & _ & _ & H4 & _).
  by rewrite (deployContract_without_key w s3 Hk) in H4.
Qed.

(** Where the failures are caught.  In scaffold-and-deploy mode the exit
    code is 0 or 1.  It is 0 only when the five steps completed, the last
    line then being the announcement of success.  Every failure outside
    the monitor script (a failed file-system call, a child that ends with
    a status other than 0, any failed call of the deployment script) and a
    missing credential give exit code 1, the last line then being the
    error with the prefix "Deployment failed:".  In quick mode a missing
    credential is reported and gives exit code 1. *)
Lemma failures_exit_one (w : World) :
  (quick w = false ->
   (exit_code w = 0 \/ exit_code w = 1) /\
   (exit_code w = 0 -> exists t, trace w = t ++ [Stdout complete]) /\
   (exit_code w = 1 -> exists t m, trace w = t ++ [Stderr (deployment_failed m)]) /\
   (forall e, In e (trace w) -> hard e = true -> exit_code w = 1) /\
   (truthy (env w !! "PRIVATE_KEY") = false -> exit_code w = 1)) /\
  (quick w = true ->
   or_default (env w !! "PRIVATE_KEY") "YOUR_PRIVATE_KEY_HERE" = "YOUR_PRIVATE_KEY_HERE" ->
   exit_code w = 1 /\
   exists t, trace w = t ++ [Stdout "❌ Please set PRIVATE_KEY environment variable"]).
Proof.
  split.
  - intros Hq.
    destruct (process_scaffold_cases w Hq) as (r & s & t & Hs & Hp).
    pose proof (fail_stop_steps w (constructor w) _ _ _ _ Hs) as Hfs.
    unfold exit_code, trace. destruct r as [[] | e | c]; [| | done].
    + rewrite Hp. cbn [fst snd]. split; [by left |].
      split; [intros _ |].
      { apply steps_return in Hs
          as (s1 & t1 & s2 & t2 & s3 & t3 & s4 & t4 & t5 & _ & _ & _ & _ & _ & ->).
        exists (Stdout starting :: t1 ++ t2 ++ t3 ++ t4 ++ t5).
        cbn. by rewrite <- !app_assoc. }
      split; [done |]. split; [| intros Hk].
      * intros e He Hh. exfalso. cbn in Hfs. destruct He as [<- | He]; [done |].
        unfold quiet in Hfs. rewrite forallb_forall in Hfs.
        specialize (Hfs e He). by rewrite Hh in Hfs.
      * by destruct (steps_without_key w _ _ _ Hk Hs).
    + rewrite Hp. cbn [fst snd]. split; [by right |].
      split; [done |]. split; [| done].
      intros _. by exists (Stdout starting :: t), (message e).
  - intros Hq Hk. unfold exit_code, trace.
    rewrite (process_quick_placeholder w Hq Hk). cbn [fst snd].
    split; [reflexivity |]. by eexists [_; _].
Qed.

(** C2, at the failing input: quick mode with a key that ethers refuses.
    The rejection of [main] reaches [main().catch(console.error)] only:
    the error is printed as it is, without a prefix, [process.exit] is not
    called, and the process ends with exit code 0.  (In scaffold-and-deploy
    mode the catch of [run] ends the process with code 1, and so does the
    catch of the generated [deploy.js].) *)
Theorem rejected_key_exits_zero (w : World) (e : exn) :
  quick w = true ->
  or_default (env w !! "PRIVATE_KEY") "YOUR_PRIVATE_KEY_HERE" <> "YOUR_PRIVATE_KEY_HERE" ->
  Wallet (sdk w) (or_default (env w !! "PRIVATE_KEY") "YOUR_PRIVATE_KEY_HERE") = Err e ->
  trace w =
    [ Stdout "⚡ QUICK DEPLOYMENT MODE (Direct Ethers.js)";
      Sdk (NewProvider (or_default (env w !! "RPC_URL") "https://sepolia.base.org")) true;
      Sdk NewWallet false;
      Stderr (inspect e) ] /\
  exit_status w = Some 0.
Proof.
  intros Hq Hkey Hw.
  assert (Hp : process w =
            (0, start w,
             [ Stdout "⚡ QUICK DEPLOYMENT MODE (Direct Ethers.js)";
               Sdk (NewProvider (or_default (env w !! "RPC_URL")
                                   "https://sepolia.base.org")) true;
               Sdk NewWallet false;
               Stderr (inspect e) ])).
  { unfold process. rewrite (process_quick w Hq). unfold quickDeploy.
    apply String.eqb_neq in Hkey. rewrite Hkey. msimpl. by rewrite Hw. }
  unfold exit_status, stalls, exit_code, trace. rewrite Hp. cbn [fst snd].
  split; reflexivity.
Qed.

Lemma rejected_key_exits_zero_witness :
  In (Sdk NewWallet false) (trace quick_bad_key) /\
  (exists line, last (trace quick_bad_key) = Some (Stderr line)) /\
  exit_status quick_bad_key = Some 0.
Proof.
  destruct (rejected_key_exits_zero quick_bad_key (TypeError "invalid private key"))
    as [Ht Hx].
  - reflexivity.
  - vm_compute. discriminate.
  - reflexivity.
  - rewrite Ht. split; [cbn; tauto |]. split; [by eexists | exact Hx].
Defined.

(** ** The monitoring step *)

Lemma no_monitor_runCommand (w : World) (this : CompleteDeployer) (cmd : string) :
  cmd <> monitor_command -> holds no_monitor (runCommand w this cmd).
Proof.
  intros Hne s r s' t H e He.
  destruct (launch_cases w this cmd s) as (st & tc & s1 & Hl & _ & _).
  rewrite (runCommand_unfold _ _ _ _ _ _ _ Hl) in H. injection H as _ _ <-.
  destruct He as [He | He]; [discriminate He |].
  apply in_app_iff in He as [He | [He | []]]; [| discriminate He].
  apply in_map_iff in He as (e' & He' & _). by injection He' as -> _.
Qed.

Lemma no_monitor_app (t1 : list event) (r : outcome unit) (t2 : list event) :
  no_monitor (Return tt) t1 -> no_monitor r t2 -> no_monitor r (t1 ++ t2).
Proof. intros H1 H2 e He. apply in_app_iff in He as [He | He]; [by eapply H1 | by eapply H2]. Qed.

Ltac no_monitor_prim :=
  first [ exact no_monitor_app
        | apply no_monitor_runCommand; unfold monitor_command, deploy_command;
          discriminate
        | intros;
          let ev := fresh "ev" in
          let Hev := fresh "Hev" in
          intros ev Hev; cbn [In] in Hev;
          repeat (destruct Hev as [Hev | Hev]; [discriminate Hev |]); done ].

(** What the monitoring step does: the script file cannot be written, or
    Node is run on it; the child is then the monitor script, which ends with
    status 0 and tells on its last line when something failed, unless Node
    fails to start. *)
Lemma startMonitoring_cases (w : World) (this : CompleteDeployer) s r s' t :
  startMonitoring w this s = (r, s', t) ->
  (forall e, ~ In (Sub monitor_command e) t) \/
  exists tc,
    r = Return tt /\
    t = Stdout "📊 Starting deployment monitoring..."
        :: WriteFile "monitor.js" (monitorScript this)
        :: Spawn monitor_command
        :: List.map (Sub monitor_command) tc ++ [Exited monitor_command 0] /\
    (forall e, In e tc -> failure e = true ->
       exists m, last tc = Some (Stdout ("Monitoring error: " +:+ m))).
Proof.
  unfold startMonitoring. msimpl.
  destruct (writeFileSync_cases "monitor.js" (monitorScript this) s) as [-> | [c ->]];
    msimpl.
  2: { intros [= <- <- <-]. left. intros e He. cbn [In] in He.
       repeat (destruct He as [He | He]; [discriminate He |]). done. }
  match goal with
  | |- context [runCommand w this ?c ?st] =>
      destruct (launch_cases w this c st) as (st' & tc & s1 & Hl & _ & Hc);
      rewrite (runCommand_unfold _ _ _ _ _ _ _ Hl)
  end.
  destruct Hc as [(-> & _) | [(Hd & _) | (_ & -> & _ & _ & _ & Hf)]];
    [| discriminate Hd |].
  - destruct (st' =? 0); intros [= <- <- <-]; left; intros e He; cbn [In] in He;
      repeat (destruct He as [He | He]; [discriminate He |]); done.
  - cbn [Z.eqb]. intros [= <- <- <-]. right. by exists tc.
Qed.

Lemma last_In {A} (l : list A) (x : A) : last l = Some x -> In x l.
Proof.
  intros H. apply list_elem_of_In. by eapply last_Some_elem_of.
Qed.

(** The monitor script, each of its calls settling: whenever it runs, it
    ends with status 0 and the five steps complete; a failure in the
    script is printed by the script itself.  When the five steps complete,
    every failure in the trace is one of the monitor script. *)
Lemma monitor_script_ends (w : World) :
  quick w = false ->
  (forall e, In (Sub monitor_command e) (trace w) ->
     exit_code w = 0 /\
     In (Exited monitor_command 0) (trace w) /\
     (exists t, trace w = t ++ [Stdout complete]) /\
     (failure e = true ->
      exists m, In (Sub monitor_command (Stdout ("Monitoring error: " +:+ m))) (trace w))) /\
  (exit_code w = 0 ->
   forall e, In e (trace w) -> failure e = true -> in_monitor e = true).
Proof.
  intros Hq.
  destruct (process_scaffold_cases w Hq) as (r & s & t & Hs & Hp).
  split.
  - intros e He.
    assert (H1 : holds no_monitor (createProjectStructure (constructor w)))
      by (apply holds_createProjectStructure; no_monitor_prim).
    assert (H2 : holds no_monitor (installDependencies w (constructor w)))
      by (apply holds_installDependencies; no_monitor_prim).
    assert (H3 : holds no_monitor (createConfigFiles (constructor w)))
      by (apply holds_createConfigFiles; no_monitor_prim).
    assert (H4 : holds no_monitor (deployContract w (constructor w)))
      by (apply holds_deployContract; no_monitor_prim).
    apply steps_inv in Hs as (r1 & s1 & t1 & E1 & Hs).
    specialize (H1 _ _ _ _ E1).
    assert (Hend : forall (x : outcome unit) (l : list event) (c : Z) (st : state),
              match x with
              | Return _ => process w = (0, st, Stdout starting :: l)
              | Throw e0 =>
                  process w =
                    (1, st, Stdout starting :: l ++ [Stderr (deployment_failed (message e0))])
              | Exit c0 => process w = (c0, st, Stdout starting :: l)
              end ->
              In (Sub monitor_command e) (trace w) -> In (Sub monitor_command e) l).
    { intros x l c st Hx Hin. unfold trace in Hin.
      destruct x; rewrite Hx in Hin; cbn [fst snd] in Hin;
        (destruct Hin as [Hin | Hin]; [discriminate Hin |]); try done.
      apply in_app_iff in Hin as [Hin | [Hin | []]]; [done | discriminate Hin]. }
    specialize (Hend r t 0 s Hp He).
    destruct r1 as [[] | |]; [| destruct Hs as (_ & _ & ->); by destruct (H1 e) ..].
    destruct Hs as (r2 & s2 & t2 & E2 & Hs). specialize (H2 _ _ _ _ E2).
    destruct r2 as [[] | |];
      [| destruct Hs as (_ & _ & ->);
         apply in_app_iff in Hend as [Hend | Hend]; [by destruct (H1 e) | by destruct (H2 e)] ..].
    destruct Hs as (r3 & s3 & t3 & E3 & Hs). specialize (H3 _ _ _ _ E3).
    destruct r3 as [[] | |];
      [| destruct Hs as (_ & _ & ->);
         rewrite !in_app_iff in Hend; destruct Hend as [Hend | [Hend | Hend]];
         [by destruct (H1 e) | by destruct (H2 e) | by destruct (H3 e)] ..].
    destruct Hs as (r4 & s4 & t4 & E4 & Hs). specialize (H4 _ _ _ _ E4).
    destruct r4 as [[] | |];
      [| destruct Hs as (_ & _ & ->);
         rewrite !in_app_iff in Hend; destruct Hend as [Hend | [Hend | [Hend | Hend]]];
         [by destruct (H1 e) | by destruct (H2 e) | by destruct (H3 e)
          | by destruct (H4 e)] ..].
    destruct Hs as (r5 & s5 & t5 & E5 & Hs).
    assert (Hin5 : In (Sub monitor_command e) t5).
    { destruct r5 as [[] | |]; destruct Hs as (_ & _ & ->);
        rewrite !in_app_iff in Hend;
        destruct Hend as [Hend | [Hend | [Hend | [Hend | Hend]]]];
        try (by destruct (H1 e)); try (by destruct (H2 e));
        try (by destruct (H3 e)); try (by destruct (H4 e)); try done.
      destruct Hend as [Hend | [Hend | []]]; [done | discriminate Hend]. }
    destruct (startMonitoring_cases _ _ _ _ _ _ E5) as [Hno | (tc & -> & Ht5 & Hf)];
      [by destruct (Hno e) |].
    destruct Hs as (-> & -> & ->). unfold exit_code, trace. rewrite Hp. cbn [fst snd].
    assert (Hsub : forall x, In x tc -> In (Sub monitor_command x) t5).
    { intros x Hx. rewrite Ht5. cbn [In]. do 3 right.
      apply in_app_iff. left. by apply in_map. }
    split; [reflexivity |]. split; [| split].
    + right. rewrite !in_app_iff. do 4 right. left. rewrite Ht5. cbn [In]. do 3 right.
      apply in_app_iff. right. by left.
    + exists (Stdout starting :: t1 ++ t2 ++ t3 ++ t4 ++ t5). cbn [app].
      f_equal. by rewrite <- !app_assoc.
    + intros Hfail.
      assert (Hetc : In e tc).
      { rewrite Ht5 in Hin5. cbn [In] in Hin5.
        repeat (destruct Hin5 as [Hin5 | Hin5]; [discriminate Hin5 |]).
        apply in_app_iff in Hin5 as [Hin5 | [Hin5 | []]]; [| discriminate Hin5].
        apply in_map_iff in Hin5 as (e' & He' & Hin'). by injection He' as ->. }
      destruct (Hf e Hetc Hfail) as (m & Hlast). exists m.
      right. rewrite !in_app_iff. do 4 right. left. apply Hsub. by apply last_In.
  - intros Hcode e He Hfail.
    pose proof (fail_stop_steps w (constructor w) _ _ _ _ Hs) as Hfs.
    unfold exit_code, trace in *. destruct r as [[] | e0 | c]; [| | done].
    + rewrite Hp in He. cbn [fst snd] in He. cbn in Hfs.
      destruct He as [<- | He]; [discriminate Hfail |].
      unfold quiet in Hfs. rewrite forallb_forall in Hfs. specialize (Hfs e He).
      unfold hard in Hfs. rewrite Hfail in Hfs. cbn in Hfs.
      by destruct (in_monitor e).
    + rewrite Hp in Hcode. discriminate Hcode.
Qed.

(** In scaffold-and-deploy mode the process itself makes no SDK call. *)
Lemma no_call_app (t1 : list event) (r : outcome unit) (t2 : list event) :
  no_call (Return tt) t1 -> no_call r t2 -> no_call r (t1 ++ t2).
Proof.
  intros H1 H2 c ok He. apply in_app_iff in He as [He | He]; [by eapply H1 | by eapply H2].
Qed.

Lemma no_call_runCommand (w : World) (this : CompleteDeployer) (cmd : string) :
  holds no_call (runCommand w this cmd).
Proof.
  intros s r s' t H c ok He.
  destruct (launch_cases w this cmd s) as (st & tc & s1 & Hl & _ & _).
  rewrite (runCommand_unfold _ _ _ _ _ _ _ Hl) in H. injection H as _ _ <-.
  destruct He as [He | He]; [discriminate He |].
  apply in_app_iff in He as [He | [He | []]]; [| discriminate He].
  apply in_map_iff in He as (e' & He' & _). discriminate He'.
Qed.

Lemma no_call_steps (w : World) (this : CompleteDeployer) : holds no_call (steps w this).
Proof.
  apply holds_steps; try apply no_call_runCommand; try exact no_call_app;
    intros;
    let c := fresh "c" in
    let ok := fresh "ok" in
    let Hev := fresh "Hev" in
    intros c ok Hev; cbn [In] in Hev;
    repeat (destruct Hev as [Hev | Hev]; [discriminate Hev |]); done.
Qed.

(** With the endpoint of the monitor script in reach, a run in
    scaffold-and-deploy mode comes to no request that is never
    answered. *)
Lemma scaffold_settles (w : World) :
  quick w = false -> reachable (monitoring w) = true -> stalls w = false.
Proof.
  intros Hq Hreach.
  destruct (process_scaffold_cases w Hq) as (r & s & t & Hs & Hp).
  pose proof (no_call_steps w (constructor w) _ _ _ _ Hs) as Hno.
  assert (Hone : forall e, In e t -> unanswered w e = false).
  { intros e He. destruct e as [| | | | | | | c ok | | | cmd e']; try done.
    - by destruct (Hno c ok).
    - destruct e'; try done. cbn [unanswered]. rewrite Hreach. cbn [negb].
      by rewrite andb_false_r. }
  unfold stalls, trace.
  apply not_true_is_false. intros H. apply existsb_exists in H as (e & He & Hu).
  assert (Hin : In e t \/ exists x, e = Stdout x \/ e = Stderr x).
  { destruct r; rewrite Hp in He; cbn [snd] in He.
    - destruct He as [<- | He]; [right; eauto | by left].
    - destruct He as [<- | He]; [right; eauto |].
      apply in_app_iff in He as [He | [<- | []]]; [by left | right; eauto].
    - destruct He as [<- | He]; [right; eauto | by left]. }
  destruct Hin as [Hin | (x & [-> | ->])]; [| discriminate Hu ..].
  by rewrite (Hone e Hin) in Hu.
Qed.




(** ** The generated files *)

Lemma writes_generated_app (this : CompleteDeployer) (t1 : list event)
    (r : outcome unit) (t2 : list event) :
  writes_generated this (Return tt) t1 -> writes_generated this r t2 ->
  writes_generated this r (t1 ++ t2).
Proof.
  intros H1 H2 p d H. apply in_app_iff in H as [H | H]; [by apply H1 | by apply H2].
Qed.

Lemma writes_generated_runCommand (w : World) (this : CompleteDeployer) (cmd : string) :
  holds (writes_generated this) (runCommand w this cmd).
Proof.
  intros s r s' t H p d Hin.
  destruct (launch_cases w this cmd s) as (st & tc & s1 & Hl & _ & _).
  rewrite (runCommand_unfold _ _ _ _ _ _ _ Hl) in H. injection H as _ _ <-.
  destruct Hin as [Hin | Hin]; [discriminate Hin |].
  apply in_app_iff in Hin as [Hin | [Hin | []]]; [| discriminate Hin].
  apply in_map_iff in Hin as (e' & He' & _). discriminate He'.
Qed.

Lemma writes_generated_steps (w : World) (this : CompleteDeployer) :
  holds (writes_generated this) (steps w this).
Proof.
  apply holds_steps; try apply writes_generated_runCommand;
    try exact (writes_generated_app this);
    try (intros;
         let Hin := fresh "Hin" in
         intros ? ? Hin; cbn [In] in Hin;
         repeat (destruct Hin as [Hin | Hin]; [discriminate Hin |]); done).
  intros p d Hpd p' d' [Hin | []]. by injection Hin as <- <-.
Qed.

(** Whatever [run] writes itself is one of the generated files. *)
Lemma run_writes (w : World) (this : CompleteDeployer) (s : state) (p d : string) :
  In (WriteFile p d) (run w this s).2 -> In (p, d) (generated this).
Proof.
  unfold run. msimpl.
  destruct (steps w this s) as [[r s'] t] eqn:Hs.
  pose proof (writes_generated_steps w this _ _ _ _ Hs) as Hw.
  destruct r as [[] | e | c]; msimpl; cbn [snd]; intros [H | H]; try discriminate H;
    try (by apply Hw).
  apply in_app_iff in H as [H | [H | []]]; [by apply Hw | discriminate H].
Qed.

(** The templates read the deployer's RPC URL and nothing else. *)
Lemma generated_rpcUrl (this1 this2 : CompleteDeployer) :
  rpcUrl this1 = rpcUrl this2 -> generated this1 = generated this2.
Proof.
  intros H. unfold generated, scaffolded, hardhatConfig, envTemplate, monitorScript.
  by rewrite H.
Qed.

(** Each path is generated once. *)
Lemma generated_functional (this : CompleteDeployer) (p d1 d2 : string) :
  In (p, d1) (generated this) -> In (p, d2) (generated this) -> d1 = d2.
Proof.
  unfold generated, scaffolded. cbn [In app]. intros H1 H2.
  repeat (destruct H1 as [H1 | H1]; [injection H1 as <- <- |]); try done;
    repeat (destruct H2 as [H2 | H2]; [try discriminate H2 |]); try done;
    by injection H2 as <-.
Qed.

(** C5: two runs of the scaffolding by deployers with the same RPC URL and
    the same project name, in any two worlds and from any two states of the
    disk, write the same bytes to every file that both write; the files
    written are the seven generated ones. *)
Theorem generated_files_are_byte_stable (w1 w2 : World) (this1 this2 : CompleteDeployer)
    (s1 s2 : state) (p d1 d2 : string) :
  rpcUrl this1 = rpcUrl this2 ->
  projectName this1 = projectName this2 ->
  In (WriteFile p d1) (run w1 this1 s1).2 ->
  In (WriteFile p d2) (run w2 this2 s2).2 ->
  d1 = d2 /\
  In p [ "package.json"; "hardhat.config.js"; "contracts/AIR.sol"; "scripts/deploy.js";
         ".env.example"; ".gitignore"; "monitor.js" ].
Proof.
  intros Hurl _ H1 H2. apply run_writes in H1, H2.
  rewrite (generated_rpcUrl this1 this2 Hurl) in H1.
  split; [exact (generated_functional this2 p d1 d2 H1 H2) |].
  change (In (p, d2).1 (List.map fst (generated this2))). by apply in_map.
Qed.

Lemma generated_files_are_byte_stable_witness :
  hardhatConfig (constructor fresh_run) = hardhatConfig (constructor fresh_without_key) /\
  In "hardhat.config.js"
     [ "package.json"; "hardhat.config.js"; "contracts/AIR.sol"; "scripts/deploy.js";
       ".env.example"; ".gitignore"; "monitor.js" ].
Proof.
  apply (generated_files_are_byte_stable fresh_run fresh_without_key
           (constructor fresh_run) (constructor fresh_without_key)
           (start fresh_run) (start fresh_without_key)).
  - reflexivity.
  - reflexivity.
  - apply (nth_error_In _ 13). vm_compute. reflexivity.
  - apply (nth_error_In _ 13). vm_compute. reflexivity.
Defined.

Lemma constructor_with_key (k : option string) (w : World) :
  rpcUrl (constructor (with_key k w)) = rpcUrl (constructor w).
Proof.
  unfold constructor, with_key. cbn [rpcUrl env].
  destruct k; by rewrite ?lookup_insert_ne, ?lookup_delete_ne.
Qed.

Lemma trace_writes (w : World) (p d : string) :
  quick w = false ->
  In (WriteFile p d) (trace w) -> In (p, d) (generated (constructor w)).
Proof.
  intros Hq. unfold trace, process. rewrite (process_scaffold w Hq).
  intros H. apply (run_writes w (constructor w) (start w)).
  destruct (run w (constructor w) (start w)) as [[[[] | e | c] s] t]; cbn [snd] in *;
    [done | | done].
  apply in_app_iff in H as [H | [H | []]]; [done | discriminate H].
Qed.

(** C10: no file the script writes depends on PRIVATE_KEY.  Setting the
    variable to any other value, or unsetting it, changes the text of none
    of the files written in both runs.  The Hardhat configuration holds the
    expression that reads the variable when the toolchain runs, and
    [.env.example] holds the literal placeholder and the RPC URL. *)
Theorem private_key_is_never_written (w : World) (k : option string) :
  quick w = false ->
  (forall p d d',
     In (WriteFile p d) (trace w) ->
     In (WriteFile p d') (trace (with_key k w)) -> d = d') /\
  (forall d, In (WriteFile "hardhat.config.js" d) (trace w) ->
     d = lit "
require(`@nomiclabs/hardhat-ethers`);

module.exports = {
  solidity: `0.8.20`,
  networks: {
    baseSepolia: {
      url: `" +:+ rpcUrl (constructor w) +:+
         lit "`,
      chainId: 84532,
      accounts: process.env.PRIVATE_KEY ? [process.env.PRIVATE_KEY] : []
    }
  }
};
") /\
  (forall d, In (WriteFile ".env.example" d) (trace w) ->
     d = "PRIVATE_KEY=your_private_key_here" +:+ newline +:+
         "RPC_URL=" +:+ rpcUrl (constructor w)).
Proof.
  intros Hq. split; [| split].
  - intros p d d' H1 H2.
    apply (trace_writes w p d Hq) in H1.
    apply (trace_writes (with_key k w) p d' Hq) in H2.
    rewrite (generated_rpcUrl _ _ (constructor_with_key k w)) in H2.
    exact (generated_functional _ p d d' H1 H2).
  - intros d H. apply (trace_writes w _ d Hq) in H.
    eapply generated_functional; [exact H |].
    unfold generated, scaffolded. cbn [In app]. right. by left.
  - intros d H. apply (trace_writes w _ d Hq) in H.
    eapply generated_functional; [exact H |].
    unfold generated, scaffolded. cbn [In app]. do 4 right. left. reflexivity.
Qed.

Lemma private_key_is_never_written_witness :
  hardhatConfig (constructor fresh_run) =
  hardhatConfig (constructor (with_key None fresh_run)).
Proof.
  apply (proj1 (private_key_is_never_written fresh_run None eq_refl) "hardhat.config.js").
  - apply (nth_error_In _ 13). vm_compute. reflexivity.
  - apply (nth_error_In _ 13). vm_compute. reflexivity.
Defined.

(** ** The project structure *)

Lemma stat_snoc (fs : gmap (list string) node) (q : list string) (x : string) :
  stat fs (q ++ [x]) = fs !! (q ++ [x]).
Proof. by destruct q. Qed.

Lemma snoc_neq {A} (q : list A) (x : A) : q <> q ++ [x].
Proof.
  intros H. apply (f_equal length) in H. rewrite length_app in H. cbn in H. lia.
Qed.

Lemma mkdir_if_missing_present (dir : string) (s : state) :
  is_Some (stat (files s) (resolve s dir)) ->
  mkdir_if_missing dir s = (Return tt, s, []).
Proof.
  intros [n Hn]. unfold mkdir_if_missing, existsSync. msimpl. by rewrite Hn.
Qed.

Lemma mkdir_if_missing_absent (dir : string) (s : state) :
  stat (files s) (resolve s dir) = None ->
  stat (files s) (removelast (resolve s dir)) = Some Dir ->
  mkdir_if_missing dir s =
    (Return tt, {| files := <[resolve s dir := Dir]> (files s); cwd := cwd s |},
     [Mkdir dir]).
Proof.
  intros Hn Hp. unfold mkdir_if_missing, existsSync. msimpl.
  rewrite Hn. cbn [negb]. unfold mkdirSync. by rewrite Hn, Hp.
Qed.

(** The loop over the sub-directories, in a working directory that is a
    directory: it returns, having created the missing ones and nothing
    else; what was there stays as it was. *)
Lemma mkdir_each (dirs : list string) (fs : gmap (list string) node) (c : list string) :
  Forall (fun d => components d = [d]) dirs ->
  stat fs c = Some Dir ->
  exists fs' t,
    forEach dirs (fun dir => mkdir_if_missing dir) {| files := fs; cwd := c |} =
      (Return tt, {| files := fs'; cwd := c |}, t) /\
    stat fs' c = Some Dir /\
    (forall d, In d dirs -> fs' !! (c ++ [d]) = Some (default Dir (fs !! (c ++ [d])))) /\
    (forall q, is_Some (fs !! q) -> fs' !! q = fs !! q) /\
    forallb (fun e => negb (failure e)) t = true /\
    ((forall d, In d dirs -> is_Some (fs !! (c ++ [d]))) -> fs' = fs /\ t = []).
Proof.
  intros Hdirs. revert fs.
  induction Hdirs as [| d dirs Hd _ IH]; intros fs Hc.
  { exists fs, []. cbn. by repeat split. }
  cbn [forEach]. rewrite bind_unfold.
  assert (Hres : resolve {| files := fs; cwd := c |} d = c ++ [d]).
  { unfold resolve. cbn [cwd]. by rewrite Hd. }
  destruct (fs !! (c ++ [d])) as [n |] eqn:Hlook.
  - rewrite mkdir_if_missing_present
      by (rewrite Hres; cbn [files]; rewrite stat_snoc, Hlook; by eexists).
    destruct (IH fs Hc) as (fs' & t & -> & Hc' & Hin & Hkeep & Hok & Hsame).
    exists fs', t. cbn [app]. split; [reflexivity |]. split; [exact Hc' |].
    split; [| split; [exact Hkeep |]; split; [exact Hok |]].
    + intros d' [<- | Hd']; [| by apply Hin].
      rewrite Hkeep; rewrite Hlook; [done | by eexists].
    + intros Hall. apply Hsame. intros d' Hd'. apply Hall. by right.
  - rewrite mkdir_if_missing_absent; cycle 1.
    { rewrite Hres. cbn [files]. by rewrite stat_snoc. }
    { rewrite Hres. cbn [files]. by rewrite removelast_last. }
    rewrite Hres. cbn [files cwd].
    assert (Hc1 : stat (<[c ++ [d] := Dir]> fs) c = Some Dir).
    { destruct c as [| x c']; [done |]. cbn [stat] in *.
      rewrite lookup_insert_ne; [done |]. symmetry. apply (snoc_neq (x :: c')). }
    destruct (IH _ Hc1) as (fs' & t & -> & Hc' & Hin & Hkeep & Hok & _).
    exists fs', (Mkdir d :: t). cbn [app]. split; [reflexivity |].
    split; [exact Hc' |]. split; [| split; [| split]].
    + assert (Hd0 : fs' !! (c ++ [d]) = Some Dir)
        by (rewrite Hkeep; rewrite lookup_insert_eq; [done | by eexists]).
      intros d' [<- | Hd']; [by rewrite Hlook |].
      destruct (decide (d' = d)) as [-> | Hne]; [by rewrite Hlook |].
      rewrite (Hin d' Hd'), lookup_insert_ne; [done |].
      intros H. apply app_inv_head in H. congruence.
    + intros q Hq. rewrite Hkeep.
      * rewrite lookup_insert_ne; [done |]. intros <-. rewrite Hlook in Hq. by destruct Hq.
      * rewrite lookup_insert_ne; [done |]. intros <-. rewrite Hlook in Hq. by destruct Hq.
    + exact Hok.
    + intros Hall. destruct (Hall d (or_introl eq_refl)) as [n Hn]. congruence.
Qed.

Lemma chdir_directory (p : string) (s : state) :
  stat (files s) (resolve s p) = Some Dir ->
  chdir p s = (Return tt, {| files := files s; cwd := resolve s p |}, [Chdir p]).
Proof. intros H. unfold chdir. by rewrite H. Qed.

(** Step 1 from a working directory in which the project path is not taken
    by a file: it returns without a failure, in the project directory, all
    four sub-directories being there; it keeps what was there; and when
    all of it was there already it changes nothing. *)
Lemma createProjectStructure_spec (this : CompleteDeployer) (s : state) :
  projectName this = "air-token-project" ->
  stat (files s) (cwd s) = Some Dir ->
  (forall text, files s !! (cwd s ++ ["air-token-project"]) <> Some (File text)) ->
  exists fs' t,
    createProjectStructure this s =
      (Return tt, {| files := fs'; cwd := cwd s ++ ["air-token-project"] |}, t) /\
    fs' !! (cwd s ++ ["air-token-project"]) = Some Dir /\
    (forall d, In d ["contracts"; "scripts"; "artifacts"; "cache"] ->
       fs' !! ((cwd s ++ ["air-token-project"]) ++ [d]) =
       Some (default Dir (files s !! ((cwd s ++ ["air-token-project"]) ++ [d])))) /\
    (forall q, is_Some (files s !! q) -> fs' !! q = files s !! q) /\
    forallb (fun e => negb (failure e)) t = true /\
    In (Chdir "air-token-project") t /\
    (files s !! (cwd s ++ ["air-token-project"]) = Some Dir ->
     (forall d, In d ["contracts"; "scripts"; "artifacts"; "cache"] ->
        is_Some (files s !! ((cwd s ++ ["air-token-project"]) ++ [d]))) ->
     fs' = files s /\
     t = [Stdout "📁 Creating project structure..."; Chdir "air-token-project"]).
Proof.
  intros Hname Hcwd Hfile. unfold createProjectStructure. rewrite Hname.
  set (c := cwd s ++ ["air-token-project"]).
  assert (Hres : forall fs, resolve {| files := fs; cwd := cwd s |} "air-token-project" = c)
    by reflexivity.
  assert (Hdirs : Forall (fun d => components d = [d])
                    ["contracts"; "scripts"; "artifacts"; "cache"])
    by (repeat constructor).
  destruct s as [fs wd]. cbn [files cwd] in *.
  destruct (fs !! c) as [[| text] |] eqn:Hlook; [| by destruct (Hfile text) |].
  - assert (Hc : stat fs c = Some Dir) by (unfold c; by rewrite stat_snoc).
    destruct (mkdir_each _ fs c Hdirs Hc) as (fs' & t & Hloop & Hc' & Hin & Hkeep & Hok & Hsame).
    exists fs', (Stdout "📁 Creating project structure..." :: Chdir "air-token-project" :: t).
    split.
    { msimpl. rewrite mkdir_if_missing_present by (rewrite Hres; by eexists).
      msimpl. rewrite chdir_directory by (by rewrite Hres).
      rewrite Hres. msimpl. cbn [files]. by rewrite Hloop. }
    split; [by rewrite Hkeep; rewrite Hlook |].
    split; [exact Hin |]. split; [exact Hkeep |]. split; [exact Hok |].
    split; [right; by left |].
    intros _ Hall. destruct (Hsame Hall) as [-> ->]. done.
  - assert (Hc : stat (<[c := Dir]> fs) c = Some Dir).
    { unfold c. by rewrite stat_snoc, lookup_insert_eq. }
    destruct (mkdir_each _ _ c Hdirs Hc) as (fs' & t & Hloop & Hc' & Hin & Hkeep & Hok & _).
    exists fs', (Stdout "📁 Creating project structure..." :: Mkdir "air-token-project"
                 :: Chdir "air-token-project" :: t).
    split.
    { msimpl. rewrite mkdir_if_missing_absent; cycle 1.
      { rewrite Hres. cbn [files]. unfold c. by rewrite stat_snoc. }
      { rewrite Hres. cbn [files]. unfold c. by rewrite removelast_last. }
      msimpl. rewrite Hres. rewrite chdir_directory by (by rewrite Hres).
      rewrite Hres. msimpl. cbn [files]. by rewrite Hloop. }
    split; [by rewrite Hkeep; rewrite lookup_insert_eq |].
    split; [| split; [| split; [exact Hok |]; split]].
    + intros d Hd. rewrite (Hin d Hd), lookup_insert_ne; [done |]. apply snoc_neq.
    + intros q Hq. rewrite Hkeep.
      * rewrite lookup_insert_ne; [done |]. intros <-. rewrite Hlook in Hq. by destruct Hq.
      * rewrite lookup_insert_ne; [done |]. intros <-. rewrite Hlook in Hq. by destruct Hq.
    + do 2 right. by left.
    + intros H. discriminate H.
Qed.

(** C6: step 1 from a directory in which the project directory exists
    already, with any of its sub-directories, returns without an error:
    each creation is guarded by the test for existence.  (The same holds
    when the project directory is yet to be created.)  And running step 1
    again from the same directory returns too, creates nothing and leaves
    the disk as the first run left it. *)
Theorem createProjectStructure_again (this : CompleteDeployer) (s : state) :
  projectName this = "air-token-project" ->
  stat (files s) (cwd s) = Some Dir ->
  (forall text, files s !! (cwd s ++ ["air-token-project"]) <> Some (File text)) ->
  exists s' t,
    createProjectStructure this s = (Return tt, s', t) /\
    forallb (fun e => negb (failure e)) t = true /\
    createProjectStructure this {| files := files s'; cwd := cwd s |} =
      (Return tt, s',
       [Stdout "📁 Creating project structure..."; Chdir "air-token-project"]).
Proof.
  intros Hname Hcwd Hfile.
  destruct (createProjectStructure_spec this s Hname Hcwd Hfile)
    as (fs' & t & Hrun & Hproj & Hsub & Hkeep & Hok & _ & _).
  exists {| files := fs'; cwd := cwd s ++ ["air-token-project"] |}, t.
  split; [exact Hrun |]. split; [exact Hok |]. cbn [files].
  destruct (createProjectStructure_spec this {| files := fs'; cwd := cwd s |} Hname)
    as (fs2 & t2 & Hrun2 & _ & _ & _ & _ & _ & Hsame).
  - cbn [files cwd]. destruct (cwd s) as [| x q] eqn:Hq; [done |].
    cbn [stat] in *. rewrite Hkeep; [done |]. rewrite Hcwd. by eexists.
  - cbn [files cwd]. intros text. by rewrite Hproj.
  - cbn [files cwd] in *. destruct (Hsame Hproj) as [-> ->]; [| exact Hrun2].
    intros d Hd. rewrite (Hsub d Hd). by eexists.
Qed.

Lemma createProjectStructure_again_witness :
  exists s' t,
    createProjectStructure (constructor fresh_run)
      {| files := {[ ["air-token-project"] := Dir;
                     ["air-token-project"; "scripts"] := Dir ]};
         cwd := [] |} = (Return tt, s', t) /\
    forallb (fun e => negb (failure e)) t = true /\
    createProjectStructure (constructor fresh_run) {| files := files s'; cwd := [] |} =
      (Return tt, s',
       [Stdout "📁 Creating project structure..."; Chdir "air-token-project"]).
Proof.
  apply (createProjectStructure_again (constructor fresh_run)
           {| files := {[ ["air-token-project"] := Dir;
                          ["air-token-project"; "scripts"] := Dir ]};
              cwd := [] |}).
  - reflexivity.
  - reflexivity.
  - intros text. vm_compute. discriminate.
Defined.

(** ** Scaffolding before the credential check *)

(** Step 1, when it returns. *)
Lemma createProjectStructure_return (this : CompleteDeployer) s s' t :
  projectName this = "air-token-project" ->
  stat (files s) (cwd s) = Some Dir ->
  createProjectStructure this s = (Return tt, s', t) ->
  cwd s' = cwd s ++ ["air-token-project"] /\
  files s' !! (cwd s ++ ["air-token-project"]) = Some Dir /\
  (forall d, In d ["contracts"; "scripts"; "artifacts"; "cache"] ->
     files s' !! ((cwd s ++ ["air-token-project"]) ++ [d]) =
     Some (default Dir (files s !! ((cwd s ++ ["air-token-project"]) ++ [d])))) /\
  In (Chdir "air-token-project") t /\
  forallb (fun e => negb (failure e)) t = true.
Proof.
  intros Hname Hcwd Hrun.
  destruct (files s !! (cwd s ++ ["air-token-project"])) as [[| text] |] eqn:Hlook.
  1, 3: destruct (createProjectStructure_spec this s Hname Hcwd)
      as (fs' & t' & Hrun' & Hproj & Hsub & _ & Hok & Hch & _);
    [ intros text; by rewrite Hlook
    | rewrite Hrun' in Hrun; by injection Hrun as <- <- ].
  exfalso. revert Hrun. unfold createProjectStructure. rewrite Hname. msimpl.
  assert (Hres : resolve s "air-token-project" = cwd s ++ ["air-token-project"])
    by reflexivity.
  rewrite mkdir_if_missing_present
    by (rewrite Hres, stat_snoc, Hlook; by eexists).
  msimpl. unfold chdir. rewrite Hres, stat_snoc, Hlook. by msimpl.
Qed.

Lemma launch_tool (w : World) (this : CompleteDeployer) (cmd : string) (s : state) :
  String.eqb cmd deploy_command = false ->
  String.eqb cmd monitor_command = false ->
  launch w this cmd s = (Return (tool w cmd), s, []).
Proof. intros H1 H2. unfold launch. by rewrite H1, H2. Qed.

(** Step 2, when it returns. *)
Lemma installDependencies_return (w : World) (this : CompleteDeployer) s s' t :
  installDependencies w this s = (Return tt, s', t) ->
  s' = {| files := <[resolve s "package.json" := File (JSON_stringify2 packageJson)]> (files s);
          cwd := cwd s |} /\
  t = [ Stdout "📦 Installing dependencies...";
        WriteFile "package.json" (JSON_stringify2 packageJson);
        Spawn "npm install"; Exited "npm install" 0 ].
Proof.
  unfold installDependencies. msimpl.
  destruct (writeFileSync_cases "package.json" (JSON_stringify2 packageJson) s)
    as [-> | [c ->]]; msimpl; [| discriminate].
  erewrite runCommand_unfold by (by apply launch_tool).
  destruct (tool w "npm install" =? 0) eqn:E; [| discriminate].
  apply Z.eqb_eq in E. rewrite E. by intros [= <- <-].
Qed.

(** Step 3, when it returns. *)
Lemma createConfigFiles_return (this : CompleteDeployer) s s' t :
  createConfigFiles this s = (Return tt, s', t) ->
  s' = {| files :=
            <[resolve s ".gitignore" := File gitignore]>
              (<[resolve s ".env.example" := File (envTemplate this)]>
                 (<[resolve s "scripts/deploy.js" := File deployScript]>
                    (<[resolve s "contracts/AIR.sol" := File airContract]>
                       (<[resolve s "hardhat.config.js" := File (hardhatConfig this)]>
                          (files s)))));
          cwd := cwd s |} /\
  t = [ Stdout "⚙️  Creating configuration files...";
        WriteFile "hardhat.config.js" (hardhatConfig this);
        WriteFile "contracts/AIR.sol" airContract;
        WriteFile "scripts/deploy.js" deployScript;
        WriteFile ".env.example" (envTemplate this);
        WriteFile ".gitignore" gitignore ].
Proof.
  unfold createConfigFiles. msimpl.
  repeat (match goal with
          | |- context [writeFileSync ?p ?d ?st] =>
              destruct (writeFileSync_cases p d st) as [-> | [c ->]]
          end; msimpl; [| discriminate]).
  by intros [= <- <-].
Qed.

Lemma scaffolding_app (t1 : list event) (r : outcome unit) (t2 : list event) :
  scaffolding (Return tt) t1 -> scaffolding r t2 -> scaffolding r (t1 ++ t2).
Proof.
  intros (A1 & B1 & _) (A2 & B2 & C2). split; [| split; [| exact C2]].
  - intros x H. apply in_app_iff in H as [H | H]; [by eapply A1 | by eapply A2].
  - intros cmd H. apply in_app_iff in H as [H | H]; [by apply B1 | by apply B2].
Qed.

Lemma scaffolding_install (w : World) (this : CompleteDeployer) :
  holds scaffolding (runCommand w this "npm install").
Proof.
  intros s r s' t H.
  erewrite runCommand_unfold in H by (by apply launch_tool).
  injection H as <- <- <-. split; [| split].
  - intros x [H | [H | []]]; discriminate H.
  - intros cmd [H | [H | []]]; [by injection H as <- | discriminate H].
  - destruct (_ =? 0); cbn; [done | discriminate].
Qed.

Ltac scaffolding_prim :=
  first [ exact scaffolding_app
        | apply scaffolding_install
        | intros; split; [| split];
          [ let H := fresh "H" in
            intros ? H; cbn [In] in H;
            repeat (destruct H as [H | H]; [discriminate H |]); done
          | let H := fresh "H" in
            intros ? H; cbn [In] in H;
            repeat (destruct H as [H | H]; [discriminate H |]); done
          | try done ] ].

Lemma scaffolding_fs_error (c : errno) (syscall p : string) :
  scaffolding (Throw (SystemError c syscall p)) [FsError syscall p c].
Proof.
  split; [| split].
  - intros x [H | []]. discriminate H.
  - intros cmd [H | []]. discriminate H.
  - destruct c; discriminate.
Qed.

Lemma append_inj (p a b : string) : p +:+ a = p +:+ b -> a = b.
Proof. induction p as [| c p IH]; cbn; [done |]. intros [= H]. by apply IH. Qed.

Lemma scaffolding_steps (w : World) (this : CompleteDeployer) :
  holds scaffolding (createProjectStructure this) /\
  holds scaffolding (installDependencies w this) /\
  holds scaffolding (createConfigFiles this).
Proof.
  split; [| split].
  - apply holds_createProjectStructure;
      first [exact scaffolding_fs_error | scaffolding_prim].
  - apply (holds_installDependencies scaffolding) with (this := this);
      first [exact scaffolding_fs_error | scaffolding_prim].
  - apply (holds_createConfigFiles scaffolding) with (this := this);
      first [exact scaffolding_fs_error | scaffolding_prim].
Qed.

(** Without a credential, in scaffold-and-deploy mode, the exit code is 1
    and no command other than [npm install] is ever run.  The credential
    is checked in step 4 only: whenever its error is the one reported,
    steps 1 to 3 have been carried out before (the working directory
    changed to the project directory, the manifest written, [npm install]
    run with status 0, the five configuration files written), nothing
    follows the report, and the disk is left with the project directory,
    the six files, and its four sub-directories: each has been created,
    unless its name was taken, by what is then still there. *)
Lemma credential_error_after_scaffolding (w : World) :
  quick w = false ->
  truthy (env w !! "PRIVATE_KEY") = false ->
  exit_code w = 1 /\
  (forall cmd, In (Spawn cmd) (trace w) -> cmd = "npm install") /\
  (In (Stderr (deployment_failed (message credential_error))) (trace w) ->
   exists t1,
     trace w =
       Stdout starting :: t1 ++
       [ Stdout "📦 Installing dependencies...";
         WriteFile "package.json" (JSON_stringify2 packageJson);
         Spawn "npm install"; Exited "npm install" 0;
         Stdout "⚙️  Creating configuration files...";
         WriteFile "hardhat.config.js" (hardhatConfig (constructor w));
         WriteFile "contracts/AIR.sol" airContract;
         WriteFile "scripts/deploy.js" deployScript;
         WriteFile ".env.example" (envTemplate (constructor w));
         WriteFile ".gitignore" gitignore;
         Stdout "📤 Deploying AIR token...";
         Stderr (deployment_failed (message credential_error)) ] /\
     In (Chdir "air-token-project") t1 /\
     forallb (fun e => negb (failure e)) t1 = true /\
     cwd (final w) = ["air-token-project"] /\
     files (final w) !! ["air-token-project"] = Some Dir /\
     (forall d, In d ["contracts"; "scripts"; "artifacts"; "cache"] ->
        files (final w) !! ["air-token-project"; d] =
        Some (default Dir (disk w !! ["air-token-project"; d]))) /\
     (forall p d, In (p, d) (scaffolded (constructor w)) ->
        files (final w) !! ("air-token-project" :: components p) = Some (File d))).
Proof.
  intros Hq Hk.
  destruct (process_scaffold_cases w Hq) as (r & s & t & Hs & Hp).
  destruct (scaffolding_steps w (constructor w)) as (P1 & P2 & P3).
  pose proof (fail_stop_steps w (constructor w) _ _ _ _ Hs) as Hfs.
  destruct r as [[] | e | c]; [by destruct (steps_without_key w _ _ _ Hk Hs) | | done].
  unfold exit_code, trace, final. rewrite Hp. cbn [fst snd].
  apply steps_inv in Hs as (r1 & s1 & t1 & E1 & Hs).
  pose proof (P1 _ _ _ _ E1) as (A1 & B1 & C1).
  assert (Hlast : forall l x,
            (forall y, ~ In (Stderr y) l) ->
            In (Stderr x) (Stdout starting :: l ++ [Stderr (deployment_failed (message e))]) ->
            message e = message credential_error \/ x <> deployment_failed (message credential_error)).
  { intros l x Hl [H | H]; [discriminate H |].
    apply in_app_iff in H as [H | [H | []]]; [by destruct (Hl x) |].
    injection H as <-.
    destruct (decide (message e = message credential_error)) as [-> | Hne];
      [by left | right].
    intros H. by apply append_inj in H. }
  split; [reflexivity |].
  destruct r1 as [[] | e1 | c1]; cbn in C1; [| | done].
  2: { destruct Hs as (He & -> & ->). injection He as <-. split.
       - intros cmd [H | H]; [discriminate H |].
         apply in_app_iff in H as [H | [H | []]]; [by apply B1 | discriminate H].
       - intros H. destruct (Hlast _ _ A1 H) as [H' | H']; [by destruct C1 | by destruct H']. }
  destruct Hs as (r2 & s2 & t2 & E2 & Hs).
  pose proof (P2 _ _ _ _ E2) as (A2 & B2 & C2).
  pose proof (scaffolding_app _ _ _ (conj A1 (conj B1 I)) (conj A2 (conj B2 C2)))
    as (A12 & B12 & _).
  destruct r2 as [[] | e2 | c2]; cbn in C2; [| | done].
  2: { destruct Hs as (He & -> & ->). injection He as <-. split.
       - intros cmd [H | H]; [discriminate H |].
         apply in_app_iff in H as [H | [H | []]]; [by apply B12 | discriminate H].
       - intros H. destruct (Hlast _ _ A12 H) as [H' | H']; [by destruct C2 | by destruct H']. }
  destruct Hs as (r3 & s3 & t3 & E3 & Hs).
  pose proof (P3 _ _ _ _ E3) as (A3 & B3 & C3).
  pose proof (scaffolding_app _ _ _ (conj A12 (conj B12 I)) (conj A3 (conj B3 C3)))
    as (A123 & B123 & _).
  rewrite <- app_assoc in A123, B123.
  destruct r3 as [[] | e3 | c3]; cbn in C3; [| | done].
  2: { destruct Hs as (He & -> & ->). injection He as <-. split.
       - intros cmd [H | H]; [discriminate H |].
         apply in_app_iff in H as [H | [H | []]]; [by apply B123 | discriminate H].
       - intros H. destruct (Hlast _ _ A123 H) as [H' | H']; [by destruct C3 | by destruct H']. }
  destruct Hs as (r4 & s4 & t4 & E4 & Hs).
  rewrite (deployContract_without_key w s3 Hk) in E4. injection E4 as <- <- <-.
  destruct Hs as (He & -> & ->). injection He as ->.
  apply createProjectStructure_return in E1 as (Hcwd1 & Hproj & Hsub & Hch & Hok1);
    [| reflexivity | reflexivity].
  apply installDependencies_return in E2 as (-> & ->).
  apply createConfigFiles_return in E3 as (-> & ->).
  cbn [files cwd] in *. unfold resolve. cbn [files cwd]. rewrite Hcwd1.
  cbn [start cwd app] in *.
  change (components "package.json") with ["package.json"].
  change (components "hardhat.config.js") with ["hardhat.config.js"].
  change (components "contracts/AIR.sol") with ["contracts"; "AIR.sol"].
  change (components "scripts/deploy.js") with ["scripts"; "deploy.js"].
  change (components ".env.example") with [".env.example"].
  change (components ".gitignore") with [".gitignore"].
  split.
  { intros cmd [H | H]; [discriminate H |].
    rewrite !in_app_iff in H. cbn [In] in H.
    destruct H as [[H | H] | H]; [by apply B1 | |].
    - repeat (destruct H as [H | H]; [try discriminate H |]); try done.
      by injection H as <-.
    - repeat (destruct H as [H | H]; [try discriminate H |]); done. }
  intros _. exists t1. split; [| split; [exact Hch |]; split; [exact Hok1 |]].
  { cbn [app]. f_equal. by rewrite <- !app_assoc. }
  split; [reflexivity |].
  split; [| split].
  - by rewrite !lookup_insert_ne.
  - intros d Hd. specialize (Hsub d Hd). cbn [app] in Hsub.
    cbn [In] in Hd.
    repeat (destruct Hd as [<- | Hd]; [by rewrite !lookup_insert_ne |]). done.
  - intros p d Hpd. unfold scaffolded in Hpd. cbn [In] in Hpd.
    repeat (destruct Hpd as [Hpd | Hpd];
            [injection Hpd as <- <-;
             match goal with
             | |- context [components ?q] =>
                 let v := eval vm_compute in (components q) in
                 change (components q) with v
             end;
             by repeat first [ rewrite lookup_insert_eq
                             | rewrite lookup_insert_ne by done ] |]).
    done.
Qed.

(** ** Dates *)

(** A check that succeeds on a range holds of each of its integers. *)
Lemma forall_range_spec (f : Z -> bool) (len : nat) (start : Z) :
  forall_range f len start = true ->
  forall z, start <= z < start + Z.of_nat len -> f z = true.
Proof.
  revert start. induction len as [| len IH]; intros start H z Hz; [lia |].
  cbn [forall_range] in H. apply andb_true_iff in H as [H0 H1].
  destruct (Z.eq_dec z start) as [-> | Hne]; [exact H0 |].
  apply (IH (start + 1) H1). lia.
Qed.

(** The days of one cycle of 400 years, one by one. *)
Lemma doe_ok_cycle : forall_range doe_ok (Z.to_nat 146097) 0 = true.
Proof. vm_compute. reflexivity. Qed.

Lemma doe_ok_all (doe : Z) : 0 <= doe < 146097 -> doe_ok doe = true.
Proof.
  intros H. apply (forall_range_spec doe_ok (Z.to_nat 146097) 0 doe_ok_cycle). lia.
Qed.

(** Leap years and the lengths of the months repeat with the cycle. *)
Lemma is_leap_cycle (y era : Z) : is_leap (y + era * 400) = is_leap y.
Proof.
  unfold is_leap.
  replace ((y + era * 400) mod 4) with (y mod 4)
    by (replace (era * 400) with (era * 100 * 4) by lia; by rewrite Z_mod_plus_full).
  replace ((y + era * 400) mod 100) with (y mod 100)
    by (replace (era * 400) with (era * 4 * 100) by lia; by rewrite Z_mod_plus_full).
  by rewrite Z_mod_plus_full.
Qed.

Lemma days_in_month_cycle (y era m : Z) :
  days_in_month (y + era * 400) m = days_in_month y m.
Proof. unfold days_in_month. by rewrite is_leap_cycle. Qed.

(** The date of a day is a date of the calendar, and counts back to it. *)
Lemma civil_from_days_spec (day : Z) :
  let '(y, m, d) := civil_from_days day in
  1 <= m <= 12 /\ 1 <= d <= days_in_month y m /\ days_from_civil y m d = day /\
  (day + 719468) / 146097 * 400 <= y <= (day + 719468) / 146097 * 400 + 400.
Proof.
  unfold civil_from_days.
  set (z := day + 719468). set (era := z / 146097). set (doe := z mod 146097).
  assert (Hdoe : 0 <= doe < 146097) by (apply Z.mod_pos_bound; lia).
  assert (Hz : z = 146097 * era + doe) by (apply Z.div_mod; lia).
  pose proof (doe_ok_all doe Hdoe) as Hok. unfold doe_ok in Hok.
  destruct (date_of_doe doe) as [[y m] d].
  repeat (apply andb_true_iff in Hok as [Hok ?]).
  rewrite days_in_month_cycle.
  split; [lia |]. split; [lia |].
  assert (Hy1 : (if m <=? 2 then y + era * 400 - 1 else y + era * 400)
                = (if m <=? 2 then y - 1 else y) + era * 400)
    by (destruct (m <=? 2); lia).
  set (yoe := if m <=? 2 then y - 1 else y) in *.
  split.
  - unfold days_from_civil. rewrite Hy1.
    rewrite Z_div_plus_full by lia. rewrite Z_mod_plus_full.
    rewrite (Z.div_small yoe 400) by lia. rewrite (Z.mod_small yoe 400) by lia.
    lia.
  - subst yoe. destruct (m <=? 2); lia.
Qed.

(** ** The timestamp reads back *)

Lemma append_cons (x : ascii) (a b : string) : String x a +:+ b = String x (a +:+ b).
Proof. reflexivity. Qed.

Lemma append_nil (b : string) : "" +:+ b = b.
Proof. reflexivity. Qed.

Lemma append_assoc (a b c : string) : (a +:+ b) +:+ c = a +:+ (b +:+ c).
Proof.
  induction a as [| x a IH]; [done |]. by rewrite !append_cons, IH.
Qed.

Lemma digit_cases (d : Z) :
  0 <= d < 10 ->
  d = 0 \/ d = 1 \/ d = 2 \/ d = 3 \/ d = 4 \/ d = 5 \/ d = 6 \/ d = 7 \/ d = 8 \/ d = 9.
Proof. lia. Qed.

Lemma digit_is_digit (d : Z) : 0 <= d < 10 -> is_digit (digit d) = true.
Proof. intros H. destruct (digit_cases d H) as [-> | [-> | [-> | [-> | [-> | [-> | [-> | [-> | [-> | ->]]]]]]]]]; reflexivity. Qed.

Lemma digit_value_digit (d : Z) : 0 <= d < 10 -> digit_value (digit d) = d.
Proof. intros H. destruct (digit_cases d H) as [-> | [-> | [-> | [-> | [-> | [-> | [-> | [-> | [-> | ->]]]]]]]]]; reflexivity. Qed.

Lemma is_digit_not_sign (c : ascii) :
  is_digit c = true -> Ascii.eqb c "+" = false /\ Ascii.eqb c "-" = false.
Proof. destruct c as [[] [] [] [] [] [] [] []]; cbn; (discriminate || done). Qed.

Lemma pad_app (k : nat) (n : Z) (acc : string) : pad k n acc = pad k n "" +:+ acc.
Proof.
  revert n acc. induction k as [| k IH]; intros n acc; cbn [pad]; [done |].
  rewrite (IH _ (String _ acc)), (IH _ (String _ "")). by rewrite append_assoc.
Qed.

Lemma take_digits_snoc (k : nat) (acc : Z) (s : string) :
  take_digits (S k) acc s =
  match take_digits k acc s with
  | Some (a, String c r) => if is_digit c then Some (10 * a + digit_value c, r) else None
  | _ => None
  end.
Proof.
  revert acc s. induction k as [| k IH]; intros acc s.
  - cbn. destruct s as [| c r]; [done |]. by destruct (is_digit c).
  - change (take_digits (S (S k)) acc s)
      with (match s with
            | String c r =>
                if is_digit c then take_digits (S k) (10 * acc + digit_value c) r else None
            | EmptyString => None
            end).
    destruct s as [| c r]; [done |]. cbn [take_digits]. destruct (is_digit c); [| done].
    rewrite <- IH. reflexivity.
Qed.

(** Reading back [k] padded digits. *)
Lemma take_digits_pad (k : nat) (n acc : Z) (rest : string) :
  0 <= n ->
  take_digits k acc (pad k n "" +:+ rest) =
    Some (acc * 10 ^ Z.of_nat k + n mod 10 ^ Z.of_nat k, rest).
Proof.
  revert n rest. induction k as [| k IH]; intros n rest Hn.
  - cbn. f_equal. f_equal. rewrite Z.mod_1_r. lia.
  - rewrite take_digits_snoc. cbn [pad]. rewrite pad_app, append_assoc.
    rewrite append_cons, append_nil. rewrite IH by (apply Z.div_pos; lia).
    assert (Hd : 0 <= n mod 10 < 10) by (apply Z.mod_pos_bound; lia).
    rewrite (digit_is_digit _ Hd), (digit_value_digit _ Hd).
    f_equal. f_equal. rewrite Nat2Z.inj_succ, Z.pow_succ_r by lia.
    rewrite (Z.rem_mul_r n 10 (10 ^ Z.of_nat k)) by lia. lia.
Qed.

Lemma take_digits_pad_small (k : nat) (n : Z) (rest : string) :
  0 <= n < 10 ^ Z.of_nat k ->
  take_digits k 0 (pad k n "" +:+ rest) = Some (n, rest).
Proof.
  intros H. rewrite take_digits_pad by lia. by rewrite Z.mod_small by lia.
Qed.

Lemma take_year_plain (y : Z) (rest : string) :
  0 <= y <= 9999 -> take_year (pad 4 y "" +:+ rest) = Some (y, rest).
Proof.
  intros H. pose proof (take_digits_pad_small 4 y rest) as Hd.
  destruct (pad 4 y "" +:+ rest) as [| c r]; [by discriminate Hd; cbn; lia |].
  pose proof (Hd ltac:(cbn; lia)) as Hd'. unfold take_year.
  assert (Hc : is_digit c = true).
  { cbn [take_digits] in Hd'. by destruct (is_digit c). }
  destruct (is_digit_not_sign c Hc) as [-> ->]. exact Hd'.
Qed.

Lemma expect_literal (c : ascii) (rest : string) :
  expect c (String c EmptyString +:+ rest) = Some rest.
Proof. rewrite append_cons, append_nil. cbn [expect]. by rewrite Ascii.eqb_refl. Qed.

Lemma days_in_month_le (y m : Z) : days_in_month y m <= 31.
Proof. unfold days_in_month. repeat case_match; lia. Qed.

(** The day number of 1 January is DayFromYear of ECMAScript. *)
Lemma days_from_civil_new_year (y : Z) : days_from_civil y 1 1 = DayFromYear y.
Proof.
  unfold days_from_civil, DayFromYear. cbn [Z.leb Z.compare Pos.compare Pos.compare_cont].
  Z.div_mod_to_equations. lia.
Qed.

(** The year of a day is YearFromTime of ECMAScript: the day lies between
    1 January of that year and 1 January of the next. *)
Lemma civil_from_days_year (day : Z) :
  let '(y, m, d) := civil_from_days day in
  DayFromYear y <= day < DayFromYear (y + 1).
Proof.
  pose proof (civil_from_days_spec day) as H.
  destruct (civil_from_days day) as [[y m] d].
  destruct H as (Hm & Hd & <- & _).
  assert (Hday : 1 <= d <= 31) by (pose proof (days_in_month_le y m); lia).
  clear Hd.
  rewrite <- !days_from_civil_new_year. unfold days_from_civil.
  cbn [Z.leb Z.compare Pos.compare Pos.compare_cont].
  replace (y + 1 - 1) with y by lia.
  assert (Hcases : m = 1 \/ m = 2 \/ m = 3 \/ m = 4 \/ m = 5 \/ m = 6 \/ m = 7 \/
                   m = 8 \/ m = 9 \/ m = 10 \/ m = 11 \/ m = 12) by lia.
  clear Hm.
  destruct Hcases as [-> | [-> | [-> | [-> | [-> | [-> | [-> | [-> | [-> | [-> | [-> | ->]]]]]]]]]]];
    cbn [Z.leb Z.compare Pos.compare Pos.compare_cont Z.add Z.sub Z.mul Z.opp Z.pos_sub
         Pos.add Pos.mul Pos.succ Pos.pred_double Z.double Z.succ_double Z.pred_double]
      in *;
    Z.div_mod_to_equations; lia.
Qed.

Lemma take_year_toISOString (y : Z) (rest : string) :
  -999999 <= y <= 999999 ->
  take_year
    ((if (0 <=? y) && (y <=? 9999) then pad 4 y ""
      else (if y <? 0 then "-" else "+") +:+ pad 6 (Z.abs y) "") +:+ rest)
  = Some (y, rest).
Proof.
  intros Hy. destruct ((0 <=? y) && (y <=? 9999)) eqn:E.
  - apply take_year_plain. lia.
  - assert (Hpad : take_digits 6 0 (pad 6 (Z.abs y) "" +:+ rest) = Some (Z.abs y, rest))
      by (apply take_digits_pad_small; cbn; lia).
    destruct (y <? 0) eqn:E2; rewrite append_assoc, append_cons, append_nil;
      unfold take_year; cbn [Ascii.eqb Bool.eqb]; rewrite Hpad.
    + destruct (Z.abs y =? 0) eqn:E3; [lia |]. f_equal. f_equal. lia.
    + f_equal. f_equal. lia.
Qed.

(** [Date.parse] gives back the time value of which [toISOString] is the
    text. *)
Lemma Date_parse_toISOString (t : Z) :
  valid_time t -> Date_parse (toISOString t) = Some t.
Proof.
  intros Ht. unfold toISOString.
  pose proof (civil_from_days_spec (t / msPerDay)) as Hc.
  destruct (civil_from_days (t / msPerDay)) as [[y m] d].
  destruct Hc as (Hm & Hd & Hday & Hy).
  pose proof (days_in_month_le y m) as Hdim.
  assert (Hms : 0 <= t mod msPerDay < 86400000) by (apply Z.mod_pos_bound; done).
  assert (Ht' : t = msPerDay * (t / msPerDay) + t mod msPerDay)
    by (apply Z.div_mod; done).
  set (ms := t mod msPerDay) in *. set (day := t / msPerDay) in *.
  assert (Hyb : -999999 <= y <= 999999).
  { unfold valid_time, msPerDay in *. clear Hday.
    assert (-100000001 <= day <= 100000000) by lia.
    assert (-700 <= (day + 719468) / 146097 <= 700); [| lia].
    split; [apply Z.div_le_lower_bound | apply Z.div_le_upper_bound]; lia. }
  unfold Date_parse.
  rewrite take_year_toISOString by exact Hyb. cbn [mbind option_bind].
  rewrite expect_literal. cbn [mbind option_bind].
  rewrite take_digits_pad_small by (cbn; lia). cbn [mbind option_bind].
  rewrite expect_literal. cbn [mbind option_bind].
  rewrite take_digits_pad_small by (cbn; lia). cbn [mbind option_bind].
  rewrite expect_literal. cbn [mbind option_bind].
  rewrite take_digits_pad_small
    by (cbn; split; [apply Z.div_pos; lia | apply Z.div_lt_upper_bound; lia]).
  cbn [mbind option_bind].
  rewrite expect_literal. cbn [mbind option_bind].
  rewrite take_digits_pad_small
    by (cbn; pose proof (Z.mod_pos_bound (ms / 60000) 60); lia).
  cbn [mbind option_bind].
  rewrite expect_literal. cbn [mbind option_bind].
  rewrite take_digits_pad_small
    by (cbn; pose proof (Z.mod_pos_bound (ms / 1000) 60); lia).
  cbn [mbind option_bind].
  rewrite expect_literal. cbn [mbind option_bind].
  rewrite take_digits_pad_small
    by (cbn; pose proof (Z.mod_pos_bound ms 1000); lia).
  cbn [mbind option_bind].
  change "Z"%string with ("Z" +:+ "")%string.
  rewrite expect_literal. cbn [mbind option_bind].
  assert (Hh : ms / 3600000 <= 23).
  { assert (ms / 3600000 < 24); [apply Z.div_lt_upper_bound |]; lia. }
  pose proof (Z.mod_pos_bound (ms / 60000) 60 ltac:(lia)) as Hmi.
  pose proof (Z.mod_pos_bound (ms / 1000) 60 ltac:(lia)) as Hsec.
  replace ((1 <=? m)) with true by (symmetry; apply Z.leb_le; lia).
  replace ((m <=? 12)) with true by (symmetry; apply Z.leb_le; lia).
  replace ((1 <=? d)) with true by (symmetry; apply Z.leb_le; lia).
  replace ((d <=? days_in_month y m)) with true by (symmetry; apply Z.leb_le; lia).
  replace ((ms / 3600000 <=? 23)) with true by (symmetry; apply Z.leb_le; lia).
  replace ((ms / 60000 mod 60 <=? 59)) with true by (symmetry; apply Z.leb_le; lia).
  replace ((ms / 1000 mod 60 <=? 59)) with true by (symmetry; apply Z.leb_le; lia).
  cbn [String.eqb andb]. f_equal. rewrite Hday.
  clearbody ms day. unfold msPerDay in *.
  clear - Hms Ht'. Z.div_mod_to_equations. lia.
Qed.

(** ** The deployment record *)

Lemma quote_char_plain (c : ascii) : plain c = true -> quote_char c = String c "".
Proof. destruct c as [[] [] [] [] [] [] [] []]; cbn; (discriminate || reflexivity). Qed.

Lemma quote_body_plain (s : string) : all_chars plain s = true -> quote_body s = s.
Proof.
  induction s as [| c s IH]; cbn [all_chars quote_body]; [done |].
  intros [Hc Hs]%andb_true_iff. by rewrite (quote_char_plain c Hc), (IH Hs).
Qed.

Lemma all_chars_app (f : ascii -> bool) (a b : string) :
  all_chars f (a +:+ b) = all_chars f a && all_chars f b.
Proof.
  induction a as [| c a IH]; [done |].
  rewrite append_cons. cbn [all_chars]. by rewrite IH, andb_assoc.
Qed.

Lemma all_chars_impl (f g : ascii -> bool) (s : string) :
  (forall c, f c = true -> g c = true) -> all_chars f s = true -> all_chars g s = true.
Proof.
  intros Hfg. induction s as [| c s IH]; cbn [all_chars]; [done |].
  intros [Hc Hs]%andb_true_iff. by rewrite (Hfg c Hc), (IH Hs).
Qed.

Lemma is_hex_plain (c : ascii) : is_hex c = true -> plain c = true.
Proof. destruct c as [[] [] [] [] [] [] [] []]; cbn; (discriminate || reflexivity). Qed.

Lemma is_address_plain (s : string) : is_address s = true -> all_chars plain s = true.
Proof.
  unfold is_address. destruct s as [| c0 [| c1 r]]; try discriminate.
  intros [[[H0 H1]%andb_true_iff _]%andb_true_iff Hr]%andb_true_iff.
  apply Ascii.eqb_eq in H0, H1. subst c0 c1. cbn [all_chars].
  by rewrite (all_chars_impl is_hex plain r is_hex_plain Hr).
Qed.

Lemma pad_plain (k : nat) (n : Z) : all_chars plain (pad k n "") = true.
Proof.
  revert n. induction k as [| k IH]; intros n; [done |].
  cbn [pad]. rewrite pad_app, all_chars_app, IH. cbn [all_chars andb].
  rewrite andb_true_r. apply is_hex_plain.
  assert (Hd : 0 <= n mod 10 < 10) by (apply Z.mod_pos_bound; lia).
  destruct (digit_cases _ Hd) as [-> | [-> | [-> | [-> | [-> | [-> | [-> | [-> | [-> | ->]]]]]]]]];
    reflexivity.
Qed.

Lemma toISOString_plain (t : Z) : all_chars plain (toISOString t) = true.
Proof.
  unfold toISOString. destruct (civil_from_days (t / msPerDay)) as [[y m] d].
  cbv beta iota zeta.
  destruct (_ && _); rewrite !all_chars_app, !pad_plain; [done |].
  by destruct (y <? 0).
Qed.

Lemma deploymentInfo_text (address deployer timestamp : string) :
  all_chars plain address = true ->
  all_chars plain deployer = true ->
  all_chars plain timestamp = true ->
  JSON_stringify2 (deploymentInfo address deployer timestamp) =
    record_text address deployer timestamp.
Proof.
  intros Ha Hd Ht.
  unfold JSON_stringify2, deploymentInfo, record_text. cbn. unfold QuoteJSONString.
  rewrite (quote_body_plain "address"), (quote_body_plain "deployer"),
    (quote_body_plain "network"), (quote_body_plain "base-sepolia"),
    (quote_body_plain "timestamp") by reflexivity.
  rewrite (quote_body_plain _ Ha), (quote_body_plain _ Hd), (quote_body_plain _ Ht).
  repeat rewrite ?append_assoc, ?append_cons, ?append_nil.
  reflexivity.
Qed.

Lemma records_app (w : World) (t1 : list event) (r : outcome unit) (t2 : list event) :
  records w (Return tt) t1 -> records w r t2 -> records w r (t1 ++ t2).
Proof.
  intros H1 H2 cmd p d H. apply in_app_iff in H as [H | H]; [by eapply H1 | by eapply H2].
Qed.

Lemma records_runCommand (w : World) (this : CompleteDeployer) (cmd : string) :
  holds (records w) (runCommand w this cmd).
Proof.
  intros s r s' t H cmd' p d Hin.
  destruct (launch_cases w this cmd s) as (st & tc & s1 & Hl & _ & Hc).
  rewrite (runCommand_unfold _ _ _ _ _ _ _ Hl) in H. injection H as _ _ <-.
  destruct Hin as [Hin | Hin]; [discriminate Hin |].
  apply in_app_iff in Hin as [Hin | [Hin | []]]; [| discriminate Hin].
  apply in_map_iff in Hin as (e' & He' & Hin'). injection He' as _ ->.
  destruct Hc as [(-> & _) | [(_ & _ & Hw) | (_ & _ & _ & _ & Hw & _)]].
  - destruct Hin'.
  - exact (Hw p d Hin').
  - by destruct (Hw p d).
Qed.

Lemma records_steps (w : World) (this : CompleteDeployer) :
  holds (records w) (steps w this).
Proof.
  apply holds_steps; try apply records_runCommand; try exact (records_app w);
    intros;
    let Hin := fresh "Hin" in
    intros ? ? ? Hin; cbn [In] in Hin;
    repeat (destruct Hin as [Hin | Hin]; [discriminate Hin |]); done.
Qed.



(** ** Examples *)

Example package_json_text :
  JSON_stringify2 packageJson =
  lit "{
  `name`: `air-token-project`,
  `version`: `1.0.0`,
  `scripts`: {
    `compile`: `npx hardhat compile`,
    `deploy`: `npx hardhat run scripts/deploy.js --network baseSepolia`,
    `test`: `npx hardhat test`
  },
  `devDependencies`: {
    `@nomiclabs/hardhat-ethers`: `^2.2.3`,
    `@openzeppelin/contracts`: `^4.9.3`,
    `ethers`: `^6.10.0`,
    `hardhat`: `^2.20.2`
  }
}".
Proof. vm_compute. reflexivity. Qed.

Example toISOString_epoch : toISOString 0 = "1970-01-01T00:00:00.000Z".
Proof. vm_compute. reflexivity. Qed.

Example toISOString_leap_day : toISOString 951782400000 = "2000-02-29T00:00:00.000Z".
Proof. vm_compute. reflexivity. Qed.

Example toISOString_before_epoch : toISOString (-1) = "1969-12-31T23:59:59.999Z".
Proof. vm_compute. reflexivity. Qed.

Example toISOString_latest : toISOString 8640000000000000 = "+275760-09-13T00:00:00.000Z".
Proof. vm_compute. reflexivity. Qed.

Example toISOString_earliest :
  toISOString (-8640000000000000) = "-271821-04-20T00:00:00.000Z".
Proof. vm_compute. reflexivity. Qed.

(** The bytecode of quick mode has an odd number of hexadecimal digits. *)
Example bytecode_digits : String.length bytecode = 379%nat.
Proof. vm_compute. reflexivity. Qed.

(** A first run in an empty directory, with a credential: the whole of it
    goes through, and the record is on the disk. *)
Example fresh_run_completes :
  exit_code fresh_run = 0 /\
  last (trace fresh_run) = Some (Stdout complete) /\
  files (final fresh_run) !! ["air-token-project"; "deployment-info.json"] =
    Some (File (record_text sample_address sample_deployer "2023-11-14T22:13:20.000Z")).
Proof. vm_compute. by repeat split. Qed.

(** The project path taken by a file: step 1 fails on [chdir], and the run
    ends with exit code 1. *)
Example project_path_is_a_file :
  let w := sample_world [] (Some sample_key) {[ ["air-token-project"] := File "" ]}
             all_ok sample_sdk sample_sdk in
  exit_code w = 1 /\
  trace w =
    [ Stdout starting;
      Stdout "📁 Creating project structure...";
      FsError "chdir" "air-token-project" ENOTDIR;
      Stderr (deployment_failed "ENOTDIR: not a directory, chdir 'air-token-project'") ].
Proof. vm_compute. by split. Qed.

(** Node failing to start on the monitor script ends the run like any
    other failed command. *)
Example monitor_fails_to_start :
  exit_code node_fails = 1 /\
  last (trace node_fails) =
    Some (Stderr (deployment_failed "Command failed: node monitor.js")).
Proof. vm_compute. by split. Qed.
(** ** The children, one by one *)

(** What a command starts: an external tool, of which nothing is seen but
    the status, or one of the two generated scripts. *)
Lemma launch_inv (w : World) (this : CompleteDeployer) (cmd : string) (s : state) :
  exists st tc s',
    launch w this cmd s = (Return st, s', List.map (Sub cmd) tc) /\
    ((tc = [] /\ s' = s /\ st = tool w cmd) \/
     (cmd = deploy_command /\
      stat (files s) (resolve s "scripts/deploy.js") = Some (File deployScript) /\
      tool w cmd = 0 /\
      exists r s1,
        deploy_js w s = (r, s1, tc) /\ s' = {| files := files s1; cwd := cwd s |} /\
        ((r = Return tt /\ st = 0) \/ (r = Exit 1 /\ st = 1))) \/
     (cmd = monitor_command /\
      stat (files s) (resolve s "monitor.js") = Some (File (monitorScript this)) /\
      tool w cmd = 0 /\
      st = 0 /\ s' = s /\ monitor w this s = (Return tt, s, tc))).
Proof.
  assert (Htool : exists st tc s',
             (Return (tool w cmd), s, @nil event) = (Return st, s', List.map (Sub cmd) tc) /\
             ((tc = [] /\ s' = s /\ st = tool w cmd) \/
              (cmd = deploy_command /\
               stat (files s) (resolve s "scripts/deploy.js") = Some (File deployScript) /\
               tool w cmd = 0 /\
               exists r s1,
                 deploy_js w s = (r, s1, tc) /\ s' = {| files := files s1; cwd := cwd s |} /\
                 ((r = Return tt /\ st = 0) \/ (r = Exit 1 /\ st = 1))) \/
              (cmd = monitor_command /\
               stat (files s) (resolve s "monitor.js") = Some (File (monitorScript this)) /\
               tool w cmd = 0 /\
               st = 0 /\ s' = s /\ monitor w this s = (Return tt, s, tc)))).
  { exists (tool w cmd), [], s. split; [reflexivity |]. by left. }
  unfold launch, on_disk.
  destruct (String.eqb cmd deploy_command) eqn:Ed; msimpl.
  { destruct (stat (files s) (resolve s "scripts/deploy.js")) as [[| text] |] eqn:Estat;
      cbn [andb]; msimpl; try exact Htool.
    destruct (String.eqb text deployScript) eqn:Etext; cbn [andb]; msimpl;
      [| exact Htool].
    destruct (tool w cmd =? 0) eqn:Etool; msimpl; [| exact Htool].
    apply String.eqb_eq in Ed, Etext. apply Z.eqb_eq in Etool. subst cmd text.
    unfold child. destruct (deploy_js w s) as [[r s1] t] eqn:Hd.
    destruct (deploy_js_cases w s r s1 t Hd) as ([-> | ->] & _).
    - exists 0, t, {| files := files s1; cwd := cwd s |}.
      split; [reflexivity |]. right. left.
      do 3 (split; [done |]). exists (Return tt), s1. split; [done |]. split; [done |].
      by left.
    - exists 1, t, {| files := files s1; cwd := cwd s |}.
      split; [reflexivity |]. right. left.
      do 3 (split; [done |]). exists (Exit 1), s1. split; [done |]. split; [done |].
      by right. }
  destruct (String.eqb cmd monitor_command) eqn:Em; msimpl; [| exact Htool].
  destruct (stat (files s) (resolve s "monitor.js")) as [[| text] |] eqn:Estat;
    cbn [andb]; msimpl; try exact Htool.
  destruct (String.eqb text (monitorScript this)) eqn:Etext; cbn [andb]; msimpl;
    [| exact Htool].
  destruct (tool w cmd =? 0) eqn:Etool; msimpl; [| exact Htool].
  apply String.eqb_eq in Em, Etext. apply Z.eqb_eq in Etool. subst cmd text.
  unfold child. destruct (monitor_cases w this s) as (t & Hm & _).
  rewrite Hm. exists 0, t, s. destruct s as [fs wd]. cbn [files cwd].
  split; [reflexivity |]. right. right. done.
Qed.
(** ** Quick mode with a credential *)



(** With the endpoint out of reach the request for the balance is never
    answered, and the process does not end. *)
Example quick_mode_out_of_reach :
  In (Sdk (GetBalance sample_deployer) true) (trace quick_out_of_reach) /\
  unanswered quick_out_of_reach (Sdk (GetBalance sample_deployer) true) = true /\
  exit_status quick_out_of_reach = None.
Proof. split; [vm_compute; tauto |]. split; vm_compute; reflexivity. Qed.
(** ** The project path taken by a file *)

(** X2: in scaffold-and-deploy mode, when the project path is a regular
    file, the test for existence passes, no directory is made, and the run
    ends on [process.chdir], which fails with ENOTDIR: the exit code is 1,
    the one line on the error stream is the report of [run], "Deployment
    failed:" and the message of the error, nothing has been written and no
    command has been run. *)
Theorem project_path_taken_by_a_file (w : World) (text : string) :
  quick w = false ->
  disk w !! ["air-token-project"] = Some (File text) ->
  exists m,
    process w =
      (1, start w,
       [ Stdout starting;
         Stdout "📁 Creating project structure...";
         FsError "chdir" "air-token-project" ENOTDIR;
         Stderr (deployment_failed m) ]).
Proof.
  intros Hq Hfile. unfold process. rewrite (process_scaffold w Hq).
  unfold run, steps, createProjectStructure.
  change (projectName (constructor w)) with "air-token-project". msimpl.
  assert (Hres : resolve (start w) "air-token-project" = ["air-token-project"])
    by reflexivity.
  rewrite mkdir_if_missing_present
    by (rewrite Hres; cbn [start files stat]; rewrite Hfile; by eexists).
  unfold chdir. rewrite Hres. cbn [start files stat].
  rewrite Hfile. by eexists.
Qed.

Lemma project_path_taken_by_a_file_witness :
  exists m,
    process project_is_a_file =
      (1, start project_is_a_file,
       [ Stdout starting;
         Stdout "📁 Creating project structure...";
         FsError "chdir" "air-token-project" ENOTDIR;
         Stderr (deployment_failed m) ]).
Proof.
  apply (project_path_taken_by_a_file project_is_a_file "notes").
  - reflexivity.
  - reflexivity.
Defined.
(** ** Who does what *)

Lemma monitor_events (w : World) (this : CompleteDeployer) (s : state) r s' t :
  monitor w this s = (r, s', t) -> forallb monitor_event t = true.
Proof.
  unfold monitor, require_text. msimpl.
  destruct (stat _ _) as [[| text] |]; msimpl; try (by intros [= <- <- <-]).
  destruct (parse_address w text) as [[a |] | m]; msimpl; try (by intros [= <- <- <-]).
  destruct_result; msimpl; by intros [= <- <- <-].
Qed.

Lemma deploy_js_events (w : World) (s : state) r s' t :
  deploy_js w s = (r, s', t) -> forallb deploy_event t = true.
Proof.
  unfold deploy_js, deploy_main. msimpl.
  destruct (getSigners (hardhat w)) as [[| deployer others] | m]; msimpl;
    try (by intros [= <- <- <-]).
  repeat (destruct_result; msimpl; [| by intros [= <- <- <-]]).
  match goal with
  | |- context [writeFileSync ?p ?d ?st] =>
      destruct (writeFileSync_cases p d st) as [-> | [c ->]]
  end; msimpl; by intros [= <- <- <-].
Qed.

Lemma as_expected_app (t1 : list event) (r : outcome unit) (t2 : list event) :
  as_expected (Return tt) t1 -> as_expected r t2 -> as_expected r (t1 ++ t2).
Proof. unfold as_expected. intros H1 H2. by rewrite forallb_app, H1, H2. Qed.

Lemma as_expected_runCommand (w : World) (this : CompleteDeployer) (cmd : string) :
  holds as_expected (runCommand w this cmd).
Proof.
  intros s r s' t H.
  destruct (launch_inv w this cmd s) as (st & tc & s1 & Hl & Hc).
  rewrite (runCommand_unfold _ _ _ _ _ _ _ Hl) in H. injection H as _ _ <-.
  unfold as_expected. cbn [forallb expected andb].
  rewrite forallb_app. cbn [forallb expected andb]. rewrite andb_true_r.
  rewrite forallb_forall. intros e He. apply in_map_iff in He as (e' & <- & He').
  destruct Hc as [(-> & _) | [(-> & _ & _ & r1 & s2 & Hd & _) | (-> & _ & _ & _ & _ & Hm)]];
    [done | |]; cbn [expected].
  - apply deploy_js_events in Hd. rewrite forallb_forall in Hd.
    rewrite (Hd e' He'). by rewrite orb_true_r.
  - apply monitor_events in Hm. rewrite forallb_forall in Hm.
    by rewrite (Hm e' He').
Qed.

Lemma as_expected_steps (w : World) (this : CompleteDeployer) :
  holds as_expected (steps w this).
Proof.
  apply holds_steps; try done; try apply as_expected_runCommand.
  exact as_expected_app.
Qed.

(** The trace of the process in scaffold-and-deploy mode, from the trace
    of the five steps. *)
Lemma scaffold_trace (w : World) :
  quick w = false ->
  exists r s t,
    steps w (constructor w) (start w) = (r, s, t) /\
    final w = s /\
    (trace w = Stdout starting :: t \/
     exists m, trace w = Stdout starting :: t ++ [Stderr (deployment_failed m)]).
Proof.
  intros Hq. destruct (process_scaffold_cases w Hq) as (r & s & t & Hs & Hp).
  exists r, s, t. split; [exact Hs |]. unfold final, trace.
  destruct r; rewrite Hp; cbn [fst snd]; eauto.
Qed.

(** X3: in scaffold-and-deploy mode, with an RPC URL that stands for
    itself in the generated scripts (no double quote, no backslash, no
    control character), the process itself makes no SDK call: whatever
    reaches the chain comes from the child that runs [scripts/deploy.js]
    or from the one that runs [monitor.js], the only children whose events
    are seen.  The monitor script prints on the standard output, loads the
    record and reads the name of the contract: it writes no file, submits
    nothing and prints nothing on the error stream.  (With another URL the
    text written to [monitor.js] is another program, of which nothing is
    said.) *)
Theorem sdk_calls_are_left_to_the_children (w : World) :
  quick w = false ->
  plain_url (rpcUrl (constructor w)) = true ->
  (forall c ok, ~ In (Sdk c ok) (trace w)) /\
  (forall cmd e, In (Sub cmd e) (trace w) ->
     cmd = deploy_command /\ deploy_event e = true \/
     cmd = monitor_command /\ monitor_event e = true) /\
  (forall e, In (Sub monitor_command e) (trace w) ->
     match e with
     | Stdout _ | RequireError _ => True
     | Sdk c _ => c = NewContract \/ (exists url, c = NewProvider url) \/
                  exists address, c = ReadName address
     | _ => False
     end).
Proof.
  intros Hq _. destruct (scaffold_trace w Hq) as (r & s & t & Hs & _ & Ht).
  pose proof (as_expected_steps w (constructor w) _ _ _ _ Hs) as He.
  assert (Hall : forall e, In e (trace w) -> expected e = true).
  { unfold as_expected in He. rewrite forallb_forall in He.
    intros e Hin. destruct Ht as [Ht | [m Ht]]; rewrite Ht in Hin.
    - destruct Hin as [<- | Hin]; [done | by apply He].
    - destruct Hin as [<- | Hin]; [done |].
      apply in_app_iff in Hin as [Hin | [<- | []]]; [by apply He | done]. }
  assert (Hsub : forall cmd e, In (Sub cmd e) (trace w) ->
            cmd = deploy_command /\ deploy_event e = true \/
            cmd = monitor_command /\ monitor_event e = true).
  { intros cmd e Hin. specialize (Hall _ Hin). cbn [expected] in Hall.
    apply orb_true_iff in Hall as [H | H]; apply andb_true_iff in H as [H1 H2];
      apply String.eqb_eq in H1; auto. }
  split; [| split; [exact Hsub |]].
  - intros c ok Hin. by specialize (Hall _ Hin).
  - intros e Hin. destruct (Hsub _ _ Hin) as [[H _] | [_ H]]; [discriminate H |].
    destruct e as [| | | | | | | [] ok | | |]; try discriminate H; eauto.
Qed.

Lemma sdk_calls_are_left_to_the_children_witness :
  ~ In (Sdk (Deploy "AIR") true) (trace fresh_run).
Proof.
  apply (sdk_calls_are_left_to_the_children fresh_run).
  - reflexivity.
  - reflexivity.
Defined.
(** ** One deployment at most *)

Lemma deployments_app (t1 t2 : list event) :
  deployments (t1 ++ t2) = (deployments t1 + deployments t2)%nat.
Proof. unfold deployments. by rewrite List.filter_app, length_app. Qed.

Lemma deployments_sub (cmd : string) (t : list event) :
  deployments (List.map (Sub cmd) t) = deployments t.
Proof.
  unfold deployments. induction t as [| e t IH]; [done |].
  cbn [List.map List.filter is_deploy]. destruct (is_deploy e); cbn [length]; by rewrite IH.
Qed.

Lemma no_deployment_app (t1 : list event) (r : outcome unit) (t2 : list event) :
  no_deployment (Return tt) t1 -> no_deployment r t2 -> no_deployment r (t1 ++ t2).
Proof. unfold no_deployment. intros H1 H2. by rewrite deployments_app, H1, H2. Qed.

Lemma deploy_js_deployments (w : World) (s : state) r s' t :
  deploy_js w s = (r, s', t) -> (deployments t <= 1)%nat.
Proof.
  unfold deploy_js, deploy_main. msimpl.
  destruct (getSigners (hardhat w)) as [[| deployer others] | m]; msimpl;
    try (intros [= <- <- <-]; cbn; lia).
  repeat (destruct_result; msimpl; [| intros [= <- <- <-]; cbn; lia]).
  match goal with
  | |- context [writeFileSync ?p ?d ?st] =>
      destruct (writeFileSync_cases p d st) as [-> | [c ->]]
  end; msimpl; intros [= <- <- <-]; cbn; lia.
Qed.

Lemma monitor_deployments (w : World) (this : CompleteDeployer) (s : state) r s' t :
  monitor w this s = (r, s', t) -> deployments t = 0%nat.
Proof.
  intros H. apply monitor_events in H. unfold deployments.
  induction t as [| e t IH]; [done |]. cbn [forallb] in H.
  apply andb_true_iff in H as [He Ht]. cbn [List.filter].
  destruct e as [| | | | | | | [] ok | | |]; try discriminate He; by apply IH.
Qed.

(** A command other than the deployment submits nothing; the deployment
    submits one transaction at most. *)
Lemma runCommand_deployments (w : World) (this : CompleteDeployer) (cmd : string)
    s r s' t :
  runCommand w this cmd s = (r, s', t) ->
  (deployments t <= 1)%nat /\ (cmd <> deploy_command -> deployments t = 0%nat).
Proof.
  intros H.
  destruct (launch_inv w this cmd s) as (st & tc & s1 & Hl & Hc).
  rewrite (runCommand_unfold _ _ _ _ _ _ _ Hl) in H. injection H as _ _ <-.
  change (Spawn cmd :: ?l) with ([Spawn cmd] ++ l).
  rewrite !deployments_app, deployments_sub.
  change (deployments [Spawn cmd]) with 0%nat.
  change (deployments [Exited cmd st]) with 0%nat.
  destruct Hc as [(-> & _) | [(-> & _ & _ & r1 & s2 & Hd & _) | (-> & _ & _ & _ & _ & Hm)]].
  - cbn. split; [lia | done].
  - apply deploy_js_deployments in Hd. split; [lia | done].
  - apply monitor_deployments in Hm. rewrite Hm. cbn. split; [lia | done].
Qed.

Lemma no_deployment_runCommand (w : World) (this : CompleteDeployer) (cmd : string) :
  cmd <> deploy_command -> holds no_deployment (runCommand w this cmd).
Proof.
  intros Hne s r s' t H. by apply (runCommand_deployments _ _ _ _ _ _ _ H).
Qed.

Ltac no_deployment_prim :=
  first [ exact no_deployment_app
        | apply no_deployment_runCommand; unfold monitor_command, deploy_command;
          discriminate
        | done ].

Lemma deployContract_deployments (w : World) (this : CompleteDeployer) s r s' t :
  deployContract w this s = (r, s', t) -> (deployments t <= 1)%nat.
Proof.
  unfold deployContract. intros H.
  apply bind_inv in H
    as [(a & s1 & t1 & t2 & H1 & H2 & ->) | [(e & H1 & ->) | (c & H1 & ->)]];
    [| injection H1 as _ _ <-; cbn; lia ..].
  injection H1 as _ _ <-.
  apply bind_inv in H2
    as [(a2 & s2 & t2' & t3 & H1 & H2 & ->) | [(e & H1 & ->) | (c & H1 & ->)]].
  - assert (t2' = []) as -> by (destruct (_ && _); by injection H1 as _ _ <-).
    apply bind_inv in H2
      as [(a3 & s3 & t4 & t5 & H3 & H4 & ->) | [(e & H3 & ->) | (c & H3 & ->)]].
    + apply runCommand_deployments in H3 as [_ H3], H4 as [H4 _].
      rewrite !deployments_app, H3; [cbn; lia | discriminate].
    + apply runCommand_deployments in H3 as [_ H3].
      rewrite !deployments_app, H3; [cbn; lia | discriminate].
    + apply runCommand_deployments in H3 as [_ H3].
      rewrite !deployments_app, H3; [cbn; lia | discriminate].
  - assert (t2 = []) as -> by (destruct (_ && _); by injection H1 as _ _ <-).
    cbn; lia.
  - assert (t2 = []) as -> by (destruct (_ && _); by injection H1 as _ _ <-).
    cbn; lia.
Qed.

Lemma steps_deployments (w : World) (this : CompleteDeployer) s r s' t :
  steps w this s = (r, s', t) -> (deployments t <= 1)%nat.
Proof.
  intros Hs.
  assert (H1 : holds no_deployment (createProjectStructure this))
    by (apply holds_createProjectStructure; no_deployment_prim).
  assert (H2 : holds no_deployment (installDependencies w this))
    by (apply holds_installDependencies; no_deployment_prim).
  assert (H3 : holds no_deployment (createConfigFiles this))
    by (apply holds_createConfigFiles; no_deployment_prim).
  assert (H5 : holds no_deployment (startMonitoring w this))
    by (apply holds_startMonitoring; no_deployment_prim).
  unfold holds, no_deployment in *.
  apply steps_inv in Hs as (r1 & s1 & t1 & E1 & Hs).
  specialize (H1 _ _ _ _ E1).
  destruct r1 as [[] | |]; [| destruct Hs as (_ & _ & ->); lia ..].
  destruct Hs as (r2 & s2 & t2 & E2 & Hs). specialize (H2 _ _ _ _ E2).
  destruct r2 as [[] | |];
    [| destruct Hs as (_ & _ & ->); rewrite !deployments_app; lia ..].
  destruct Hs as (r3 & s3 & t3 & E3 & Hs). specialize (H3 _ _ _ _ E3).
  destruct r3 as [[] | |];
    [| destruct Hs as (_ & _ & ->); rewrite !deployments_app; lia ..].
  destruct Hs as (r4 & s4 & t4 & E4 & Hs).
  apply deployContract_deployments in E4.
  destruct r4 as [[] | |];
    [| destruct Hs as (_ & _ & ->); rewrite !deployments_app; lia ..].
  destruct Hs as (r5 & s5 & t5 & E5 & Hs). specialize (H5 _ _ _ _ E5).
  destruct r5 as [[] | |]; destruct Hs as (_ & _ & ->); rewrite !deployments_app;
    cbn [deployments List.filter is_deploy length]; lia.
Qed.

(** ** The commands, in order *)

Lemma spawned_app (t1 t2 : list event) : spawned (t1 ++ t2) = spawned t1 ++ spawned t2.
Proof. apply omap_app. Qed.

Lemma exited_app (t1 t2 : list event) : exited (t1 ++ t2) = exited t1 ++ exited t2.
Proof. apply omap_app. Qed.

Lemma spawned_sub (cmd : string) (t : list event) : spawned (List.map (Sub cmd) t) = [].
Proof. induction t as [| e t IH]; [done | exact IH]. Qed.

Lemma exited_sub (cmd : string) (t : list event) : exited (List.map (Sub cmd) t) = [].
Proof. induction t as [| e t IH]; [done | exact IH]. Qed.

Lemma in_order_spawned (cs : list string) (t : list event) :
  in_order cs (Return tt) t -> spawned t = cs.
Proof.
  intros [H1 H2]. rewrite <- H1, H2, List.map_map. cbn [fst]. apply List.map_id.
Qed.

Lemma in_order_bind {A B} (cs1 cs2 : list string) (m : M A) (k : A -> M B) :
  holds (in_order cs1) m -> (forall a, holds (in_order cs2) (k a)) ->
  holds (in_order (cs1 ++ cs2)) (m ≫= k).
Proof.
  intros Hm Hk s r s' t H.
  apply bind_inv in H
    as [(a & s1 & t1 & t2 & H1 & H2 & ->) | [(e & H1 & ->) | (c & H1 & ->)]].
  - pose proof (Hm _ _ _ _ H1) as Hq1. pose proof (Hk a _ _ _ _ H2) as [Hq2 Hr2].
    pose proof (in_order_spawned _ _ Hq1) as Hs1. destruct Hq1 as [He1 Hr1].
    cbn [erase] in Hr1. split.
    + by rewrite exited_app, spawned_app, List.map_app, He1, Hq2.
    + destruct (erase r).
      * by rewrite exited_app, Hr1, Hr2, List.map_app.
      * rewrite spawned_app, Hs1. by apply prefix_app.
      * rewrite spawned_app, Hs1. by apply prefix_app.
  - destruct (Hm _ _ _ _ H1) as [He1 Hr1]. split; [exact He1 |].
    cbn [erase] in *. by apply prefix_app_r.
  - destruct (Hm _ _ _ _ H1) as [He1 Hr1]. split; [exact He1 |].
    cbn [erase] in *. by apply prefix_app_r.
Qed.

Lemma in_order_app (t1 : list event) (r : outcome unit) (t2 : list event) :
  in_order [] (Return tt) t1 -> in_order [] r t2 -> in_order [] r (t1 ++ t2).
Proof.
  intros H1 [He2 Hr2]. pose proof (in_order_spawned _ _ H1) as Hs1.
  destruct H1 as [He1 Hr1]. cbn in Hr1. split.
  - by rewrite exited_app, spawned_app, List.map_app, He1, He2.
  - destruct r; rewrite ?exited_app, ?spawned_app, ?Hr1, ?Hs1; exact Hr2.
Qed.

Lemma in_order_runCommand (w : World) (this : CompleteDeployer) (cmd : string) :
  holds (in_order [cmd]) (runCommand w this cmd).
Proof.
  intros s r s' t H.
  destruct (launch_inv w this cmd s) as (st & tc & s1 & Hl & _).
  rewrite (runCommand_unfold _ _ _ _ _ _ _ Hl) in H.
  assert (Hs : spawned (Spawn cmd :: List.map (Sub cmd) tc ++ [Exited cmd st]) = [cmd]).
  { change (Spawn cmd :: ?l) with ([Spawn cmd] ++ l).
    by rewrite !spawned_app, spawned_sub. }
  assert (He : exited (Spawn cmd :: List.map (Sub cmd) tc ++ [Exited cmd st]) = [(cmd, st)]).
  { change (Spawn cmd :: ?l) with ([Spawn cmd] ++ l).
    by rewrite !exited_app, exited_sub. }
  destruct (st =? 0) eqn:Est; injection H as <- <- <-; (split; [by rewrite Hs, He |]);
    cbn [erase].
  - apply Z.eqb_eq in Est. by rewrite He, Est.
  - by rewrite Hs.
Qed.

Lemma in_order_quiet {A} (m : M A) :
  (forall s r s' t, m s = (r, s', t) -> spawned t = [] /\ exited t = []) ->
  holds (in_order []) m.
Proof.
  intros Hm s r s' t H. destruct (Hm _ _ _ _ H) as [Hs He]. split.
  - by rewrite Hs, He.
  - destruct (erase r); rewrite ?Hs, ?He; done.
Qed.

Lemma in_order_console_log (x : string) : holds (in_order []) (console_log x).
Proof. apply in_order_quiet. by intros s r s' t [= <- <- <-]. Qed.

Lemma in_order_writeFileSync (p d : string) : holds (in_order []) (writeFileSync p d).
Proof.
  apply in_order_quiet. intros s r s' t H.
  destruct (writeFileSync_cases p d s) as [E | [c E]]; rewrite E in H;
    by injection H as <- <- <-.
Qed.

Lemma in_order_steps (w : World) (this : CompleteDeployer) :
  holds (in_order commands) (steps w this).
Proof.
  unfold steps.
  apply (in_order_bind [] commands).
  { apply holds_createProjectStructure; try exact in_order_app; by repeat split. }
  intros _. apply (in_order_bind ["npm install"] [_; _; _]).
  { unfold installDependencies.
    apply (in_order_bind [] [_]); [apply in_order_console_log | intros _].
    apply (in_order_bind [] [_]); [apply in_order_writeFileSync | intros _].
    apply in_order_runCommand. }
  intros _. apply (in_order_bind [] [_; _; _]).
  { apply holds_createConfigFiles; try exact in_order_app; by repeat split. }
  intros _. apply (in_order_bind [_; _] [_]).
  { unfold deployContract.
    apply (in_order_bind [] [_; _]); [apply in_order_console_log | intros _].
    apply (in_order_bind [] [_; _]).
    { apply in_order_quiet. intros s r s' t H.
      by destruct (_ && _); injection H as <- <- <-. }
    intros _. apply (in_order_bind [_] [_]); [| intros _]; apply in_order_runCommand. }
  intros _. apply (in_order_bind [_] []).
  { unfold startMonitoring.
    apply (in_order_bind [] [_]); [apply in_order_console_log | intros _].
    apply (in_order_bind [] [_]); [apply in_order_writeFileSync | intros _].
    apply in_order_runCommand. }
  intros _. apply in_order_console_log.
Qed.

Lemma startMonitoring_exit (w : World) (this : CompleteDeployer) s r s' t :
  startMonitoring w this s = (r, s', t) ->
  In (Exited monitor_command 0) t -> r = Return tt.
Proof.
  unfold startMonitoring. msimpl.
  destruct (writeFileSync_cases "monitor.js" (monitorScript this) s) as [-> | [c ->]];
    msimpl.
  2: { intros [= <- <- <-] H. cbn [In] in H.
       repeat (destruct H as [H | H]; [discriminate H |]). done. }
  match goal with
  | |- context [runCommand w this ?c ?st] =>
      destruct (launch_inv w this c st) as (st' & tc & s1 & Hl & _);
      rewrite (runCommand_unfold _ _ _ _ _ _ _ Hl)
  end.
  destruct (st' =? 0) eqn:Est; intros [= <- <- <-] H; [done |]. exfalso.
  cbn [In] in H. repeat (destruct H as [H | H]; [discriminate H |]).
  apply in_app_iff in H as [H | [H | []]].
  - apply in_map_iff in H as (e' & He' & _). discriminate He'.
  - injection H as ->. discriminate Est.
Qed.

Lemma exited_In (t : list event) (cmd : string) (st : Z) :
  In (cmd, st) (exited t) -> In (Exited cmd st) t.
Proof.
  intros H. apply list_elem_of_In, list_elem_of_omap in H as (e & He & Heq).
  apply list_elem_of_In in He. destruct e; try discriminate Heq.
  by injection Heq as -> ->.
Qed.

(** Where an event of the five steps comes from: the step that produced
    it, with the steps before it when it is one of the last two. *)
Lemma steps_In (w : World) (this : CompleteDeployer) s r s' t (x : event) :
  steps w this s = (r, s', t) ->
  In x t ->
  (exists s0 r0 s1 t0, createProjectStructure this s0 = (r0, s1, t0) /\ In x t0) \/
  (exists s0 r0 s1 t0, installDependencies w this s0 = (r0, s1, t0) /\ In x t0) \/
  (exists s0 r0 s1 t0, createConfigFiles this s0 = (r0, s1, t0) /\ In x t0) \/
  (exists s1 t1 s2 t2 s3 t3 r4 s4 t4,
      createProjectStructure this s = (Return tt, s1, t1) /\
      installDependencies w this s1 = (Return tt, s2, t2) /\
      createConfigFiles this s2 = (Return tt, s3, t3) /\
      deployContract w this s3 = (r4, s4, t4) /\ In x t4 /\
      (forall y, In y t4 -> In y t)) \/
  (exists s1 t1 s2 t2 s3 t3 s4 t4 r5 s5 t5,
      createProjectStructure this s = (Return tt, s1, t1) /\
      installDependencies w this s1 = (Return tt, s2, t2) /\
      createConfigFiles this s2 = (Return tt, s3, t3) /\
      deployContract w this s3 = (Return tt, s4, t4) /\
      startMonitoring w this s4 = (r5, s5, t5) /\ In x t5 /\
      (r5 = Return tt -> r = Return tt) /\
      (forall y, In y t4 \/ In y t5 -> In y t)) \/
  (x = Stdout complete /\ r = Return tt).
Proof.
  intros Hs Hin. apply steps_inv in Hs as (r1 & s1 & t1 & E1 & Hs).
  destruct r1 as [[] | |]; [| destruct Hs as (_ & _ & ->); left; by eexists _, _, _, _ ..].
  destruct Hs as (r2 & s2 & t2 & E2 & Hs).
  destruct r2 as [[] | |].
  2, 3: destruct Hs as (_ & _ & ->); apply in_app_iff in Hin as [Hin | Hin];
    [left | right; left]; by eexists _, _, _, _.
  destruct Hs as (r3 & s3 & t3 & E3 & Hs).
  match goal with
  | |- ?G => assert (Hpre : In x t1 \/ In x t2 \/ In x t3 -> G)
  end.
  { intros [H | [H | H]]; [left | right; left | right; right; left];
      by eexists _, _, _, _. }
  destruct r3 as [[] | |].
  2, 3: destruct Hs as (_ & _ & ->); rewrite !in_app_iff in Hin; apply Hpre; tauto.
  destruct Hs as (r4 & s4 & t4 & E4 & Hs).
  destruct r4 as [[] | |].
  2, 3: destruct Hs as (_ & _ & ->); rewrite !in_app_iff in Hin;
    destruct Hin as [H | [H | [H | H]]]; [apply Hpre; tauto .. |];
    right; right; right; left; eexists _, _, _, _, _, _, _, _, _;
    repeat (split; [eassumption |]);
    intros y Hy; rewrite !in_app_iff; tauto.
  destruct Hs as (r5 & s5 & t5 & E5 & Hs).
  match goal with
  | |- ?G =>
      assert (Hend : forall l, t = t1 ++ t2 ++ t3 ++ t4 ++ t5 ++ l ->
                (r5 = Return tt -> r = Return tt) ->
                (In x l -> x = Stdout complete /\ r = Return tt) -> G)
  end.
  { intros l Ht Hr Hl. rewrite Ht in Hin. rewrite !in_app_iff in Hin.
    destruct Hin as [H | [H | [H | [H | [H | H]]]]]; [apply Hpre; tauto .. | | |].
    - right; right; right; left. eexists _, _, _, _, _, _, _, _, _.
      repeat (split; [eassumption |]).
      intros y Hy. rewrite Ht, !in_app_iff. tauto.
    - right; right; right; right; left. eexists _, _, _, _, _, _, _, _, _, _, _.
      repeat (split; [eassumption |]).
      intros y Hy. rewrite Ht, !in_app_iff. tauto.
    - do 5 right. by apply Hl. }
  destruct r5 as [[] | |]; destruct Hs as (Hr & _ & Ht).
  - apply (Hend [Stdout complete]); [done | done |]. by intros [<- | []].
  - apply (Hend []); [by rewrite app_nil_r | discriminate | intros []].
  - apply (Hend []); [by rewrite app_nil_r | discriminate | intros []].
Qed.

Lemma no_exit_app (cmd : string) (t1 : list event) (r : outcome unit) (t2 : list event) :
  no_exit cmd (Return tt) t1 -> no_exit cmd r t2 -> no_exit cmd r (t1 ++ t2).
Proof.
  intros H1 H2 st H. apply in_app_iff in H as [H | H]; [by eapply H1 | by eapply H2].
Qed.

Lemma no_exit_runCommand (w : World) (this : CompleteDeployer) (cmd' cmd : string) :
  cmd <> cmd' -> holds (no_exit cmd') (runCommand w this cmd).
Proof.
  intros Hne s r s' t H st Hin.
  destruct (launch_inv w this cmd s) as (st' & tc & s1 & Hl & _).
  rewrite (runCommand_unfold _ _ _ _ _ _ _ Hl) in H. injection H as _ _ <-.
  destruct Hin as [Hin | Hin]; [discriminate Hin |].
  apply in_app_iff in Hin as [Hin | [Hin | []]].
  - apply in_map_iff in Hin as (e' & He' & _). discriminate He'.
  - by injection Hin as -> _.
Qed.

Ltac no_exit_prim :=
  first [ apply no_exit_app
        | apply no_exit_runCommand; unfold monitor_command, deploy_command;
          discriminate
        | intros;
          let st := fresh "st" in
          let Hev := fresh "Hev" in
          intros st Hev; cbn [In] in Hev;
          repeat (destruct Hev as [Hev | Hev]; [discriminate Hev |]); done ].


(** ** What a run leaves alone *)

Lemma within_refl (root : list string) (s : state) : within root s s.
Proof. by intros q _. Qed.

Lemma within_trans (root : list string) (s1 s2 s3 : state) :
  within root s1 s2 -> within root s2 s3 -> within root s1 s3.
Proof. intros H1 H2 q Hq. by rewrite (H2 q Hq), (H1 q Hq). Qed.

Lemma within_prefix (root root' : list string) (s s' : state) :
  root `prefix_of` root' -> within root' s s' -> within root s s'.
Proof.
  intros Hp H q Hq. apply H. intros Hq'. apply Hq. by etrans.
Qed.

Lemma stays_refl (s : state) : stays s s.
Proof. split; [done | apply within_refl]. Qed.

Lemma stays_trans (s1 s2 s3 : state) : stays s1 s2 -> stays s2 s3 -> stays s1 s3.
Proof.
  intros [C1 W1] [C2 W2]. split; [by rewrite C2 |].
  eapply within_trans; [exact W1 |]. by rewrite <- C1.
Qed.

Lemma confined_ret {A} (a : A) : confined (mret a).
Proof. intros s r s' t [= <- <- <-]. apply stays_refl. Qed.

Lemma confined_bind {A B} (m : M A) (k : A -> M B) :
  confined m -> (forall a, confined (k a)) -> confined (m ≫= k).
Proof.
  intros Hm Hk s r s' t H.
  apply bind_inv in H
    as [(a & s1 & t1 & t2 & H1 & H2 & ->) | [(e & H1 & ->) | (c & H1 & ->)]].
  - eapply stays_trans; [exact (Hm _ _ _ _ H1) | exact (Hk a _ _ _ _ H2)].
  - exact (Hm _ _ _ _ H1).
  - exact (Hm _ _ _ _ H1).
Qed.

Lemma confined_try_catch {A} (body : M A) (handler : exn -> M A) :
  confined body -> (forall e, confined (handler e)) -> confined (try_catch body handler).
Proof.
  intros Hb Hh s r s' t. unfold try_catch.
  destruct (body s) as [[[a | e | c] s1] t1] eqn:E.
  - intros [= <- <- <-]. exact (Hb _ _ _ _ E).
  - destruct (handler e s1) as [[r2 s2] t2] eqn:E2. intros [= <- <- <-].
    eapply stays_trans; [exact (Hb _ _ _ _ E) | exact (Hh e _ _ _ _ E2)].
  - intros [= <- <- <-]. exact (Hb _ _ _ _ E).
Qed.

Lemma confined_forEach {A} (l : list A) (f : A -> M unit) :
  (forall x, confined (f x)) -> confined (forEach l f).
Proof.
  intros Hf. induction l as [| x l IH]; cbn [forEach].
  - apply confined_ret.
  - apply confined_bind; [apply Hf | intros _; exact IH].
Qed.

(** A computation that leaves the state as it is. *)
Lemma confined_still {A} (m : M A) :
  (forall s r s' t, m s = (r, s', t) -> s' = s) -> confined m.
Proof. intros Hm s r s' t H. rewrite (Hm _ _ _ _ H). apply stays_refl. Qed.

Lemma confined_emit (e : event) : confined (emit e).
Proof. apply confined_still. by intros s r s' t [= <- <- <-]. Qed.

Lemma confined_console_log (x : string) : confined (console_log x).
Proof. apply confined_emit. Qed.

Lemma confined_console_error (x : string) : confined (console_error x).
Proof. apply confined_emit. Qed.

Lemma confined_throw {A} (e : exn) : confined (@throw A e).
Proof. apply confined_still. by intros s r s' t [= <- <- <-]. Qed.

Lemma confined_process_exit {A} (c : Z) : confined (@process_exit A c).
Proof. apply confined_still. by intros s r s' t [= <- <- <-]. Qed.

Lemma confined_call {A} (c : sdk_call) (x : result exn A) : confined (call c x).
Proof.
  apply confined_still. intros s r s' t. rewrite call_unfold.
  by destruct x; intros [= <- <- <-].
Qed.

Lemma confined_existsSync (p : string) : confined (existsSync p).
Proof. apply confined_still. by intros s r s' t [= <- <- <-]. Qed.

Lemma confined_on_disk (p expected : string) : confined (on_disk p expected).
Proof. apply confined_still. by intros s r s' t [= <- <- <-]. Qed.

Lemma confined_require_text (p : string) : confined (require_text p).
Proof.
  apply confined_still. intros s r s' t. unfold require_text.
  by destruct (stat _ _) as [[] |]; intros [= <- <- <-].
Qed.

(** A path resolved against the working directory lies below it. *)
Lemma stays_insert (s : state) (p : string) (n : node) :
  stays s {| files := <[resolve s p := n]> (files s); cwd := cwd s |}.
Proof.
  split; [done |]. intros q Hq. cbn [files].
  apply lookup_insert_ne. intros <-. apply Hq. by apply prefix_app_r.
Qed.

Lemma confined_mkdirSync (p : string) : confined (mkdirSync p).
Proof.
  intros s r s' t H.
  destruct (mkdirSync_cases p s) as [E | [c E]]; rewrite E in H; injection H as <- <- <-;
    [apply stays_insert | apply stays_refl].
Qed.

Lemma confined_writeFileSync (p d : string) : confined (writeFileSync p d).
Proof.
  intros s r s' t H.
  destruct (writeFileSync_cases p d s) as [E | [c E]]; rewrite E in H;
    injection H as <- <- <-; [apply stays_insert | apply stays_refl].
Qed.

Lemma confined_mkdir_if_missing (dir : string) : confined (mkdir_if_missing dir).
Proof.
  apply confined_bind; [apply confined_existsSync | intros present].
  destruct (negb present); [apply confined_mkdirSync | apply confined_ret].
Qed.

(** A child keeps to the working directory it inherits when its script
    does; the working directory of the parent is not the child's to
    change. *)
Lemma confined_child (cmd : string) (body : M unit) :
  confined body -> confined (child cmd body).
Proof.
  intros Hb s r s' t. unfold child.
  destruct (body s) as [[r1 s1] t1] eqn:E. intros [= <- <- <-].
  destruct (Hb _ _ _ _ E) as [_ Hw]. by split.
Qed.

Ltac confined_step :=
  first [ apply confined_console_log | apply confined_console_error
        | apply confined_call | apply confined_writeFileSync | apply confined_throw
        | apply confined_process_exit | apply confined_ret | apply confined_emit
        | apply confined_require_text | apply confined_on_disk ].

Ltac confined_seq :=
  repeat first [ confined_step
               | apply confined_bind; [| intros ?]
               | apply confined_try_catch; [| intros ?]
               | match goal with
                 | |- confined (match ?x with _ => _ end) => destruct x
                 | |- confined (if ?b then _ else _) => destruct b
                 end ].

Lemma confined_deploy_js (w : World) : confined (deploy_js w).
Proof. unfold deploy_js, deploy_main. confined_seq. Qed.

Lemma confined_monitor (w : World) (this : CompleteDeployer) : confined (monitor w this).
Proof. unfold monitor. confined_seq. Qed.

Lemma confined_launch (w : World) (this : CompleteDeployer) (cmd : string) :
  confined (launch w this cmd).
Proof.
  unfold launch. confined_seq.
  - apply confined_child, confined_deploy_js.
  - apply confined_child, confined_monitor.
Qed.

Lemma confined_runCommand (w : World) (this : CompleteDeployer) (cmd : string) :
  confined (runCommand w this cmd).
Proof.
  unfold runCommand, execSync. confined_seq. apply confined_launch.
Qed.

(** Steps 2 to 5 and the last line. *)
Lemma confined_rest (w : World) (this : CompleteDeployer) :
  confined (installDependencies w this ;;
            createConfigFiles this ;;
            deployContract w this ;;
            startMonitoring w this ;;
            console_log complete).
Proof.
  unfold installDependencies, createConfigFiles, deployContract, startMonitoring.
  repeat first [ confined_step | apply confined_runCommand
               | apply confined_bind; [| intros ?]
               | match goal with
                 | |- confined (if ?b then _ else _) => destruct b
                 end ].
Qed.

(** Step 1 touches the project path and what lies below it; when it
    returns, the working directory is the project directory. *)
Lemma createProjectStructure_within (this : CompleteDeployer) s r s' t :
  projectName this = "air-token-project" ->
  createProjectStructure this s = (r, s', t) ->
  within (cwd s ++ ["air-token-project"]) s s' /\
  (r = Return tt -> cwd s' = cwd s ++ ["air-token-project"]).
Proof.
  intros Hname. unfold createProjectStructure. rewrite Hname. intros H.
  apply bind_inv in H
    as [(a & s1 & t1 & t2 & H1 & H & ->) | [(e & H1 & ->) | (c & H1 & ->)]];
    [| discriminate H1 ..].
  injection H1 as <- <- <-.
  assert (Hres : forall x, resolve x "air-token-project" = cwd x ++ ["air-token-project"])
    by reflexivity.
  assert (Hins : forall n,
            stays s {| files := <[resolve s "air-token-project" := n]> (files s);
                       cwd := cwd s |} ->
            within (cwd s ++ ["air-token-project"]) s
              {| files := <[resolve s "air-token-project" := n]> (files s); cwd := cwd s |}).
  { intros n _ q Hq. cbn [files]. apply lookup_insert_ne. by intros <-. }
  apply bind_inv in H
    as [(a & s1 & t1 & t2' & H1 & H & ->) | [(e & H1 & ->) | (c & H1 & ->)]].
  2, 3: split; [| discriminate];
    pose proof (confined_mkdir_if_missing _ _ _ _ _ H1) as [_ Hw];
    revert H1; unfold mkdir_if_missing, existsSync; msimpl;
    destruct (stat _ _); cbn [negb]; [discriminate |];
    destruct (mkdirSync_cases "air-token-project" s) as [E | [c' E]]; rewrite E;
    intros H'; inversion H'; subst; apply within_refl.
  assert (Hs1 : within (cwd s ++ ["air-token-project"]) s s1 /\ cwd s1 = cwd s).
  { revert H1. unfold mkdir_if_missing, existsSync. msimpl.
    destruct (stat _ _); cbn [negb];
      [intros H'; inversion H'; subst; split; [apply within_refl | done] |].
    destruct (mkdirSync_cases "air-token-project" s) as [E | [c' E]]; rewrite E;
      intros H'; inversion H'; subst. split; [by apply Hins, stays_insert | done]. }
  destruct Hs1 as [Hw1 Hc1].
  apply bind_inv in H
    as [(a2 & s2 & t3 & t4 & H2 & H & ->) | [(e & H2 & ->) | (c & H2 & ->)]].
  2, 3: split; [| discriminate];
    destruct (chdir_cases "air-token-project" s1) as [E | [c' E]]; rewrite E in H2;
    inversion H2; subst; exact Hw1.
  destruct (chdir_cases "air-token-project" s1) as [E | [c' E]]; rewrite E in H2;
    [| discriminate H2].
  inversion H2; subst. clear H2.
  pose proof (confined_forEach _ _ (fun dir => confined_mkdir_if_missing dir) _ _ _ _ H)
    as [Hc Hw].
  cbn [cwd files] in Hc, Hw. rewrite Hres, Hc1 in Hc, Hw. split; [| by intros _].
  intros q Hq. rewrite (Hw q Hq). cbn [files]. by apply Hw1.
Qed.

(** The five steps touch nothing outside the project directory. *)
Lemma steps_within (w : World) (this : CompleteDeployer) s r s' t :
  projectName this = "air-token-project" ->
  steps w this s = (r, s', t) ->
  within (cwd s ++ ["air-token-project"]) s s'.
Proof.
  intros Hname H. unfold steps in H.
  apply bind_inv in H
    as [(a & s1 & t1 & t2 & H1 & H & ->) | [(e & H1 & ->) | (c & H1 & ->)]].
  - destruct a. apply (createProjectStructure_within _ _ _ _ _ Hname) in H1 as [Hw Hc].
    specialize (Hc eq_refl). apply confined_rest in H as [_ Hw2].
    rewrite Hc in Hw2. by eapply within_trans.
  - by apply (createProjectStructure_within _ _ _ _ _ Hname) in H1 as [Hw _].
  - by apply (createProjectStructure_within _ _ _ _ _ Hname) in H1 as [Hw _].
Qed.

(** Quick mode leaves the state as it is. *)
Lemma quickDeploy_state (w : World) s r s' t : quickDeploy w s = (r, s', t) -> s' = s.
Proof.
  unfold quickDeploy. destruct (String.eqb _ _); msimpl; [by intros [= <- <- <-] |].
  repeat (destruct_result; msimpl); by intros [= <- <- <-].
Qed.

(** X6: whatever the mode and however the run ends, the script and the
    two scripts it generates leave the disk outside the project directory
    as it was: every path that is not [air-token-project] or below it
    holds what it held (or nothing, as before).  In scaffold-and-deploy
    mode this is said for an RPC URL that stands for itself in the
    generated scripts (no double quote, no backslash, no control
    character): with another URL the texts written to [hardhat.config.js]
    and [monitor.js] are other programs. *)
Theorem nothing_outside_the_project_directory (w : World) (q : list string) :
  (quick w = false -> plain_url (rpcUrl (constructor w)) = true) ->
  ~ ["air-token-project"] `prefix_of` q ->
  files (final w) !! q = disk w !! q.
Proof.
  intros _ Hq. unfold final, process.
  destruct (main w (start w)) as [[r s] t] eqn:Hm.
  assert (Hw : within ["air-token-project"] (start w) s).
  { unfold main in Hm. destruct (includes _ _).
    - apply quickDeploy_state in Hm as ->. apply within_refl.
    - unfold run in Hm.
      apply bind_inv in Hm
        as [(a & s1 & t1 & t2 & H1 & H & ->) | [(e & H1 & ->) | (c & H1 & ->)]];
        [| discriminate H1 ..].
      injection H1 as <- <- <-. revert H. unfold try_catch.
      destruct (steps w (constructor w) (start w)) as [[r1 s1] t1] eqn:Hs.
      apply steps_within in Hs; [| reflexivity].
      by destruct r1; intros [= <- <- <-]. }
  destruct r; cbn [fst snd]; by apply Hw.
Qed.

Lemma nothing_outside_the_project_directory_witness :
  files (final fresh_run) !! ["README.md"] = disk fresh_run !! ["README.md"].
Proof.
  apply (nothing_outside_the_project_directory fresh_run ["README.md"]).
  - reflexivity.
  - intros [k Hk]. discriminate Hk.
Defined.
(** ** With a credential *)

Lemma mishap_app (t1 : list event) (r : outcome unit) (t2 : list event) :
  mishap (Return tt) t1 -> mishap r t2 -> mishap r (t1 ++ t2).
Proof.
  intros [A1 _] [A2 B2]. split.
  - intros x H. apply in_app_iff in H as [H | H]; [by eapply A1 | by eapply A2].
  - destruct r as [| e |]; [done | | done].
    destruct B2 as (Hm & ev & Hin & Hev). split; [exact Hm |].
    exists ev. split; [| exact Hev]. apply in_app_iff. by right.
Qed.

Lemma mishap_nil : mishap (Return tt) [].
Proof. split; [by intros x [] | done]. Qed.

Lemma mishap_runCommand (w : World) (this : CompleteDeployer) (cmd : string) :
  holds mishap (runCommand w this cmd).
Proof.
  intros s r s' t H.
  destruct (launch_inv w this cmd s) as (st & tc & s1 & Hl & _).
  rewrite (runCommand_unfold _ _ _ _ _ _ _ Hl) in H. injection H as <- _ <-.
  split.
  - intros x [H | H]; [discriminate H |].
    apply in_app_iff in H as [H | [H | []]]; [| discriminate H].
    apply in_map_iff in H as (e' & He' & _). discriminate He'.
  - destruct (st =? 0) eqn:Est; cbn [erase]; [done |]. split.
    + cbn [message]. rewrite append_cons. discriminate.
    + exists (Exited cmd st). split.
      * right. apply in_app_iff. right. by left.
      * unfold hard. cbn. by rewrite Est.
Qed.

Lemma mishap_fs_error (c : errno) (syscall p : string) :
  mishap (Throw (SystemError c syscall p)) [FsError syscall p c].
Proof.
  split; [intros x [H | []]; discriminate H |]. split.
  - destruct c; discriminate.
  - exists (FsError syscall p c). split; [by left | done].
Qed.

Ltac mishap_prim :=
  first [ exact mishap_app | exact mishap_nil | exact mishap_fs_error
        | apply mishap_runCommand
        | intros; split; [| done];
          let H := fresh "H" in
          intros ? H; cbn [In] in H;
          repeat (destruct H as [H | H]; [discriminate H |]); done ].

(** Step 4 with PRIVATE_KEY set: the check passes. *)
Lemma deployContract_with_key (w : World) :
  truthy (env w !! "PRIVATE_KEY") = true ->
  deployContract w (constructor w) =
    (console_log "📤 Deploying AIR token..." ;;
     mret tt ;;
     runCommand w (constructor w) "npx hardhat compile" ;;
     runCommand w (constructor w) "npx hardhat run scripts/deploy.js --network baseSepolia").
Proof. intros H. unfold deployContract. by rewrite H. Qed.

Lemma mishap_steps (w : World) :
  truthy (env w !! "PRIVATE_KEY") = true ->
  holds mishap (steps w (constructor w)).
Proof.
  intros Hk. unfold steps.
  apply (holds_bind mishap mishap_app);
    [apply holds_createProjectStructure; mishap_prim | intros _].
  apply (holds_bind mishap mishap_app);
    [apply (holds_installDependencies mishap) with (this := constructor w); mishap_prim
    | intros _].
  apply (holds_bind mishap mishap_app);
    [apply (holds_createConfigFiles mishap) with (this := constructor w); mishap_prim
    | intros _].
  apply (holds_bind mishap mishap_app); [| intros _].
  { rewrite (deployContract_with_key w Hk).
    apply (holds_bind mishap mishap_app); [| intros _].
    { intros s r s' t [= <- <- <-]. mishap_prim. }
    apply (holds_bind mishap mishap_app); [apply holds_ret; mishap_prim | intros _].
    apply (holds_bind mishap mishap_app); [| intros _]; apply mishap_runCommand. }
  apply (holds_bind mishap mishap_app);
    [apply (holds_startMonitoring mishap) with (this := constructor w); mishap_prim
    | intros _].
  intros s r s' t [= <- <- <-]. mishap_prim.
Qed.



(** The placeholder as the value of PRIVATE_KEY: the scaffold-and-deploy
    mode goes through with it, quick mode refuses it. *)
Example placeholder_in_the_environment :
  exit_code placeholder_key = 0 /\
  In (Spawn "npx hardhat compile") (trace placeholder_key) /\
  exit_code (sample_world ["--quick"] (Some "YOUR_PRIVATE_KEY_HERE") ∅ all_ok
               sample_sdk sample_sdk) = 1.
Proof. vm_compute. tauto. Qed.
(** ** The disk, step by step *)

(** The loop over the sub-directories touches their paths only. *)
Lemma mkdir_each_frame (dirs : list string) (s : state) r s' t (q : list string) :
  forEach dirs (fun dir => mkdir_if_missing dir) s = (r, s', t) ->
  (forall d, In d dirs -> q <> cwd s ++ components d) ->
  files s' !! q = files s !! q.
Proof.
  revert s t. induction dirs as [| d dirs IH]; intros s t H Hq; cbn [forEach] in H.
  { by injection H as _ <- _. }
  assert (Hone : forall r1 s1 t1, mkdir_if_missing d s = (r1, s1, t1) ->
            cwd s1 = cwd s /\ files s1 !! q = files s !! q).
  { intros r1 s1 t1. unfold mkdir_if_missing, existsSync. msimpl.
    destruct (stat _ _); cbn [negb]; [by intros [= <- <- <-] |].
    destruct (mkdirSync_cases d s) as [E | [c E]]; rewrite E; intros [= <- <- <-];
      [| done].
    split; [done |]. cbn [files]. apply lookup_insert_ne. intros <-.
    by apply (Hq d (or_introl eq_refl)). }
  apply bind_inv in H
    as [(a & s1 & t1 & t2 & H1 & H & ->) | [(e & H1 & ->) | (c & H1 & ->)]].
  - destruct (Hone _ _ _ H1) as [Hc <-]. apply (IH _ _ H).
    intros d' Hd'. rewrite Hc. apply Hq. by right.
  - by destruct (Hone _ _ _ H1).
  - by destruct (Hone _ _ _ H1).
Qed.

(** Step 1 from the launch directory touches the five directories only. *)
Lemma createProjectStructure_frame (this : CompleteDeployer) (s : state) r s' t
    (q : list string) :
  projectName this = "air-token-project" ->
  cwd s = [] ->
  createProjectStructure this s = (r, s', t) ->
  ~ In q project_directories ->
  files s' !! q = files s !! q.
Proof.
  intros Hname Hcwd H Hq. unfold createProjectStructure in H. rewrite Hname in H.
  assert (Hres : forall x, cwd x = [] -> resolve x "air-token-project" = ["air-token-project"]).
  { intros x Hx. unfold resolve. by rewrite Hx. }
  assert (Hq0 : q <> ["air-token-project"]).
  { intros ->. apply Hq. by left. }
  apply bind_inv in H
    as [(a & s1 & t1 & t2 & H1 & H & ->) | [(e & H1 & ->) | (c & H1 & ->)]];
    [| discriminate H1 ..].
  injection H1 as <- <- <-.
  assert (Hone : forall r1 s1 t1,
            mkdir_if_missing "air-token-project" s = (r1, s1, t1) ->
            cwd s1 = [] /\ files s1 !! q = files s !! q).
  { intros r1 s1 t1. unfold mkdir_if_missing, existsSync. msimpl.
    destruct (stat _ _); cbn [negb]; [by intros [= <- <- <-] |].
    destruct (mkdirSync_cases "air-token-project" s) as [E | [c E]]; rewrite E;
      intros [= <- <- <-]; [| done].
    split; [done |]. cbn [files]. rewrite (Hres s Hcwd). by apply lookup_insert_ne. }
  apply bind_inv in H
    as [(a & s1 & t1 & t2' & H1 & H & ->) | [(e & H1 & ->) | (c & H1 & ->)]];
    [| by destruct (Hone _ _ _ H1) ..].
  destruct (Hone _ _ _ H1) as [Hc1 <-].
  apply bind_inv in H
    as [(a2 & s2 & t3 & t4 & H2 & H & ->) | [(e & H2 & ->) | (c & H2 & ->)]].
  2, 3: destruct (chdir_cases "air-token-project" s1) as [E | [c' E]]; rewrite E in H2;
    by inversion H2.
  destruct (chdir_cases "air-token-project" s1) as [E | [c' E]]; rewrite E in H2;
    [| discriminate H2].
  inversion H2; subst. clear H2.
  rewrite (mkdir_each_frame _ _ _ _ _ q H); [done |].
  cbn [cwd]. rewrite (Hres s1 Hc1). intros d Hd Heq. apply Hq. subst q.
  cbn [In] in Hd. unfold project_directories.
  repeat (destruct Hd as [<- | Hd]; [cbn; tauto |]). done.
Qed.

(** The disk after steps 1 to 3 from the launch directory: the project
    directory, the six files, and outside the paths of the project what
    there was. *)
Lemma scaffolded_disk (w : World) (this : CompleteDeployer) s1 t1 s2 t2 s3 t3 :
  projectName this = "air-token-project" ->
  createProjectStructure this (start w) = (Return tt, s1, t1) ->
  installDependencies w this s1 = (Return tt, s2, t2) ->
  createConfigFiles this s2 = (Return tt, s3, t3) ->
  cwd s3 = ["air-token-project"] /\
  files s3 !! ["air-token-project"] = Some Dir /\
  files s3 !! ["air-token-project"; "package.json"] =
    Some (File (JSON_stringify2 packageJson)) /\
  files s3 !! ["air-token-project"; "hardhat.config.js"] = Some (File (hardhatConfig this)) /\
  files s3 !! ["air-token-project"; "contracts"; "AIR.sol"] = Some (File airContract) /\
  files s3 !! ["air-token-project"; "scripts"; "deploy.js"] = Some (File deployScript) /\
  files s3 !! ["air-token-project"; ".env.example"] = Some (File (envTemplate this)) /\
  files s3 !! ["air-token-project"; ".gitignore"] = Some (File gitignore) /\
  (forall q, ~ In q project_directories -> ~ In q scaffolded_paths ->
     files s3 !! q = disk w !! q).
Proof.
  intros Hname E1 E2 E3.
  pose proof (fun q => createProjectStructure_frame this (start w) _ _ _ q Hname eq_refl E1)
    as Hframe.
  apply createProjectStructure_return in E1 as (Hcwd1 & Hproj & _); [| done | done].
  apply installDependencies_return in E2 as (-> & ->).
  apply createConfigFiles_return in E3 as (-> & ->).
  cbn [files cwd start app] in *. unfold resolve. cbn [files cwd]. rewrite Hcwd1.
  change (components "package.json") with ["package.json"].
  change (components "hardhat.config.js") with ["hardhat.config.js"].
  change (components "contracts/AIR.sol") with ["contracts"; "AIR.sol"].
  change (components "scripts/deploy.js") with ["scripts"; "deploy.js"].
  change (components ".env.example") with [".env.example"].
  change (components ".gitignore") with [".gitignore"].
  cbn [app].
  repeat split;
    try (repeat first [rewrite lookup_insert_eq | rewrite lookup_insert_ne by done]; done).
  intros q Hd Hf. unfold scaffolded_paths in Hf. cbn [In] in Hf.
  repeat (rewrite lookup_insert_ne by (intros <-; tauto)).
  by apply Hframe.
Qed.
(** ** The deployment script *)

Ltac deploy_js_fails :=
  intros [= <- <- <-]; right; (split; [done |]); (split; [done |]); split;
  [ let H := fresh "H" in
    intros ? ? H; cbn [In] in H;
    repeat (destruct H as [H | H]; try discriminate H); done
  | by eexists ].

(** The deployment script either goes through, every call having
    succeeded, and the record is the last thing it writes; or it ends with
    status 1 and has written nothing. *)
Lemma deploy_js_outcome (w : World) (s : state) r s' t :
  deploy_js w s = (r, s', t) ->
  (r = Return tt /\
   exists deployer others balance c n sy supply,
     getSigners (hardhat w) = Ok (deployer :: others) /\
     getBalance (hardhat w) deployer = Ok balance /\
     getContractFactory (hardhat w) "AIR" = Ok tt /\
     deploy (hardhat w) "AIR" = Ok c /\
     waitForDeployment (hardhat w) c = Ok tt /\
     erc20_name (hardhat w) (c_address c) = Ok n /\
     erc20_symbol (hardhat w) (c_address c) = Ok sy /\
     erc20_totalSupply (hardhat w) (c_address c) = Ok supply /\
     s' = {| files := <[resolve s "deployment-info.json" := File (record_of w c deployer)]>
                        (files s);
             cwd := cwd s |} /\
     t = [ Stdout "🚀 Starting AIR token deployment...";
           Sdk GetSigners true;
           Stdout ("Deployer: " +:+ deployer);
           Sdk (GetBalance deployer) true;
           Stdout ("Balance: " +:+ formatEther (hardhat w) balance +:+ " ETH");
           Sdk (GetContractFactory "AIR") true;
           Sdk (Deploy "AIR") true;
           Sdk (WaitForDeployment (c_address c)) true;
           Stdout ("✅ AIR Token deployed to: " +:+ c_address c);
           Sdk (ReadName (c_address c)) true;
           Stdout ("Name: " +:+ n);
           Sdk (ReadSymbol (c_address c)) true;
           Stdout ("Symbol: " +:+ sy);
           Sdk (ReadTotalSupply (c_address c)) true;
           Stdout ("Total Supply: " +:+ formatEther (hardhat w) supply);
           WriteFile "deployment-info.json" (record_of w c deployer);
           Stdout "📄 Deployment info saved to deployment-info.json" ]) \/
  (r = Exit 1 /\ s' = s /\
   (forall p d, ~ In (WriteFile p d) t) /\
   exists x, last t = Some (Stderr x)).
Proof.
  unfold deploy_js, deploy_main. msimpl.
  destruct (getSigners (hardhat w)) as [[| deployer others] | m] eqn:Esig; msimpl;
    try (by deploy_js_fails).
  repeat (destruct_result; msimpl; [| by deploy_js_fails]).
  match goal with
  | |- context [writeFileSync ?p ?d ?st] =>
      destruct (writeFileSync_cases p d st) as [-> | [c' ->]]
  end; msimpl; [| by deploy_js_fails].
  intros [= <- <- <-]. left. split; [done |].
  repeat match goal with u : unit |- _ => destruct u end.
  eexists _, _, _, _, _, _, _. by repeat (split; [eassumption || reflexivity |]).
Qed.

(** Hardhat asked to run the script as step 3 wrote it. *)
Lemma launch_deploy_script (w : World) (this : CompleteDeployer) (s : state) :
  stat (files s) (resolve s "scripts/deploy.js") = Some (File deployScript) ->
  launch w this deploy_command s =
    if tool w deploy_command =? 0 then child deploy_command (deploy_js w) s
    else (Return (tool w deploy_command), s, []).
Proof.
  intros H. unfold launch, on_disk.
  change (String.eqb deploy_command deploy_command) with true. msimpl.
  rewrite H, String.eqb_refl. cbn [andb].
  destruct (tool w deploy_command =? 0); [| done].
  by destruct (child deploy_command (deploy_js w) s) as [[r s1] t].
Qed.

(** Node asked to run the monitor script as step 5 wrote it. *)
Lemma launch_monitor_script (w : World) (this : CompleteDeployer) (s : state) :
  stat (files s) (resolve s "monitor.js") = Some (File (monitorScript this)) ->
  launch w this monitor_command s =
    if tool w monitor_command =? 0 then child monitor_command (monitor w this) s
    else (Return (tool w monitor_command), s, []).
Proof.
  intros H. unfold launch, on_disk.
  change (String.eqb monitor_command deploy_command) with false.
  change (String.eqb monitor_command monitor_command) with true. msimpl.
  rewrite H, String.eqb_refl. cbn [andb].
  destruct (tool w monitor_command =? 0); [| done].
  by destruct (child monitor_command (monitor w this) s) as [[r s1] t].
Qed.

(** Step 4 in a directory that holds the deployment script: when the
    deployment command has ended with status 0, the script has gone
    through, and step 4 returns. *)
Lemma deployContract_deployed (w : World) (this : CompleteDeployer) (s : state) r s' t :
  stat (files s) (resolve s "scripts/deploy.js") = Some (File deployScript) ->
  deployContract w this s = (r, s', t) ->
  In (Exited deploy_command 0) t ->
  r = Return tt /\
  exists sd td,
    deploy_js w s = (Return tt, sd, td) /\
    s' = {| files := files sd; cwd := cwd s |} /\
    t = [ Stdout "📤 Deploying AIR token...";
          Spawn "npx hardhat compile"; Exited "npx hardhat compile" 0;
          Spawn deploy_command ] ++
        List.map (Sub deploy_command) td ++ [Exited deploy_command 0].
Proof.
  intros Hdisk. unfold deployContract. msimpl.
  destruct (_ && _); msimpl.
  { intros [= <- <- <-] [H | []]. discriminate H. }
  erewrite runCommand_unfold by (by apply launch_tool).
  destruct (tool w "npx hardhat compile" =? 0) eqn:Ec.
  2: { intros [= <- <- <-] H. cbn [In] in H.
       repeat (destruct H as [H | H]; [discriminate H |]). done. }
  apply Z.eqb_eq in Ec. rewrite Ec.
  pose proof (launch_deploy_script w this s Hdisk) as Hl.
  destruct (tool w deploy_command =? 0) eqn:Ed.
  2: { erewrite runCommand_unfold by exact Hl. rewrite Ed.
       intros [= <- <- <-] H. cbn [In] in H.
       repeat (destruct H as [H | H]; [discriminate H |]).
       destruct H as [H | []]. injection H as H. by rewrite H in Ed. }
  unfold child in Hl. destruct (deploy_js w s) as [[rd sd] td] eqn:Hd.
  destruct (deploy_js_outcome w s _ _ _ Hd) as [(-> & _) | (-> & -> & _)].
  - erewrite runCommand_unfold by exact Hl. cbn [Z.eqb].
    intros [= <- <- <-] _. split; [done |]. by exists sd, td.
  - erewrite runCommand_unfold by exact Hl. cbn [Z.eqb].
    intros [= <- <- <-] H. cbn [In app] in H.
    repeat (destruct H as [H | H]; [discriminate H |]).
    apply in_app_iff in H as [H | [H | []]]; [| discriminate H].
    apply in_map_iff in H as (e' & He' & _). discriminate He'.
Qed.
(** ** The record and the status of the deployment *)

Lemma recorded_app (t1 : list event) (r : outcome unit) (t2 : list event) :
  recorded (Return tt) t1 -> recorded r t2 -> recorded r (t1 ++ t2).
Proof.
  intros H1 H2 p d H. apply in_app_iff.
  apply in_app_iff in H as [H | H]; [left; by eapply H1 | right; by eapply H2].
Qed.

Lemma recorded_runCommand (w : World) (this : CompleteDeployer) (cmd : string) :
  holds recorded (runCommand w this cmd).
Proof.
  intros s r s' t H p d Hin.
  destruct (launch_inv w this cmd s) as (st & tc & s1 & Hl & Hc).
  rewrite (runCommand_unfold _ _ _ _ _ _ _ Hl) in H. injection H as _ _ <-.
  destruct Hin as [Hin | Hin]; [discriminate Hin |].
  apply in_app_iff in Hin as [Hin | [Hin | []]]; [| discriminate Hin].
  apply in_map_iff in Hin as (e' & He' & Hin). injection He' as -> ->.
  destruct Hc as [(-> & _) | [(_ & _ & _ & r1 & s2 & Hd & _ & Hst) | (Hm & _)]];
    [done | | discriminate Hm].
  destruct (deploy_js_outcome w s _ _ _ Hd) as [(-> & _) | (-> & _ & Hno & _)];
    [| by destruct (Hno p d)].
  destruct Hst as [(_ & ->) | (Hr & _)]; [| discriminate Hr].
  right. apply in_app_iff. right. by left.
Qed.

Lemma recorded_steps (w : World) (this : CompleteDeployer) : holds recorded (steps w this).
Proof.
  apply holds_steps; try apply recorded_runCommand; try exact recorded_app;
    intros;
    let H := fresh "H" in
    intros ? ? H; cbn [In] in H;
    repeat (destruct H as [H | H]; [discriminate H |]); done.
Qed.

(** An event of the five steps is an event of the process, and apart from
    the first line and the report of an error the events of the process
    are those of the five steps. *)
Lemma trace_steps (w : World) :
  quick w = false ->
  exists r s t,
    steps w (constructor w) (start w) = (r, s, t) /\
    final w = s /\
    (exit_code w = 0 <-> r = Return tt) /\
    (forall x, In x t -> In x (trace w)) /\
    (forall x, In x (trace w) ->
       match x with Stdout _ | Stderr _ => True | _ => In x t end).
Proof.
  intros Hq. destruct (process_scaffold_cases w Hq) as (r & s & t & Hs & Hp).
  pose proof (fail_stop_steps w (constructor w) _ _ _ _ Hs) as Hfs.
  exists r, s, t. split; [exact Hs |]. unfold final, trace, exit_code.
  destruct r as [[] | e | c]; [| | done]; rewrite Hp; cbn [fst snd]; (split; [done |]);
    (split; [done |]); split.
  - intros x Hx. by right.
  - intros x [<- | Hx]; [done | by destruct x].
  - intros x Hx. right. apply in_app_iff. by left.
  - intros x [<- | Hx]; [done |].
    apply in_app_iff in Hx as [Hx | [<- | []]]; [by destruct x | done].
Qed.



(** A contract deployed and not recorded: the read of the name fails after
    the deployment, the script ends with status 1 before it writes the
    record, and the run ends with exit code 1. *)
Example deployed_and_not_recorded :
  In (Sub deploy_command (Sdk (Deploy "AIR") true)) (trace read_fails) /\
  In (Sub deploy_command (Sdk (ReadName sample_address) false)) (trace read_fails) /\
  files (final read_fails) !! ["air-token-project"; "deployment-info.json"] = None /\
  exit_code read_fails = 1.
Proof. vm_compute. tauto. Qed.
(** ** A run that completes *)

Lemma in_order_deployContract (w : World) (this : CompleteDeployer) :
  holds (in_order ["npx hardhat compile"; deploy_command]) (deployContract w this).
Proof.
  unfold deployContract.
  apply (in_order_bind [] [_; _]); [apply in_order_console_log | intros _].
  apply (in_order_bind [] [_; _]).
  { apply in_order_quiet. intros s r s' t H.
    by destruct (_ && _); injection H as <- <- <-. }
  intros _. apply (in_order_bind [_] [_]); [| intros _]; apply in_order_runCommand.
Qed.

(** Step 5, when it returns: the monitor script has been written and run
    to its end. *)
Lemma startMonitoring_return (w : World) (this : CompleteDeployer) s s' t :
  startMonitoring w this s = (Return tt, s', t) ->
  s' = {| files := <[resolve s "monitor.js" := File (monitorScript this)]> (files s);
          cwd := cwd s |} /\
  exists tm,
    monitor w this s' = (Return tt, s', tm) /\
    t = [ Stdout "📊 Starting deployment monitoring...";
          WriteFile "monitor.js" (monitorScript this);
          Spawn monitor_command ] ++
        List.map (Sub monitor_command) tm ++ [Exited monitor_command 0].
Proof.
  unfold startMonitoring. msimpl.
  destruct (writeFileSync_cases "monitor.js" (monitorScript this) s) as [-> | [c ->]];
    msimpl; [| discriminate].
  set (s1 := {| files := <[resolve s "monitor.js" := File (monitorScript this)]> (files s);
                cwd := cwd s |}).
  assert (Hdisk : stat (files s1) (resolve s1 "monitor.js") =
                  Some (File (monitorScript this))).
  { change (resolve s1 "monitor.js") with (cwd s ++ ["monitor.js"]).
    rewrite stat_snoc. apply lookup_insert_eq. }
  pose proof (launch_monitor_script w this s1 Hdisk) as Hl.
  destruct (tool w monitor_command =? 0) eqn:Etool.
  - unfold child in Hl. destruct (monitor_cases w this s1) as (tm & Hm & _).
    rewrite Hm in Hl. erewrite runCommand_unfold by exact Hl. cbn [Z.eqb].
    intros [= <- <-]. split; [reflexivity |]. by exists tm.
  - erewrite runCommand_unfold by exact Hl. rewrite Etool. discriminate.
Qed.

(** The monitor script in a directory that holds a record: what it does
    with the text of the record, by what the text is read as. *)
Lemma monitor_loaded (w : World) (this : CompleteDeployer) (s : state) (text : string) :
  stat (files s) (resolve s "./deployment-info.json") = Some (File text) ->
  exists tm,
    monitor w this s = (Return tt, s, tm) /\
    In (Sdk (NewProvider (rpcUrl this)) true) tm /\
    match parse_address w text with
    | Ok (Some a) =>
        In (Stdout ("Contract: " +:+ a)) tm /\
        (exists ok, In (Sdk (ReadName a) ok) tm) /\
        (forall a' ok, In (Sdk (ReadName a') ok) tm -> a' = a) /\
        forall n, erc20_name (monitoring w) a = Ok n ->
          In (Stdout ("Name: " +:+ n)) tm /\
          In (Stdout ("BaseScan: https://sepolia.basescan.org/address/" +:+ a)) tm /\
          forallb (fun e => negb (failure e)) tm = true
    | Ok None => In (Sdk NewContract false) tm
    | Err m => In (Stdout ("Monitoring error: " +:+ m)) tm
    end.
Proof.
  intros Hdisk. unfold monitor, require_text. msimpl. rewrite Hdisk. msimpl.
  destruct (parse_address w text) as [[a |] | m]; msimpl;
    [| eexists; (split; [reflexivity |]); cbn [In]; tauto ..].
  destruct (erc20_name (monitoring w) a) as [n | m] eqn:En; msimpl;
    (eexists; (split; [reflexivity |]); (split; [cbn [In]; tauto |]);
     (split; [cbn [In]; tauto |]); (split; [eexists; cbn [In]; eauto 10 |]); split;
     [ intros a' ok H; cbn [In] in H;
       repeat (destruct H as [H | H]; [try discriminate H |]); try done;
       by injection H as <-
     | first [ intros n' [= <-]; cbn [In]; (split; [tauto |]); (split; [tauto | reflexivity])
             | intros n' Hn; discriminate Hn ] ]).
Qed.

(** What a run that ends with exit code 0 has done: the deployment script
    has gone through, the disk holds the record, the monitor script and the
    six files, and the events of the monitor script are those of a run of
    it in the project directory, on the disk as the process leaves it. *)
Lemma complete_run (w : World) :
  quick w = false ->
  exit_code w = 0 ->
  exists c deployer others tm,
    getSigners (hardhat w) = Ok (deployer :: others) /\
    deploy (hardhat w) "AIR" = Ok c /\
    In (Sub deploy_command (Stdout ("✅ AIR Token deployed to: " +:+ c_address c)))
       (trace w) /\
    cwd (final w) = ["air-token-project"] /\
    files (final w) !! ["air-token-project"; "deployment-info.json"] =
      Some (File (record_of w c deployer)) /\
    files (final w) !! ["air-token-project"; "monitor.js"] =
      Some (File (monitorScript (constructor w))) /\
    (forall p d, In (p, d) (scaffolded (constructor w)) ->
       files (final w) !! ("air-token-project" :: components p) = Some (File d)) /\
    monitor w (constructor w) (final w) = (Return tt, final w, tm) /\
    (forall e, In (Sub monitor_command e) (trace w) <-> In e tm).
Proof.
  intros Hq Hcode.
  destruct (trace_steps w Hq) as (r & s & t & Hs & Hfinal & Hr & Hin & Hout).
  apply Hr in Hcode. subst r.
  apply steps_return in Hs
    as (s1 & t1 & s2 & t2 & s3 & t3 & s4 & t4 & t5 & E1 & E2 & E3 & E4 & E5 & Ht).
  destruct (scaffolded_disk w (constructor w) _ _ _ _ _ _ eq_refl E1 E2 E3)
    as (Hcwd & Hproj & F1 & F2 & F3 & F4 & F5 & F6 & Hframe).
  assert (Hdisk : stat (files s3) (resolve s3 "scripts/deploy.js") = Some (File deployScript)).
  { unfold resolve. rewrite Hcwd. exact F4. }
  assert (Hexit : In (Exited deploy_command 0) t4).
  { destruct (in_order_deployContract w (constructor w) _ _ _ _ E4) as [_ He].
    cbn [erase] in He. apply exited_In. rewrite He. cbn. tauto. }
  destruct (deployContract_deployed _ _ _ _ _ _ Hdisk E4 Hexit)
    as (_ & sd & td & Hd & -> & Ht4).
  destruct (deploy_js_outcome w s3 _ _ _ Hd)
    as [(_ & deployer & others & balance & c & n & sy & supply & G1 & _ & _ & G4 &
         _ & _ & _ & _ & -> & Htd) | (Hr' & _)]; [| discriminate Hr'].
  apply startMonitoring_return in E5 as (Hs5 & tm & Hm & Ht5).
  cbn [files cwd] in Hs5. unfold resolve in Hs5. cbn [cwd] in Hs5. rewrite Hcwd in Hs5.
  change (components "monitor.js") with ["monitor.js"] in Hs5.
  change (components "deployment-info.json") with ["deployment-info.json"] in Hs5.
  cbn [app] in Hs5.
  exists c, deployer, others, tm. split; [exact G1 |]. split; [exact G4 |].
  split.
  { apply Hin. rewrite Ht, Ht4, !in_app_iff. do 3 right. left. right. left.
    apply in_map. rewrite Htd. cbn [In]. tauto. }
  rewrite Hfinal. split; [by rewrite Hs5 |]. split.
  { rewrite Hs5. cbn [files]. rewrite lookup_insert_ne by done. apply lookup_insert_eq. }
  split.
  { rewrite Hs5. cbn [files]. apply lookup_insert_eq. }
  split.
  { intros p d Hpd. rewrite Hs5. cbn [files]. unfold scaffolded in Hpd. cbn [In] in Hpd.
    repeat (destruct Hpd as [Hpd | Hpd];
            [ injection Hpd as <- <-;
              match goal with
              | |- context [components ?p] =>
                  let q := eval vm_compute in (components p) in
                  change (components p) with q
              end;
              rewrite !lookup_insert_ne by done; assumption |]).
    done. }
  split; [exact Hm |].
  intros e. split.
  - intros He. apply Hout in He. rewrite Ht, Ht4, Ht5, !in_app_iff in He.
    assert (N1 : holds no_monitor (createProjectStructure (constructor w)))
      by (apply holds_createProjectStructure; no_monitor_prim).
    assert (N2 : holds no_monitor (installDependencies w (constructor w)))
      by (apply holds_installDependencies; no_monitor_prim).
    assert (N3 : holds no_monitor (createConfigFiles (constructor w)))
      by (apply holds_createConfigFiles; no_monitor_prim).
    destruct He as [He | [He | [He | [He | [He | He]]]]].
    + by destruct (N1 _ _ _ _ E1 e).
    + by destruct (N2 _ _ _ _ E2 e).
    + by destruct (N3 _ _ _ _ E3 e).
    + destruct He as [He | [He | He]].
      * cbn [In] in He. repeat (destruct He as [He | He]; [discriminate He |]). done.
      * apply in_map_iff in He as (e' & He' & _). discriminate He'.
      * destruct He as [He | []]. discriminate He.
    + destruct He as [He | [He | He]].
      * cbn [In] in He. repeat (destruct He as [He | He]; [discriminate He |]). done.
      * apply in_map_iff in He as (e' & He' & Hi). by injection He' as ->.
      * destruct He as [He | []]. discriminate He.
    + destruct He as [He | []]. discriminate He.
  - intros He. apply Hin. rewrite Ht, Ht5, !in_app_iff. do 4 right. left.
    right. left. by apply in_map.
Qed.

(** The record in such a run, as the monitor script finds it. *)
Lemma complete_run_loaded (w : World) (c : contract) (deployer : string) :
  cwd (final w) = ["air-token-project"] ->
  files (final w) !! ["air-token-project"; "deployment-info.json"] =
    Some (File (record_of w c deployer)) ->
  stat (files (final w)) (resolve (final w) "./deployment-info.json") =
    Some (File (record_of w c deployer)).
Proof. intros Hcwd Hrec. unfold resolve. by rewrite Hcwd. Qed.


(** ** What a command gives back *)

(** X10: [runCommand] starts the command and waits for its end; the working
    directory is then what it was.  It returns when the status is 0 and
    throws otherwise, and whatever happened in the child (an error that
    nothing caught, a call of [process.exit]), the error it throws says the
    command and nothing else; it never ends the process itself. *)
Theorem runCommand_says_the_command_only (w : World) (this : CompleteDeployer)
    (cmd : string) (s : state) r s' t :
  runCommand w this cmd s = (r, s', t) ->
  cwd s' = cwd s /\
  exists st tc,
    t = Spawn cmd :: List.map (Sub cmd) tc ++ [Exited cmd st] /\
    (st = 0 /\ r = Return tt \/
     st <> 0 /\ r = Throw (Error ("Command failed: " +:+ cmd))).
Proof.
  intros H.
  destruct (launch_cases w this cmd s) as (st & tc & s1 & Hl & Hcwd & _).
  rewrite (runCommand_unfold _ _ _ _ _ _ _ Hl) in H.
  injection H as <- <- <-. split; [exact Hcwd |]. exists st, tc. split; [done |].
  destruct (st =? 0) eqn:E; [left | right].
  - by apply Z.eqb_eq in E.
  - by apply Z.eqb_neq in E.
Qed.

Lemma runCommand_says_the_command_only_witness :
  cwd (runCommand read_fails (constructor read_fails) deploy_command
         (final read_fails)).1.2 = cwd (final read_fails).
Proof.
  apply (runCommand_says_the_command_only read_fails (constructor read_fails)
           deploy_command (final read_fails)
           (runCommand read_fails (constructor read_fails) deploy_command
              (final read_fails)).1.1 _
           (runCommand read_fails (constructor read_fails) deploy_command
              (final read_fails)).2).
  by destruct (runCommand read_fails (constructor read_fails) deploy_command
                 (final read_fails)) as [[r s'] t].
Defined.
(** ** A file where a directory is expected *)

Lemma writeFileSync_ok (p d : string) (s : state) :
  stat (files s) (resolve s p) <> Some Dir ->
  stat (files s) (removelast (resolve s p)) = Some Dir ->
  writeFileSync p d s =
    (Return tt, {| files := <[resolve s p := File d]> (files s); cwd := cwd s |},
     [WriteFile p d]).
Proof.
  intros Ht Hp. unfold writeFileSync. rewrite Hp.
  by destruct (stat (files s) (resolve s p)) as [[] |].
Qed.

(** X11: the test for existence that guards each creation of a directory
    does not tell a directory from a file.  With a regular file named
    [contracts] in the project directory step 1 goes through and creates
    nothing in its place; the manifest is written, [npm install] is run,
    and the run fails in step 3, on the first file that goes below
    [contracts]. *)
Theorem a_file_named_contracts (w : World) (text : string) :
  quick w = false ->
  disk w !! ["air-token-project"] = Some Dir ->
  disk w !! ["air-token-project"; "contracts"] = Some (File text) ->
  disk w !! ["air-token-project"; "contracts"; "AIR.sol"] = None ->
  disk w !! ["air-token-project"; "package.json"] <> Some Dir ->
  disk w !! ["air-token-project"; "hardhat.config.js"] <> Some Dir ->
  tool w "npm install" = 0 ->
  exit_code w = 1 /\
  files (final w) !! ["air-token-project"; "contracts"] = Some (File text) /\
  exists t1,
    forallb (fun e => negb (failure e)) t1 = true /\
    trace w =
      Stdout starting :: t1 ++
      [ Stdout "📦 Installing dependencies...";
        WriteFile "package.json" (JSON_stringify2 packageJson);
        Spawn "npm install"; Exited "npm install" 0;
        Stdout "⚙️  Creating configuration files...";
        WriteFile "hardhat.config.js" (hardhatConfig (constructor w));
        FsError "open" "contracts/AIR.sol" ENOTDIR;
        Stderr (deployment_failed
                  (message (SystemError ENOTDIR "open" "contracts/AIR.sol"))) ].
Proof.
  intros Hq Hproj Hfile Hbelow Hpkg Hcfg Htool.
  destruct (createProjectStructure_spec (constructor w) (start w) eq_refl eq_refl)
    as (fs' & t1 & E1 & Hproj' & Hsub & _ & Hok & _).
  { intros x. cbn [start files cwd app]. by rewrite Hproj. }
  pose proof (fun q => createProjectStructure_frame (constructor w) (start w) _ _ _ q
                         eq_refl eq_refl E1) as Hframe.
  cbn [start files cwd app] in *.
  assert (Hc : fs' !! ["air-token-project"; "contracts"] = Some (File text)).
  { rewrite (Hsub "contracts") by (cbn; tauto). by rewrite Hfile. }
  assert (F1 : fs' !! ["air-token-project"; "package.json"] <> Some Dir).
  { rewrite Hframe; [done |]. unfold project_directories. cbn [In].
    intros H; repeat (destruct H as [H | H]; [discriminate H |]); done. }
  assert (F2 : fs' !! ["air-token-project"; "hardhat.config.js"] <> Some Dir).
  { rewrite Hframe; [done |]. unfold project_directories. cbn [In].
    intros H; repeat (destruct H as [H | H]; [discriminate H |]); done. }
  assert (F3 : fs' !! ["air-token-project"; "contracts"; "AIR.sol"] = None).
  { rewrite Hframe; [done |]. unfold project_directories. cbn [In].
    intros H; repeat (destruct H as [H | H]; [discriminate H |]); done. }
  assert (Hp : process w =
            (1,
             {| files :=
                  <[ ["air-token-project"; "hardhat.config.js"] :=
                       File (hardhatConfig (constructor w)) ]>
                    (<[ ["air-token-project"; "package.json"] :=
                          File (JSON_stringify2 packageJson) ]> fs');
                cwd := ["air-token-project"] |},
             Stdout starting :: t1 ++
             [ Stdout "📦 Installing dependencies...";
               WriteFile "package.json" (JSON_stringify2 packageJson);
               Spawn "npm install"; Exited "npm install" 0;
               Stdout "⚙️  Creating configuration files...";
               WriteFile "hardhat.config.js" (hardhatConfig (constructor w));
               FsError "open" "contracts/AIR.sol" ENOTDIR;
               Stderr (deployment_failed
                         "ENOTDIR: not a directory, open 'contracts/AIR.sol'") ])).
  { unfold process. rewrite (process_scaffold w Hq). unfold run, steps. msimpl.
    rewrite E1. unfold installDependencies. msimpl.
    rewrite writeFileSync_ok; [| exact F1 | exact Hproj'].
    change (resolve {| files := fs'; cwd := ["air-token-project"] |} "package.json")
      with ["air-token-project"; "package.json"].
    cbn [files cwd].
    erewrite runCommand_unfold by (by apply launch_tool). rewrite Htool. cbn [Z.eqb].
    unfold createConfigFiles. msimpl.
    rewrite writeFileSync_ok; cycle 1.
    { cbn [files]. change (resolve _ "hardhat.config.js")
        with ["air-token-project"; "hardhat.config.js"].
      cbn [stat]. by rewrite lookup_insert_ne. }
    { cbn [files]. change (removelast (resolve _ "hardhat.config.js"))
        with ["air-token-project"].
      cbn [stat]. by rewrite lookup_insert_ne. }
    change (resolve _ "hardhat.config.js") with ["air-token-project"; "hardhat.config.js"].
    cbn [files cwd]. unfold writeFileSync at 1.
    change (resolve _ "contracts/AIR.sol") with ["air-token-project"; "contracts"; "AIR.sol"].
    cbn [files removelast stat].
    rewrite !(lookup_insert_ne _ _ ["air-token-project"; "contracts"; "AIR.sol"]) by done.
    rewrite F3.
    rewrite !(lookup_insert_ne _ _ ["air-token-project"; "contracts"]) by done.
    rewrite Hc. msimpl. unfold fs_error. msimpl.
    by rewrite <- !app_assoc. }
  unfold exit_code, final, trace. rewrite Hp. cbn [fst snd files].
  split; [done |]. split.
  { by rewrite !lookup_insert_ne. }
  by exists t1.
Qed.

Lemma a_file_named_contracts_witness :
  exit_code contracts_is_a_file = 1 /\
  files (final contracts_is_a_file) !! ["air-token-project"; "contracts"] =
    Some (File "to do").
Proof.
  destruct (a_file_named_contracts contracts_is_a_file "to do") as (H1 & H2 & _);
    try reflexivity; try (vm_compute; discriminate).
  by split.
Defined.
(** ** JSON.parse reads back what JSON.stringify writes *)

Lemma parse_quote_char (c : ascii) (x : string) :
  parse_chars (quote_char c +:+ x) =
  match parse_chars x with
  | Some (body, rest) => Some (String c body, rest)
  | None => None
  end.
Proof. destruct c as [[] [] [] [] [] [] [] []]; reflexivity. Qed.

Lemma parse_quote_body (s rest : string) :
  parse_chars (quote_body s +:+ String dquote rest) = Some (s, rest).
Proof.
  induction s as [| c s IH]; [done |].
  cbn [quote_body]. by rewrite append_assoc, parse_quote_char, IH.
Qed.

Lemma skip_ws_app (i x : string) :
  all_chars is_ws i = true -> skip_ws (i +:+ x) = skip_ws x.
Proof.
  induction i as [| c i IH]; [done |]. cbn [all_chars]. intros H.
  apply andb_true_iff in H as [Hc Hi]. rewrite append_cons. cbn [skip_ws].
  rewrite Hc. by apply IH.
Qed.

Lemma json_ind' (P : json -> Prop) :
  (forall s, P (JString s)) ->
  (forall ms, Forall (fun kv => P kv.2) ms -> P (JObject ms)) ->
  forall v, P v.
Proof.
  intros Hs Ho. fix IH 1. intros [s | ms]; [apply Hs |]. apply Ho.
  induction ms as [| [k v] ms IHms]; constructor; [apply IH | exact IHms].
Qed.

Lemma serialize_object (indent k : string) (v : json) (ms : list (string * json)) :
  SerializeJSONProperty "  " indent (JObject ((k, v) :: ms)) =
  "{" +:+ newline +:+ (indent +:+ "  ") +:+
  String.concat ("," +:+ newline +:+ (indent +:+ "  "))
    (List.map (member_text (indent +:+ "  ")) ((k, v) :: ms)) +:+
  newline +:+ indent +:+ "}".
Proof. reflexivity. Qed.

Lemma serialize_starts (indent : string) (v : json) :
  exists c r,
    SerializeJSONProperty "  " indent v = String c r /\ is_ws c = false.
Proof.
  destruct v as [s | [| [k v] ms]].
  - by eexists _, _.
  - by eexists _, _.
  - rewrite serialize_object. by eexists _, _.
Qed.

Lemma skip_ws_serialize (indent : string) (v : json) (x : string) :
  skip_ws (SerializeJSONProperty "  " indent v +:+ x) =
  SerializeJSONProperty "  " indent v +:+ x.
Proof.
  destruct (serialize_starts indent v) as (c & r & -> & Hc).
  rewrite append_cons. cbn [skip_ws]. by rewrite Hc.
Qed.

Lemma set_member_fresh (k : string) (v : json) (acc : list (string * json)) :
  existsb (String.eqb k) (List.map fst acc) = false ->
  set_member k v acc = acc ++ [(k, v)].
Proof.
  induction acc as [| [k' v'] acc IH]; [done |]. cbn. intros H.
  apply orb_false_iff in H as [-> H]. by rewrite IH.
Qed.

Lemma distinct_fresh (l1 : list string) (k : string) (l2 : list string) :
  distinct (l1 ++ k :: l2) = true -> existsb (String.eqb k) l1 = false.
Proof.
  induction l1 as [| a l1 IH]; [done |]. cbn. intros H.
  apply andb_true_iff in H as [Ha H]. rewrite (IH H), orb_false_r.
  apply negb_true_iff in Ha. rewrite existsb_app in Ha.
  apply orb_false_iff in Ha as [_ Ha]. cbn in Ha.
  apply orb_false_iff in Ha as [Ha _]. by rewrite String.eqb_sym.
Qed.

Lemma object_of_distinct (ms : list (string * json)) :
  distinct (List.map fst ms) = true -> object_of ms = JObject ms.
Proof.
  unfold object_of. intros H. f_equal.
  enough (G : forall acc, distinct (List.map fst (acc ++ ms)) = true ->
            fold_left (fun acc kv => set_member kv.1 kv.2 acc) ms acc = acc ++ ms)
    by exact (G [] H).
  clear H. induction ms as [| [k v] ms IH]; intros acc H; cbn [fold_left fst snd].
  { by rewrite app_nil_r. }
  rewrite set_member_fresh.
  - rewrite IH; rewrite <- app_assoc; [done | exact H].
  - rewrite List.map_app in H. cbn [List.map fst] in H. by apply distinct_fresh in H.
Qed.

Ltac norm_append :=
  repeat (progress (rewrite ?append_cons, ?append_nil, ?append_assoc)).

(** The members of an object, after the white space [lead]. *)
Lemma parse_members_text (ms : list (string * json)) :
  Forall (fun kv : string * json =>
            forall indent rest fuel,
              all_chars is_ws indent = true ->
              well_formed kv.2 = true ->
              (weight kv.2 <= fuel)%nat ->
              parse_value fuel (SerializeJSONProperty "  " indent kv.2 +:+ rest) =
                Some (kv.2, rest)) ms ->
  ms <> [] ->
  forall lead indent stepback rest fuel,
    all_chars is_ws lead = true ->
    all_chars is_ws indent = true ->
    all_chars is_ws stepback = true ->
    forallb (fun kv => well_formed kv.2) ms = true ->
    (list_sum (List.map (fun kv => S (weight kv.2)) ms) <= fuel)%nat ->
    parse_members fuel
      (lead +:+
       String.concat ("," +:+ newline +:+ indent) (List.map (member_text indent) ms) +:+
       newline +:+ stepback +:+ "}" +:+ rest) = Some (ms, rest).
Proof.
  induction 1 as [| [k v] ms Hv Hms IH]; [done |]. intros _.
  intros lead indent stepback rest fuel Hlead Hindent Hstep Hwf Hfuel.
  cbn [snd] in Hv.
  cbn [forallb snd] in Hwf. apply andb_true_iff in Hwf as [Hwfv Hwfms].
  cbn [List.map list_sum fold_right snd] in Hfuel.
  destruct fuel as [| fuel]; [lia |].
  assert (Hone : forall tail,
            (exists c r, skip_ws tail = String c r /\
               (Ascii.eqb c "," = true /\
                parse_members fuel r = Some (ms, rest) \/
                ms = [] /\ Ascii.eqb c "," = false /\ Ascii.eqb c "}" = true /\ r = rest)) ->
            parse_members (S fuel) (lead +:+ member_text indent (k, v) +:+ tail) =
              Some ((k, v) :: ms, rest)).
  { intros tail (c & r & Htail & Hc). cbn [parse_members].
    rewrite (skip_ws_app lead) by exact Hlead.
    unfold member_text, QuoteJSONString. cbn [fst snd]. norm_append.
    cbn [skip_ws]. change (is_ws dquote) with false. cbv iota.
    change (Ascii.eqb dquote dquote) with true. cbv iota.
    rewrite parse_quote_body. cbn [skip_ws].
    change (is_ws ":") with false. cbv iota.
    change (Ascii.eqb ":" ":") with true. cbv iota.
    cbn [skip_ws]. change (is_ws " ") with true. cbv iota.
    rewrite skip_ws_serialize.
    rewrite (Hv indent tail fuel Hindent Hwfv) by lia.
    rewrite Htail.
    destruct Hc as [(-> & ->) | (-> & -> & -> & ->)]; done. }
  destruct ms as [| kv' ms'].
  - cbn [List.map String.concat]. apply Hone.
    exists "}"%char, rest. split.
    + rewrite (skip_ws_app newline) by done. by rewrite (skip_ws_app stepback).
    + right. done.
  - cbn [List.map String.concat].
    change (String.concat ?s (?x :: ?l)) with (String.concat s (x :: l)).
    rewrite !append_assoc. apply Hone.
    eexists ","%char, _. split; [by rewrite append_cons |].
    left. split; [done |].
    rewrite append_nil.
    rewrite <- (append_assoc newline indent).
    apply (IH ltac:(done) (newline +:+ indent) indent stepback rest fuel);
      try done.
    cbn [List.map list_sum fold_right] in *. lia.
Qed.

(** A value, at any indentation and whatever follows it. *)
Lemma parse_value_text (v : json) (indent rest : string) (fuel : nat) :
  all_chars is_ws indent = true ->
  well_formed v = true ->
  (weight v <= fuel)%nat ->
  parse_value fuel (SerializeJSONProperty "  " indent v +:+ rest) = Some (v, rest).
Proof.
  revert indent rest fuel. induction v as [s | ms IH] using json_ind';
    intros indent rest fuel Hindent Hwf Hfuel.
  - destruct fuel as [| fuel]; [cbn in Hfuel; lia |].
    cbn [SerializeJSONProperty]. unfold QuoteJSONString. norm_append.
    cbn [parse_value]. change (Ascii.eqb dquote dquote) with true. cbv iota.
    by rewrite parse_quote_body.
  - destruct fuel as [| fuel]; [cbn in Hfuel; lia |].
    destruct ms as [| [k v] ms]; [done |].
    cbn [well_formed] in Hwf. apply andb_true_iff in Hwf as [Hkeys Hwf].
    assert (Hindent' : all_chars is_ws (indent +:+ "  ") = true)
      by (by rewrite all_chars_app, Hindent).
    pose proof (parse_members_text ((k, v) :: ms) IH ltac:(done)
                  "" (indent +:+ "  ") indent rest fuel eq_refl Hindent' Hindent) as Hm.
    rewrite append_nil in Hm. rewrite serialize_object.
    set (inner := indent +:+ "  ") in *.
    set (text := String.concat _ (List.map _ _)) in *.
    assert (Htext : exists text', text = String dquote text').
    { unfold text. cbn [List.map String.concat]. unfold member_text at 1, QuoteJSONString.
      destruct (List.map _ ms); rewrite ?append_cons; by eexists. }
    clearbody text inner. destruct Htext as [text' ->].
    rewrite !append_assoc, !append_cons, append_nil. cbn [parse_value].
    change (Ascii.eqb "{" dquote) with false. cbv iota.
    change (Ascii.eqb "{" "{") with true. cbv iota.
    rewrite (skip_ws_app newline) by done.
    rewrite (skip_ws_app inner) by exact Hindent'.
    rewrite ?append_cons. cbn [skip_ws]. change (is_ws dquote) with false. cbv iota.
    change (Ascii.eqb dquote "}") with false. cbv iota.
    rewrite ?append_cons in Hm. rewrite Hm.
    + by rewrite object_of_distinct.
    + rewrite forallb_forall in Hwf |- *. intros kv Hkv.
      specialize (Hwf kv Hkv). by apply andb_true_iff in Hwf as [_ Hwf].
    + cbn [weight] in Hfuel. lia.
Qed.

Lemma length_append (a b : string) :
  String.length (a +:+ b) = (String.length a + String.length b)%nat.
Proof.
  induction a as [| c a IH]; [done |]. rewrite append_cons. cbn [String.length].
  by rewrite IH.
Qed.

Lemma append_empty (a : string) : a +:+ "" = a.
Proof. induction a as [| c a IH]; [done |]. by rewrite append_cons, IH. Qed.

Lemma length_concat (sep : string) (l : list string) :
  (list_sum (List.map String.length l) <= String.length (String.concat sep l))%nat.
Proof.
  induction l as [| x l IH]; [done |]. destruct l as [| y l].
  - cbn. lia.
  - change (String.concat sep (x :: y :: l)) with (x +:+ sep +:+ String.concat sep (y :: l)).
    rewrite !length_append. cbn [List.map list_sum fold_right] in IH |- *. lia.
Qed.

(** The length of the text of a value is fuel enough. *)
Lemma weight_length (v : json) (indent : string) :
  (weight v <= String.length (SerializeJSONProperty "  " indent v))%nat.
Proof.
  revert indent. induction v as [s | ms IH] using json_ind'; intros indent.
  - cbn. lia.
  - destruct ms as [| [k v] ms]; [cbn; lia |].
    rewrite serialize_object, !length_append.
    set (inner := indent +:+ "  ").
    pose proof (length_concat ("," +:+ newline +:+ inner)
                  (List.map (member_text inner) ((k, v) :: ms))) as Hc.
    enough (G : (list_sum (List.map (fun kv => S (weight kv.2)) ((k, v) :: ms)) <=
                 list_sum (List.map String.length
                             (List.map (member_text inner) ((k, v) :: ms))))%nat)
      by (cbn [weight String.length] in *; lia).
    clear Hc. induction IH as [| kv l Hkv _ IHl]; [done |].
    cbn [List.map list_sum fold_right]. specialize (Hkv inner).
    unfold member_text at 1. rewrite !length_append.
    unfold list_sum in *. cbn [String.length]. lia.
Qed.

(** The record of a deployment is read back, whatever its three strings. *)
Lemma record_parsed (address deployer timestamp : string) :
  JSON_parse (JSON_stringify2 (deploymentInfo address deployer timestamp)) =
  Some (deploymentInfo address deployer timestamp).
Proof.
  set (v := deploymentInfo address deployer timestamp).
  assert (Hwf : well_formed v = true) by reflexivity.
  unfold JSON_parse, JSON_stringify2.
  pose proof (skip_ws_serialize "" v "") as Hskip. rewrite append_empty in Hskip.
  rewrite Hskip.
  pose proof (parse_value_text v "" "" _ eq_refl Hwf (weight_length v "")) as Hp.
  rewrite append_empty in Hp. by rewrite Hp.
Qed.

(** X12: [JSON.parse] reads back what [JSON.stringify(value, null, 2)]
    writes, for every value made of strings and objects whose keys are
    distinct and none an array index: whatever the strings hold, quotes,
    backslashes and control characters included, and however deep the
    objects are. *)
Theorem JSON_parse_stringify (v : json) :
  well_formed v = true -> JSON_parse (JSON_stringify2 v) = Some v.
Proof.
  intros Hwf. unfold JSON_parse, JSON_stringify2.
  pose proof (skip_ws_serialize "" v "") as Hskip. rewrite append_empty in Hskip.
  rewrite Hskip.
  pose proof (parse_value_text v "" "" _ eq_refl Hwf (weight_length v "")) as Hp.
  rewrite append_empty in Hp. by rewrite Hp.
Qed.

Lemma JSON_parse_stringify_witness :
  JSON_parse (JSON_stringify2 packageJson) = Some packageJson.
Proof.
  apply (JSON_parse_stringify packageJson).
  reflexivity.
Defined.

(** ** From the deployment script to the monitor script *)


(** ** The inputs of the process *)

Lemma includes_In (l : list string) (x : string) : includes l x = true <-> In x l.
Proof.
  unfold includes. rewrite existsb_exists. split.
  - intros (y & Hy & Heq). apply String.eqb_eq in Heq. by subst.
  - intros H. exists x. split; [exact H | apply String.eqb_refl].
Qed.

(** X14: of the command line the process reads one thing, whether
    [--quick] is among the arguments that follow the name of the script,
    wherever it stands; any other argument is ignored, in either mode. *)
Theorem only_the_quick_flag_is_read (w : World) (args : list string) :
  (In "--quick" (skipn 2 args) <-> In "--quick" (skipn 2 (argv w))) ->
  (quick w = true <-> In "--quick" (skipn 2 (argv w))) /\
  process (with_args args w) = process w.
Proof.
  intros H. split; [apply includes_In |].
  assert (Hq : quick (with_args args w) = quick w).
  { unfold quick. cbn [with_args argv].
    destruct (includes (skipn 2 (argv w)) "--quick") eqn:E.
    - apply includes_In. apply H. by apply includes_In.
    - destruct (includes (skipn 2 args) "--quick") eqn:E'; [| done].
      apply includes_In, H, includes_In in E'. congruence. }
  unfold process, main. fold (quick (with_args args w)). fold (quick w). rewrite Hq.
  destruct (quick w); reflexivity.
Qed.

Lemma only_the_quick_flag_is_read_witness :
  process (with_args ["node"; "complete-deployer.js"; "--verbose"; "--quick"; "--help"]
             quick_without_key) = process quick_without_key.
Proof.
  apply (only_the_quick_flag_is_read quick_without_key).
  cbn. tauto.
Defined.

(** The process reads two variables of the environment, and of each
    whether it is a string that is not empty, and then the string. *)
Lemma process_env (w1 w2 : World) :
  argv w1 = argv w2 -> disk w1 = disk w2 -> now w1 = now w2 -> tool w1 = tool w2 ->
  parse_address w1 = parse_address w2 -> sdk w1 = sdk w2 -> hardhat w1 = hardhat w2 ->
  monitoring w1 = monitoring w2 ->
  truthy (env w1 !! "PRIVATE_KEY") = truthy (env w2 !! "PRIVATE_KEY") ->
  or_default (env w1 !! "PRIVATE_KEY") "YOUR_PRIVATE_KEY_HERE" =
    or_default (env w2 !! "PRIVATE_KEY") "YOUR_PRIVATE_KEY_HERE" ->
  or_default (env w1 !! "RPC_URL") "https://sepolia.base.org" =
    or_default (env w2 !! "RPC_URL") "https://sepolia.base.org" ->
  process w1 = process w2.
Proof.
  destruct w1 as [a1 e1 d1 n1 t1 p1 s1 h1 m1], w2 as [a2 e2 d2 n2 t2 p2 s2 h2 m2].
  cbn [argv env disk now tool parse_address sdk hardhat monitoring].
  intros <- <- <- <- <- <- <- <- Ht Hk Hu.
  unfold process, main, start, quickDeploy, run, constructor, steps, installDependencies,
    createConfigFiles, deployContract, startMonitoring, runCommand, execSync, launch,
    deploy_js, deploy_main, monitor.
  cbn [argv env disk now tool parse_address sdk hardhat monitoring privateKey rpcUrl
       projectName].
  by rewrite Ht, Hk, Hu.
Qed.

(** X15: a variable of the environment set to the empty string is a
    variable that is not set: with PRIVATE_KEY empty the process does what
    it does without a credential, and with RPC_URL empty it uses the
    endpoint of Base Sepolia. *)
Theorem an_empty_variable_is_not_set (w : World) :
  process (with_key (Some "") w) = process (with_key None w) /\
  process (with_rpc_url (Some "") w) = process (with_rpc_url None w) /\
  rpcUrl (constructor (with_rpc_url (Some "") w)) = "https://sepolia.base.org".
Proof.
  split; [| split].
  - apply process_env; try reflexivity; cbn [with_key env].
    + by rewrite lookup_insert_eq, lookup_delete_eq.
    + by rewrite lookup_insert_eq, lookup_delete_eq.
    + by rewrite lookup_insert_ne, lookup_delete_ne.
  - apply process_env; try reflexivity; cbn [with_rpc_url env].
    + by rewrite lookup_insert_ne, lookup_delete_ne.
    + by rewrite lookup_insert_ne, lookup_delete_ne.
    + by rewrite lookup_insert_eq, lookup_delete_eq.
  - cbn [constructor rpcUrl with_rpc_url env]. by rewrite lookup_insert_eq.
Qed.
(** ** A second run *)

(** A file written again with the text it holds: the disk stays as it
    is. *)
Lemma writeFileSync_same (p d : string) (s : state) :
  stat (files s) (resolve s p) = Some (File d) ->
  stat (files s) (removelast (resolve s p)) = Some Dir ->
  resolve s p <> [] ->
  writeFileSync p d s = (Return tt, s, [WriteFile p d]).
Proof.
  intros Ht Hp Hne. rewrite writeFileSync_ok; [| by rewrite Ht | exact Hp].
  destruct s as [fs c]. cbn [files cwd] in *. f_equal. f_equal. f_equal.
  apply insert_id. destruct (resolve _ p); [done | exact Ht].
Qed.

(** The events of step 1 when it returns, the creations apart. *)
Lemma createProjectStructure_trace (this : CompleteDeployer) s s' t :
  createProjectStructure this s = (Return tt, s', t) ->
  List.filter (fun e => negb (is_mkdir e)) t =
    [Stdout "📁 Creating project structure..."; Chdir (projectName this)].
Proof.
  assert (Hone : forall d x x' u, mkdir_if_missing d x = (Return tt, x', u) ->
            List.filter (fun e => negb (is_mkdir e)) u = []).
  { intros d x x' u. unfold mkdir_if_missing, existsSync. msimpl.
    destruct (stat _ _); cbn [negb]; [by intros [= <- <-] |].
    destruct (mkdirSync_cases d x) as [E | [c E]]; rewrite E; [| discriminate].
    by intros [= <- <-]. }
  assert (Hall : forall dirs x x' u,
            forEach dirs (fun dir => mkdir_if_missing dir) x = (Return tt, x', u) ->
            List.filter (fun e => negb (is_mkdir e)) u = []).
  { induction dirs as [| d dirs IH]; intros x x' u H; cbn [forEach] in H.
    - by injection H as <- <-.
    - apply bind_inv in H
        as [([] & s1 & t1 & t2 & H1 & H & ->) | [(e & _ & Hr) | (c & _ & Hr)]];
        [| discriminate Hr ..].
      by rewrite List.filter_app, (Hone _ _ _ _ H1), (IH _ _ _ H). }
  unfold createProjectStructure. intros H.
  apply bind_inv in H
    as [([] & s1 & t1 & t2 & H1 & H & ->) | [(e & _ & Hr) | (c & _ & Hr)]];
    [| discriminate Hr ..].
  injection H1 as <- <-.
  apply bind_inv in H
    as [([] & s1 & t1 & t2' & H1 & H & ->) | [(e & _ & Hr) | (c & _ & Hr)]];
    [| discriminate Hr ..].
  apply bind_inv in H
    as [([] & s2 & t3 & t4 & H2 & H & ->) | [(e & _ & Hr) | (c & _ & Hr)]];
    [| discriminate Hr ..].
  destruct (chdir_cases (projectName this) s1) as [E | [c E]]; rewrite E in H2;
    [| discriminate H2].
  injection H2 as <- <-.
  cbn [app List.filter is_mkdir negb]. rewrite !List.filter_app.
  rewrite (Hone _ _ _ _ H1). cbn [app List.filter is_mkdir negb].
  by rewrite (Hall _ _ _ _ H).
Qed.

(** Step 2 from the project directory, the manifest being a file or
    absent. *)
Lemma installDependencies_run (w : World) (this : CompleteDeployer) (s : state) :
  stat (files s) (resolve s "package.json") <> Some Dir ->
  stat (files s) (removelast (resolve s "package.json")) = Some Dir ->
  tool w "npm install" = 0 ->
  installDependencies w this s =
    (Return tt,
     {| files := <[resolve s "package.json" := File (JSON_stringify2 packageJson)]> (files s);
        cwd := cwd s |},
     [ Stdout "📦 Installing dependencies...";
       WriteFile "package.json" (JSON_stringify2 packageJson);
       Spawn "npm install"; Exited "npm install" 0 ]).
Proof.
  intros Ht Hp Htool. unfold installDependencies. msimpl.
  rewrite writeFileSync_ok by assumption.
  erewrite runCommand_unfold by (by apply launch_tool). by rewrite Htool.
Qed.

Lemma installDependencies_tool (w : World) (this : CompleteDeployer) s s' t :
  installDependencies w this s = (Return tt, s', t) -> tool w "npm install" = 0.
Proof.
  unfold installDependencies. msimpl.
  destruct (writeFileSync_cases "package.json" (JSON_stringify2 packageJson) s)
    as [-> | [c ->]]; msimpl; [| discriminate].
  erewrite runCommand_unfold by (by apply launch_tool).
  destruct (tool w "npm install" =? 0) eqn:E; [| discriminate].
  intros _. by apply Z.eqb_eq.
Qed.

(** Step 3 has written below [contracts] and [scripts]: they are
    directories. *)
Lemma createConfigFiles_directories (this : CompleteDeployer) s s' t :
  createConfigFiles this s = (Return tt, s', t) ->
  cwd s = ["air-token-project"] ->
  files s !! ["air-token-project"; "contracts"] = Some Dir /\
  files s !! ["air-token-project"; "scripts"] = Some Dir.
Proof.
  intros H Hcwd. revert H. unfold createConfigFiles. msimpl.
  destruct (writeFileSync_cases "hardhat.config.js" (hardhatConfig this) s)
    as [-> | [c ->]]; msimpl; [| discriminate].
  unfold writeFileSync at 1. unfold resolve. cbn [cwd files]. rewrite Hcwd.
  change (components "hardhat.config.js") with ["hardhat.config.js"].
  change (components "contracts/AIR.sol") with ["contracts"; "AIR.sol"].
  cbn [app removelast stat].
  rewrite !(lookup_insert_ne _ _ ["air-token-project"; "contracts"]) by done.
  destruct (files s !! ["air-token-project"; "contracts"]) as [[| x] |] eqn:Ec.
  2, 3: destruct (_ !! ["air-token-project"; "contracts"; "AIR.sol"]) as [[] |];
    unfold fs_error; msimpl; discriminate.
  destruct (_ !! ["air-token-project"; "contracts"; "AIR.sol"]) as [[] |];
    [unfold fs_error; msimpl; discriminate | ..]; msimpl;
    (unfold writeFileSync at 1; unfold resolve; cbn [cwd files];
     change (components "scripts/deploy.js") with ["scripts"; "deploy.js"];
     cbn [app removelast stat];
     rewrite !(lookup_insert_ne _ _ ["air-token-project"; "scripts"]) by done;
     destruct (files s !! ["air-token-project"; "scripts"]) as [[| x] |] eqn:Es;
     [ intros _; by split
     | destruct (_ !! ["air-token-project"; "scripts"; "deploy.js"]) as [[] |];
       unfold fs_error; msimpl; discriminate .. ]).
Qed.

(** Step 4 in a directory that holds the deployment script, when it
    returns. *)
Lemma deployContract_return (w : World) (this : CompleteDeployer) (s : state) s' t :
  stat (files s) (resolve s "scripts/deploy.js") = Some (File deployScript) ->
  deployContract w this s = (Return tt, s', t) ->
  negb (truthy (env w !! "PRIVATE_KEY")) &&
    String.eqb (privateKey this) "YOUR_PRIVATE_KEY_HERE" = false /\
  tool w "npx hardhat compile" = 0 /\
  tool w deploy_command = 0 /\
  exists sd td,
    deploy_js w s = (Return tt, sd, td) /\
    s' = {| files := files sd; cwd := cwd s |} /\
    t = [ Stdout "📤 Deploying AIR token...";
          Spawn "npx hardhat compile"; Exited "npx hardhat compile" 0;
          Spawn deploy_command ] ++
        List.map (Sub deploy_command) td ++ [Exited deploy_command 0].
Proof.
  intros Hdisk H.
  assert (Hexit : In (Exited deploy_command 0) t).
  { destruct (in_order_deployContract w this _ _ _ _ H) as [_ He].
    cbn [erase] in He. apply exited_In. rewrite He. cbn. tauto. }
  destruct (deployContract_deployed _ _ _ _ _ _ Hdisk H Hexit) as (_ & sd & td & Hd & Hs & Ht).
  revert H. unfold deployContract. msimpl.
  destruct (_ && _); msimpl; [discriminate |].
  erewrite runCommand_unfold by (by apply launch_tool).
  destruct (tool w "npx hardhat compile" =? 0) eqn:Ec; [| discriminate].
  apply Z.eqb_eq in Ec. rewrite Ec.
  pose proof (launch_deploy_script w this s Hdisk) as Hl.
  destruct (tool w deploy_command =? 0) eqn:Ed.
  - apply Z.eqb_eq in Ed. intros _. do 3 (split; [done |]). by exists sd, td.
  - erewrite runCommand_unfold by exact Hl. rewrite Ed. discriminate.
Qed.

Lemma startMonitoring_tool (w : World) (this : CompleteDeployer) s s' t :
  startMonitoring w this s = (Return tt, s', t) -> tool w monitor_command = 0.
Proof.
  unfold startMonitoring. msimpl.
  destruct (writeFileSync_cases "monitor.js" (monitorScript this) s) as [-> | [c ->]];
    msimpl; [| discriminate].
  set (s1 := {| files := <[resolve s "monitor.js" := File (monitorScript this)]> (files s);
                cwd := cwd s |}).
  assert (Hdisk : stat (files s1) (resolve s1 "monitor.js") =
                  Some (File (monitorScript this))).
  { change (resolve s1 "monitor.js") with (cwd s ++ ["monitor.js"]).
    rewrite stat_snoc. apply lookup_insert_eq. }
  pose proof (launch_monitor_script w this s1 Hdisk) as Hl.
  destruct (tool w monitor_command =? 0) eqn:E; [intros _; by apply Z.eqb_eq |].
  erewrite runCommand_unfold by exact Hl. rewrite E. discriminate.
Qed.

(** The deployment script reads the disk in one place, where it writes
    the record: having gone through once it goes through wherever the
    record can be written, with the same events. *)
Lemma deploy_js_elsewhere (w : World) (s : state) sd td :
  deploy_js w s = (Return tt, sd, td) ->
  exists c deployer,
    sd = {| files := <[resolve s "deployment-info.json" := File (record_of w c deployer)]>
                       (files s);
            cwd := cwd s |} /\
    forall s2,
      stat (files s2) (resolve s2 "deployment-info.json") <> Some Dir ->
      stat (files s2) (removelast (resolve s2 "deployment-info.json")) = Some Dir ->
      deploy_js w s2 =
        (Return tt,
         {| files := <[resolve s2 "deployment-info.json" := File (record_of w c deployer)]>
                       (files s2);
            cwd := cwd s2 |}, td).
Proof.
  intros H.
  destruct (deploy_js_outcome w s _ _ _ H)
    as [(_ & deployer & others & balance & c & n & sy & supply & G1 & G2 & G3 & G4 &
         G5 & G6 & G7 & G8 & -> & ->) | (Hr & _)]; [| discriminate Hr].
  exists c, deployer. split; [reflexivity |]. intros s2 Ht Hp.
  unfold deploy_js, deploy_main. msimpl. rewrite G1. msimpl. rewrite G2. msimpl.
  rewrite G3. msimpl. rewrite G4. msimpl. rewrite G5. msimpl. rewrite G6. msimpl.
  rewrite G7. msimpl. rewrite G8. msimpl.
  fold (record_of w c deployer). by rewrite writeFileSync_ok by assumption.
Qed.

(** The steps in the project directory of a run that has completed: each
    finds its files as it writes them, and leaves the disk as it is. *)
Lemma installDependencies_same (w : World) (this : CompleteDeployer) (s : state) :
  cwd s = ["air-token-project"] ->
  files s !! ["air-token-project"] = Some Dir ->
  files s !! ["air-token-project"; "package.json"] =
    Some (File (JSON_stringify2 packageJson)) ->
  tool w "npm install" = 0 ->
  installDependencies w this s =
    (Return tt, s,
     [ Stdout "📦 Installing dependencies...";
       WriteFile "package.json" (JSON_stringify2 packageJson);
       Spawn "npm install"; Exited "npm install" 0 ]).
Proof.
  intros Hcwd Hproj Hfile Htool. unfold installDependencies. msimpl.
  rewrite writeFileSync_same; cycle 1.
  { unfold resolve. by rewrite Hcwd. }
  { unfold resolve. by rewrite Hcwd. }
  { unfold resolve. by rewrite Hcwd. }
  erewrite runCommand_unfold by (by apply launch_tool). by rewrite Htool.
Qed.

Lemma createConfigFiles_same (this : CompleteDeployer) (s : state) :
  cwd s = ["air-token-project"] ->
  files s !! ["air-token-project"] = Some Dir ->
  files s !! ["air-token-project"; "contracts"] = Some Dir ->
  files s !! ["air-token-project"; "scripts"] = Some Dir ->
  (forall p d, In (p, d) (scaffolded this) ->
     files s !! ("air-token-project" :: components p) = Some (File d)) ->
  createConfigFiles this s =
    (Return tt, s,
     [ Stdout "⚙️  Creating configuration files...";
       WriteFile "hardhat.config.js" (hardhatConfig this);
       WriteFile "contracts/AIR.sol" airContract;
       WriteFile "scripts/deploy.js" deployScript;
       WriteFile ".env.example" (envTemplate this);
       WriteFile ".gitignore" gitignore ]).
Proof.
  intros Hcwd Hproj Hcontracts Hscripts Hfiles. unfold createConfigFiles. msimpl.
  repeat (rewrite writeFileSync_same;
          [ msimpl
          | unfold resolve; rewrite Hcwd;
            apply (Hfiles _ _); unfold scaffolded; cbn [In]; tauto
          | unfold resolve; rewrite Hcwd; assumption
          | unfold resolve; by rewrite Hcwd ]).
  reflexivity.
Qed.

Lemma deployContract_same (w : World) (this : CompleteDeployer) (s : state)
    (td : list event) :
  negb (truthy (env w !! "PRIVATE_KEY")) &&
    String.eqb (privateKey this) "YOUR_PRIVATE_KEY_HERE" = false ->
  tool w "npx hardhat compile" = 0 ->
  tool w deploy_command = 0 ->
  stat (files s) (resolve s "scripts/deploy.js") = Some (File deployScript) ->
  deploy_js w s = (Return tt, s, td) ->
  deployContract w this s =
    (Return tt, s,
     [ Stdout "📤 Deploying AIR token...";
       Spawn "npx hardhat compile"; Exited "npx hardhat compile" 0;
       Spawn deploy_command ] ++
     List.map (Sub deploy_command) td ++ [Exited deploy_command 0]).
Proof.
  intros Hcond Hc Hd Hdisk Hjs. unfold deployContract. rewrite Hcond. msimpl.
  erewrite runCommand_unfold by (by apply launch_tool). rewrite Hc. cbn [Z.eqb].
  pose proof (launch_deploy_script w this s Hdisk) as Hl.
  rewrite Hd in Hl. cbn [Z.eqb] in Hl. unfold child in Hl. rewrite Hjs in Hl.
  erewrite runCommand_unfold by exact Hl. cbn [Z.eqb]. by destruct s.
Qed.

Lemma startMonitoring_same (w : World) (this : CompleteDeployer) (s : state)
    (tm : list event) :
  cwd s = ["air-token-project"] ->
  files s !! ["air-token-project"] = Some Dir ->
  files s !! ["air-token-project"; "monitor.js"] = Some (File (monitorScript this)) ->
  tool w monitor_command = 0 ->
  monitor w this s = (Return tt, s, tm) ->
  startMonitoring w this s =
    (Return tt, s,
     [ Stdout "📊 Starting deployment monitoring...";
       WriteFile "monitor.js" (monitorScript this);
       Spawn monitor_command ] ++
     List.map (Sub monitor_command) tm ++ [Exited monitor_command 0]).
Proof.
  intros Hcwd Hproj Hfile Htool Hm. unfold startMonitoring. msimpl.
  rewrite writeFileSync_same; cycle 1.
  { unfold resolve. by rewrite Hcwd. }
  { unfold resolve. by rewrite Hcwd. }
  { unfold resolve. by rewrite Hcwd. }
  assert (Hdisk : stat (files s) (resolve s "monitor.js") =
                  Some (File (monitorScript this))).
  { unfold resolve. by rewrite Hcwd. }
  pose proof (launch_monitor_script w this s Hdisk) as Hl.
  rewrite Htool in Hl. cbn [Z.eqb] in Hl. unfold child in Hl. rewrite Hm in Hl.
  erewrite runCommand_unfold by exact Hl. cbn [Z.eqb]. by destruct s.
Qed.

(** The components of the paths that occur in the goal. *)
Ltac paths :=
  repeat match goal with
         | |- context [components ?p] =>
             let q := eval vm_compute in (components p) in change (components p) with q
         end;
  cbn [app].

Lemma filter_sub (cmd : string) (t : list event) :
  List.filter (fun e => negb (is_mkdir e)) (List.map (Sub cmd) t) = List.map (Sub cmd) t.
Proof. induction t as [| e t IH]; [done |]. cbn. by rewrite IH. Qed.


(** ** Without a signer *)

Lemma stops_unsigned_app (t1 : list event) (r : outcome unit) (t2 : list event) :
  stops_unsigned (Return tt) t1 -> stops_unsigned r t2 -> stops_unsigned r (t1 ++ t2).
Proof.
  intros H1 H2 e H. rewrite in_app_iff.
  apply in_app_iff in H as [H | H]; [destruct (H1 e H) | destruct (H2 e H)]; tauto.
Qed.

Lemma deploy_js_no_signer (w : World) (s : state) :
  getSigners (hardhat w) = Ok [] -> deploy_js w s = (Exit 1, s, unsigned).
Proof. intros H. unfold deploy_js, deploy_main. msimpl. by rewrite H. Qed.

Lemma runCommand_no_signer (w : World) (this : CompleteDeployer) (cmd : string) :
  getSigners (hardhat w) = Ok [] ->
  holds stops_unsigned (runCommand w this cmd) /\
  holds no_deployment (runCommand w this cmd).
Proof.
  intros Hsig. split; intros s r s' t H;
    destruct (launch_inv w this cmd s) as (st & tc & s1 & Hl & Hc);
    rewrite (runCommand_unfold _ _ _ _ _ _ _ Hl) in H; injection H as _ _ <-.
  - intros e Hin.
    destruct Hin as [Hin | Hin]; [discriminate Hin |].
    apply in_app_iff in Hin as [Hin | [Hin | []]]; [| discriminate Hin].
    apply in_map_iff in Hin as (e' & He' & Hin). injection He' as -> ->.
    destruct Hc as [(-> & _) | [(_ & _ & _ & r1 & s2 & Hd & _) | (Hm & _)]];
      [done | | discriminate Hm].
    rewrite (deploy_js_no_signer w s Hsig) in Hd. injection Hd as _ _ <-.
    split; [exact Hin |]. right. apply in_app_iff. left.
    apply in_map. unfold unsigned. cbn [In]. tauto.
  - unfold no_deployment.
    change (Spawn cmd :: ?l) with ([Spawn cmd] ++ l).
    rewrite !deployments_app, deployments_sub.
    destruct Hc as [(-> & _) | [(_ & _ & _ & r1 & s2 & Hd & _) | (_ & _ & _ & _ & _ & Hm)]].
    + reflexivity.
    + rewrite (deploy_js_no_signer w s Hsig) in Hd. by injection Hd as _ _ <-.
    + by rewrite (monitor_deployments _ _ _ _ _ _ Hm).
Qed.


(** ** A disk that takes the project *)

Lemma stat_lookup (fs : gmap (list string) node) (q : list string) :
  q <> [] -> stat fs q = fs !! q.
Proof. by destruct q. Qed.

Lemma directories_not_written (q : list string) :
  In q project_directories -> In q written_paths -> False.
Proof.
  unfold project_directories, written_paths, scaffolded_paths. cbn [In app].
  intros H1 H2.
  repeat (destruct H1 as [<- | H1]);
    try (repeat (destruct H2 as [H2 | H2]; [discriminate H2 |]); done).
Qed.

Lemma directory_not_root (q : list string) : In q project_directories -> q <> [].
Proof.
  unfold project_directories. cbn [In]. intros H ->.
  repeat (destruct H as [H | H]; [discriminate H |]). done.
Qed.

Lemma no_fs_failure_app (t1 t2 : list event) :
  no_fs_failure (t1 ++ t2) = no_fs_failure t1 && no_fs_failure t2.
Proof. apply forallb_app. Qed.

Lemma no_fs_failure_sub (cmd : string) (t : list event) :
  no_fs_failure (List.map (Sub cmd) t) = no_fs_failure t.
Proof.
  unfold no_fs_failure. induction t as [| e t IH]; [done |].
  cbn [List.map forallb fs_failure]. by rewrite IH.
Qed.

(** *** Computations that are safe in the project directory *)

Lemma safe_ret {A} (a : A) : safe (mret a).
Proof. by intros s r s' t Hs [= <- <- <-]. Qed.

Lemma safe_bind {A B} (m : M A) (k : A -> M B) :
  safe m -> (forall a, safe (k a)) -> safe (m ≫= k).
Proof.
  intros Hm Hk s r s' t Hs H.
  apply bind_inv in H
    as [(a & s1 & t1 & t2 & H1 & H2 & ->) | [(e & H1 & ->) | (c & H1 & ->)]].
  - destruct (Hm _ _ _ _ Hs H1) as [Hs1 Ht1].
    destruct (Hk a _ _ _ _ Hs1 H2) as [Hs2 Ht2].
    split; [exact Hs2 |]. by rewrite no_fs_failure_app, Ht1, Ht2.
  - exact (Hm _ _ _ _ Hs H1).
  - exact (Hm _ _ _ _ Hs H1).
Qed.

Lemma safe_try_catch {A} (body : M A) (handler : exn -> M A) :
  safe body -> (forall e, safe (handler e)) -> safe (try_catch body handler).
Proof.
  intros Hb Hh s r s' t Hs. unfold try_catch.
  destruct (body s) as [[[a | e | c] s1] t1] eqn:E.
  - intros [= <- <- <-]. exact (Hb _ _ _ _ Hs E).
  - destruct (handler e s1) as [[r2 s2] t2] eqn:E2. intros [= <- <- <-].
    destruct (Hb _ _ _ _ Hs E) as [Hs1 Ht1].
    destruct (Hh e _ _ _ _ Hs1 E2) as [Hs2 Ht2].
    split; [exact Hs2 |]. by rewrite no_fs_failure_app, Ht1, Ht2.
  - intros [= <- <- <-]. exact (Hb _ _ _ _ Hs E).
Qed.

(** A computation that leaves the state as it is. *)
Lemma safe_still {A} (m : M A) :
  (forall s r s' t, m s = (r, s', t) -> s' = s /\ no_fs_failure t = true) -> safe m.
Proof. intros Hm s r s' t Hs H. destruct (Hm _ _ _ _ H) as [-> Ht]. by split. Qed.

Lemma safe_emit (e : event) : fs_failure e = false -> safe (emit e).
Proof.
  intros He. apply safe_still. intros s r s' t [= <- <- <-]. split; [done |].
  cbn. by rewrite He.
Qed.

Lemma safe_console_log (x : string) : safe (console_log x).
Proof. by apply safe_emit. Qed.

Lemma safe_console_error (x : string) : safe (console_error x).
Proof. by apply safe_emit. Qed.

Lemma safe_throw {A} (e : exn) : safe (@throw A e).
Proof. apply safe_still. by intros s r s' t [= <- <- <-]. Qed.

Lemma safe_process_exit {A} (c : Z) : safe (@process_exit A c).
Proof. apply safe_still. by intros s r s' t [= <- <- <-]. Qed.

Lemma safe_call {A} (c : sdk_call) (x : result exn A) : safe (call c x).
Proof.
  apply safe_still. intros s r s' t. rewrite call_unfold.
  by destruct x; intros [= <- <- <-].
Qed.

Lemma safe_on_disk (p expected : string) : safe (on_disk p expected).
Proof. apply safe_still. by intros s r s' t [= <- <- <-]. Qed.

Lemma safe_require_text (p : string) : safe (require_text p).
Proof.
  apply safe_still. intros s r s' t. unfold require_text.
  by destruct (stat _ _) as [[] |]; intros [= <- <- <-].
Qed.

(** A file written where a file is expected. *)
Lemma settled_insert (s : state) (q : list string) (d : string) :
  settled s -> In q written_paths ->
  settled {| files := <[q := File d]> (files s); cwd := cwd s |}.
Proof.
  intros (Hcwd & Hdirs & Hfiles) Hq. split; [exact Hcwd |]. cbn [files]. split.
  - intros q' Hq'. rewrite lookup_insert_ne; [by apply Hdirs |].
    intros <-. by apply (directories_not_written q).
  - intros q' Hq'. destruct (decide (q = q')) as [<- | Hne].
    + by rewrite lookup_insert_eq.
    + rewrite lookup_insert_ne by done. by apply Hfiles.
Qed.

Lemma safe_writeFileSync (p d : string) :
  In ("air-token-project" :: components p) written_paths ->
  In (removelast ("air-token-project" :: components p)) project_directories ->
  safe (writeFileSync p d).
Proof.
  intros Hq Hparent s r s' t Hs.
  pose proof Hs as (Hcwd & Hdirs & Hfiles).
  assert (Hres : resolve s p = "air-token-project" :: components p)
    by (unfold resolve; by rewrite Hcwd).
  rewrite writeFileSync_ok.
  - intros [= <- <- <-]. split; [| done]. rewrite Hres. by apply settled_insert.
  - rewrite Hres. cbn [stat]. by apply Hfiles.
  - rewrite Hres, stat_lookup by (by apply directory_not_root). by apply Hdirs.
Qed.

(** A child leaves the working directory of its parent as it is. *)
Lemma safe_child (cmd : string) (body : M unit) : safe body -> safe (child cmd body).
Proof.
  intros Hb s r s' t Hs. unfold child.
  destruct (body s) as [[r1 s1] t1] eqn:E. intros [= <- <- <-].
  destruct (Hb _ _ _ _ Hs E) as [(_ & Hd & Hf) Ht]. split.
  - destruct Hs as (Hcwd & _). by split.
  - rewrite no_fs_failure_sub. destruct r1; [done | | done].
    by rewrite no_fs_failure_app, Ht.
Qed.

Ltac safe_step :=
  first [ apply safe_console_log | apply safe_console_error
        | apply safe_call | apply safe_throw
        | apply safe_process_exit | apply safe_ret | by apply safe_emit
        | apply safe_require_text | apply safe_on_disk
        | apply safe_writeFileSync; vm_compute; tauto ].

Ltac safe_seq :=
  repeat first [ safe_step
               | apply safe_bind; [| intros ?]
               | apply safe_try_catch; [| intros ?]
               | match goal with
                 | |- safe (match ?x with _ => _ end) => destruct x
                 | |- safe (if ?b then _ else _) => destruct b
                 end ].

Lemma safe_deploy_js (w : World) : safe (deploy_js w).
Proof. unfold deploy_js, deploy_main. safe_seq. Qed.

Lemma safe_monitor (w : World) (this : CompleteDeployer) : safe (monitor w this).
Proof. unfold monitor. safe_seq. Qed.

Lemma safe_launch (w : World) (this : CompleteDeployer) (cmd : string) :
  safe (launch w this cmd).
Proof.
  unfold launch. safe_seq.
  - apply safe_child, safe_deploy_js.
  - apply safe_child, safe_monitor.
Qed.

Lemma safe_runCommand (w : World) (this : CompleteDeployer) (cmd : string) :
  safe (runCommand w this cmd).
Proof. unfold runCommand, execSync. safe_seq. apply safe_launch. Qed.

(** Steps 2 to 5 and the last line. *)
Lemma safe_rest (w : World) (this : CompleteDeployer) :
  safe (installDependencies w this ;;
        createConfigFiles this ;;
        deployContract w this ;;
        startMonitoring w this ;;
        console_log complete).
Proof.
  unfold installDependencies, createConfigFiles, deployContract, startMonitoring.
  repeat first [ safe_step | apply safe_runCommand
               | apply safe_bind; [| intros ?]
               | match goal with
                 | |- safe (if ?b then _ else _) => destruct b
                 end ].
Qed.

(** *** Step 1 on a suitable disk *)

(** A directory of the project is made when it is missing; its parent is
    there. *)
Lemma mkdir_if_missing_made (dir : string) (s : state) :
  In (resolve s dir) project_directories ->
  stat (files s) (removelast (resolve s dir)) = Some Dir ->
  suitable (files s) ->
  exists s' t,
    mkdir_if_missing dir s = (Return tt, s', t) /\
    cwd s' = cwd s /\
    suitable (files s') /\
    files s' !! resolve s dir = Some Dir /\
    (forall q, files s !! q = Some Dir -> files s' !! q = Some Dir) /\
    no_fs_failure t = true.
Proof.
  intros Hq Hparent Hfs. pose proof Hfs as [Hdirs Hfiles].
  unfold mkdir_if_missing, existsSync. msimpl.
  rewrite (stat_lookup _ _ (directory_not_root _ Hq)).
  destruct (Hdirs _ Hq) as [E | E]; rewrite E; cbn [negb].
  - exists s, []. by repeat split.
  - unfold mkdirSync. rewrite (stat_lookup _ _ (directory_not_root _ Hq)), E, Hparent.
    eexists _, _. split; [reflexivity |]. cbn [files cwd].
    split; [done |]. split; [| split; [apply lookup_insert_eq | split; [| done]]].
    + split.
      * intros q' Hq'. destruct (decide (resolve s dir = q')) as [<- | Hne].
        -- left. apply lookup_insert_eq.
        -- rewrite lookup_insert_ne by done. by apply Hdirs.
      * intros q' Hq'. rewrite lookup_insert_ne; [by apply Hfiles |].
        intros <-. by apply (directories_not_written (resolve s dir)).
    + intros q' Hq'. rewrite lookup_insert_ne; [done |]. intros <-. congruence.
Qed.

Lemma createProjectStructure_settles (this : CompleteDeployer) (s : state) :
  projectName this = "air-token-project" ->
  cwd s = [] ->
  suitable (files s) ->
  exists s' t,
    createProjectStructure this s = (Return tt, s', t) /\
    settled s' /\ no_fs_failure t = true.
Proof.
  intros Hname Hcwd Hfs. unfold createProjectStructure. rewrite Hname.
  assert (Hres : forall x d, resolve x d = cwd x ++ components d) by reflexivity.
  destruct (mkdir_if_missing_made "air-token-project" s) as (s0 & t0 & E0 & C0 & F0 & D0 & _ & T0).
  { rewrite Hres, Hcwd. vm_compute. tauto. }
  { by rewrite Hres, Hcwd. }
  { exact Hfs. }
  rewrite Hres, Hcwd in D0. change ([] ++ components "air-token-project")
    with ["air-token-project"] in D0.
  set (s1 := {| files := files s0; cwd := ["air-token-project"] |}).
  assert (Hch : chdir "air-token-project" s0 = (Return tt, s1, [Chdir "air-token-project"])).
  { unfold chdir. rewrite Hres, C0, Hcwd.
    change ([] ++ components "air-token-project") with ["air-token-project"].
    cbn [stat]. by rewrite D0. }
  assert (Hstep : forall dir x,
            In ("air-token-project" :: components dir) project_directories ->
            removelast ("air-token-project" :: components dir) = ["air-token-project"] ->
            cwd x = ["air-token-project"] ->
            files x !! ["air-token-project"] = Some Dir ->
            suitable (files x) ->
            exists x' u,
              mkdir_if_missing dir x = (Return tt, x', u) /\
              cwd x' = ["air-token-project"] /\
              suitable (files x') /\
              files x' !! ("air-token-project" :: components dir) = Some Dir /\
              (forall q, files x !! q = Some Dir -> files x' !! q = Some Dir) /\
              no_fs_failure u = true).
  { intros dir x Hin Hpar Hc Hp Hx.
    assert (Hr : resolve x dir = "air-token-project" :: components dir)
      by (by rewrite Hres, Hc).
    destruct (mkdir_if_missing_made dir x) as (x' & u & E & C & F & D & K & T).
    { by rewrite Hr. }
    { rewrite Hr, Hpar. cbn [stat]. exact Hp. }
    { exact Hx. }
    exists x', u. rewrite Hr in D. rewrite Hc in C.
    split; [exact E |]. split; [exact C |]. split; [exact F |].
    split; [exact D |]. split; [exact K | exact T]. }
  destruct (Hstep "contracts" s1) as (s2 & t2 & E2 & C2 & F2 & D2 & K2 & T2);
    [vm_compute; tauto | reflexivity | reflexivity | exact D0 | exact F0 |].
  destruct (Hstep "scripts" s2) as (s3 & t3 & E3 & C3 & F3 & D3 & K3 & T3);
    [vm_compute; tauto | reflexivity | exact C2 | by apply K2 | exact F2 |].
  destruct (Hstep "artifacts" s3) as (s4 & t4 & E4 & C4 & F4 & D4 & K4 & T4);
    [vm_compute; tauto | reflexivity | exact C3 | by apply K3, K2 | exact F3 |].
  destruct (Hstep "cache" s4) as (s5 & t5 & E5 & C5 & F5 & D5 & K5 & T5);
    [vm_compute; tauto | reflexivity | exact C4 | by apply K4, K3, K2 | exact F4 |].
  exists s5, (Stdout "📁 Creating project structure..." :: t0 ++
              Chdir "air-token-project" :: t2 ++ t3 ++ t4 ++ t5).
  split; [| split].
  - msimpl. rewrite E0, Hch. cbn [forEach]. msimpl. rewrite E2, E3, E4, E5.
    by rewrite !app_nil_r.
  - split; [exact C5 |]. split; [| by destruct F5].
    intros q Hq. unfold project_directories in Hq. cbn [In] in Hq.
    destruct Hq as [<- | [<- | [<- | [<- | [<- | []]]]]].
    + by apply K5, K4, K3, K2.
    + by apply K5, K4, K3.
    + by apply K5, K4.
    + by apply K5.
    + exact D5.
  - change (Stdout ?x :: ?l) with ([Stdout x] ++ l).
    change (Chdir ?x :: ?l) with ([Chdir x] ++ l).
    by rewrite !no_fs_failure_app, T0, T2, T3, T4, T5.
Qed.

(** The five steps from a suitable disk. *)
Lemma steps_settled (w : World) (this : CompleteDeployer) (s : state) r s' t :
  projectName this = "air-token-project" ->
  cwd s = [] ->
  suitable (files s) ->
  steps w this s = (r, s', t) ->
  settled s' /\ no_fs_failure t = true.
Proof.
  intros Hname Hcwd Hfs H.
  destruct (createProjectStructure_settles this s Hname Hcwd Hfs) as (s1 & t1 & E1 & S1 & T1).
  unfold steps in H.
  apply bind_inv in H
    as [(a & s1' & t1' & t2 & H1 & H & ->) | [(e & H1 & ->) | (c & H1 & ->)]];
    rewrite E1 in H1; [| discriminate H1 ..].
  injection H1 as <- <- <-.
  destruct (safe_rest w this _ _ _ _ S1 H) as [S2 T2].
  split; [exact S2 |]. by rewrite no_fs_failure_app, T1, T2.
Qed.

(** *** What is thrown says what went wrong *)

Lemma told_app (t1 : list event) (r : outcome unit) (t2 : list event) :
  told (Return tt) t1 -> told r t2 -> told r (t1 ++ t2).
Proof.
  intros _ H. destruct r as [| e |]; [done | | done].
  destruct H as [(x & Hx & Hf) | [-> | (cmd & st & Hst & Hin & ->)]].
  - left. exists x. split; [apply in_app_iff; by right | exact Hf].
  - right. by left.
  - right. right. exists cmd, st. split; [exact Hst |].
    split; [apply in_app_iff; by right | done].
Qed.

Lemma told_runCommand (w : World) (this : CompleteDeployer) (cmd : string) :
  holds told (runCommand w this cmd).
Proof.
  intros s r s' t H.
  destruct (launch_inv w this cmd s) as (st & tc & s1 & Hl & _).
  rewrite (runCommand_unfold _ _ _ _ _ _ _ Hl) in H. injection H as <- _ <-.
  destruct (st =? 0) eqn:Est; cbn [erase]; [done |].
  right. right. exists cmd, st. split; [by apply Z.eqb_neq |].
  split; [| done]. right. apply in_app_iff. right. by left.
Qed.

Lemma told_steps (w : World) (this : CompleteDeployer) : holds told (steps w this).
Proof.
  apply holds_steps; try apply told_runCommand; try exact told_app; try done.
  intros c syscall p. left. exists (FsError syscall p c). split; [by left | done].
  right. by left.
Qed.


(** ** The credential, after the scaffolding *)

Lemma In_exited (t : list event) (cmd : string) (st : Z) :
  In (Exited cmd st) t -> In (cmd, st) (exited t).
Proof.
  intros H. apply list_elem_of_In, list_elem_of_omap.
  exists (Exited cmd st). split; [by apply list_elem_of_In | done].
Qed.

Lemma spawned_In (t : list event) (cmd : string) : In cmd (spawned t) -> In (Spawn cmd) t.
Proof.
  intros H. apply list_elem_of_In, list_elem_of_omap in H as (e & He & Heq).
  apply list_elem_of_In in He. destruct e; try discriminate Heq.
  by injection Heq as ->.
Qed.

(** A command that has ended has been started. *)
Lemma exited_spawned (w : World) (this : CompleteDeployer) s r s' t cmd st :
  steps w this s = (r, s', t) -> In (Exited cmd st) t -> In (Spawn cmd) t.
Proof.
  intros Hs H. destruct (in_order_steps w this _ _ _ _ Hs) as [He _].
  apply spawned_In. rewrite <- He. apply in_map_iff. exists (cmd, st).
  split; [done | by apply In_exited].
Qed.

Lemma npm_status_app (w : World) (t1 : list event) (r : outcome unit) (t2 : list event) :
  npm_status w (Return tt) t1 -> npm_status w r t2 -> npm_status w r (t1 ++ t2).
Proof.
  intros H1 H2 st H. apply in_app_iff in H as [H | H]; [by apply H1 | by apply H2].
Qed.

Lemma npm_status_runCommand (w : World) (this : CompleteDeployer) (cmd : string) :
  holds (npm_status w) (runCommand w this cmd).
Proof.
  intros s r s' t H st Hin.
  destruct (launch_inv w this cmd s) as (st' & tc & s1 & Hl & Hc).
  rewrite (runCommand_unfold _ _ _ _ _ _ _ Hl) in H. injection H as _ _ <-.
  destruct Hin as [Hin | Hin]; [discriminate Hin |].
  apply in_app_iff in Hin as [Hin | [Hin | []]].
  - apply in_map_iff in Hin as (e' & He' & _). discriminate He'.
  - injection Hin as -> ->.
    destruct Hc as [(_ & _ & ->) | [(Hd & _) | (Hm & _)]];
      [done | discriminate Hd | discriminate Hm].
Qed.

Lemma npm_status_steps (w : World) (this : CompleteDeployer) :
  holds (npm_status w) (steps w this).
Proof.
  apply holds_steps; try apply npm_status_runCommand; try exact (npm_status_app w);
    intros;
    let st := fresh "st" in
    let Hev := fresh "Hev" in
    intros st Hev; cbn [In] in Hev;
    repeat (destruct Hev as [Hev | Hev]; [discriminate Hev |]); done.
Qed.

(** C9, as amended: in scaffold-and-deploy mode without a credential the
    exit code is 1 and no command other than [npm install] is ever run.
    The run ends on a failed call of the file system, on [npm install]
    ending with a status other than 0, or on the check of the credential,
    which is made in step 4 only.  On a suitable disk, with [npm install]
    ending with status 0, it is the check that ends it.  And whenever the
    error of the check is the one reported, steps 1 to 3 have been carried
    out before (the working directory changed to the project directory,
    the manifest written, [npm install] run with status 0, the five
    configuration files written), nothing follows the report, and the disk
    is left with the project directory, the six files and the four
    sub-directories (each created, unless its name was taken, by what is
    then still there). *)
Theorem credential_checked_after_scaffolding (w : World) :
  quick w = false ->
  truthy (env w !! "PRIVATE_KEY") = false ->
  exit_code w = 1 /\
  (forall cmd, In (Spawn cmd) (trace w) -> cmd = "npm install") /\
  ((exists x, In x (trace w) /\ fs_failure x = true) \/
   (exists st, st <> 0 /\ In (Exited "npm install" st) (trace w)) \/
   In (Stderr (deployment_failed (message credential_error))) (trace w)) /\
  (suitable (disk w) -> tool w "npm install" = 0 ->
   In (Stderr (deployment_failed (message credential_error))) (trace w)) /\
  (In (Stderr (deployment_failed (message credential_error))) (trace w) ->
   exists t1,
     trace w =
       Stdout starting :: t1 ++
       [ Stdout "📦 Installing dependencies...";
         WriteFile "package.json" (JSON_stringify2 packageJson);
         Spawn "npm install"; Exited "npm install" 0;
         Stdout "⚙️  Creating configuration files...";
         WriteFile "hardhat.config.js" (hardhatConfig (constructor w));
         WriteFile "contracts/AIR.sol" airContract;
         WriteFile "scripts/deploy.js" deployScript;
         WriteFile ".env.example" (envTemplate (constructor w));
         WriteFile ".gitignore" gitignore;
         Stdout "📤 Deploying AIR token...";
         Stderr (deployment_failed (message credential_error)) ] /\
     In (Chdir "air-token-project") t1 /\
     forallb (fun e => negb (failure e)) t1 = true /\
     cwd (final w) = ["air-token-project"] /\
     files (final w) !! ["air-token-project"] = Some Dir /\
     (forall d, In d ["contracts"; "scripts"; "artifacts"; "cache"] ->
        files (final w) !! ["air-token-project"; d] =
        Some (default Dir (disk w !! ["air-token-project"; d]))) /\
     (forall p d, In (p, d) (scaffolded (constructor w)) ->
        files (final w) !! ("air-token-project" :: components p) = Some (File d))).
Proof.
  intros Hq Hk.
  destruct (credential_error_after_scaffolding w Hq Hk) as (Hcode & Hnpm & Hthen).
  destruct (process_scaffold_cases w Hq) as (r & s & t & Hs & Hp).
  pose proof (told_steps w (constructor w) _ _ _ _ Hs) as Htold.
  pose proof (fail_stop_steps w (constructor w) _ _ _ _ Hs) as Hfs.
  destruct r as [[] | e | c]; [by destruct (steps_without_key w _ _ _ Hk Hs) | | done].
  assert (Ht : trace w = Stdout starting :: t ++ [Stderr (deployment_failed (message e))]).
  { unfold trace. by rewrite Hp. }
  assert (Hin : forall x, In x t -> In x (trace w)).
  { intros x Hx. rewrite Ht. right. apply in_app_iff. by left. }
  assert (Hcases :
            (exists x, In x t /\ fs_failure x = true) \/
            (exists st, st <> 0 /\ In (Exited "npm install" st) t) \/
            In (Stderr (deployment_failed (message credential_error))) (trace w)).
  { cbn [erase told] in Htold.
    destruct Htold as [(x & Hx & Hf) | [-> | (cmd & st & Hst & Hex & _)]].
    - left. by exists x.
    - right. right. rewrite Ht. right. apply in_app_iff. right. by left.
    - right. left. exists st. split; [exact Hst |].
      pose proof (exited_spawned _ _ _ _ _ _ _ _ Hs Hex) as Hsp.
      by rewrite (Hnpm cmd (Hin _ Hsp)) in Hex. }
  split; [exact Hcode |]. split; [exact Hnpm |]. split; [| split; [| exact Hthen]].
  - destruct Hcases as [(x & Hx & Hf) | [(st & Hst & Hex) | Hc]].
    + left. exists x. split; [by apply Hin | exact Hf].
    + right. left. exists st. split; [exact Hst | by apply Hin].
    + right. by right.
  - intros Hdisk Htool.
    destruct (steps_settled w (constructor w) (start w) _ _ _ eq_refl eq_refl Hdisk Hs)
      as [_ Hclean].
    unfold no_fs_failure in Hclean. rewrite forallb_forall in Hclean.
    destruct Hcases as [(x & Hx & Hf) | [(st & Hst & Hex) | Hc]]; [| | exact Hc].
    + specialize (Hclean x Hx). by rewrite Hf in Hclean.
    + rewrite (npm_status_steps w (constructor w) _ _ _ _ Hs st Hex) in Hst.
      by destruct Hst.
Qed.

Lemma credential_checked_after_scaffolding_witness :
  exit_code fresh_without_key = 1 /\
  In (Stderr (deployment_failed (message credential_error))) (trace fresh_without_key) /\
  files (final fresh_without_key) !! ["air-token-project"; "contracts"; "AIR.sol"]
  = Some (File airContract).
Proof.
  destruct (credential_checked_after_scaffolding fresh_without_key eq_refl eq_refl)
    as (H1 & _ & _ & H4 & H5).
  assert (Hc : In (Stderr (deployment_failed (message credential_error)))
                 (trace fresh_without_key)).
  { apply H4; [| reflexivity]. split; intros q _; [by right | done]. }
  split; [exact H1 |]. split; [exact Hc |].
  destruct (H5 Hc) as (t1 & _ & _ & _ & _ & _ & _ & Hfiles).
  apply (Hfiles "contracts/AIR.sol" airContract). cbn. tauto.
Defined.

(** C9, as stated, fails when the run ends before step 4.  Without a
    credential and with [npm install] ending with status 1, the manifest
    is written and nothing else: no configuration file is created, the
    credential is not checked, and the error reported is the one of the
    command. *)
Lemma npm_failure_comes_before_the_check :
  quick npm_fails_without_key = false /\
  env npm_fails_without_key !! "PRIVATE_KEY" = None /\
  exit_code npm_fails_without_key = 1 /\
  last (trace npm_fails_without_key) =
    Some (Stderr (deployment_failed "Command failed: npm install")) /\
  ~ In (Stderr (deployment_failed (message credential_error)))
       (trace npm_fails_without_key) /\
  files (final npm_fails_without_key) !! ["air-token-project"; "package.json"] =
    Some (File (JSON_stringify2 packageJson)) /\
  (forall p, In p ["hardhat.config.js"; "contracts/AIR.sol"; "scripts/deploy.js";
                   ".env.example"; ".gitignore"] ->
     files (final npm_fails_without_key) !! ("air-token-project" :: components p) = None).
Proof.
  split; [reflexivity |]. split; [reflexivity |]. split; [reflexivity |].
  split; [vm_compute; reflexivity |]. split; [| split; [vm_compute; reflexivity |]].
  - intros H. vm_compute in H.
    repeat (destruct H as [H | H]; [discriminate H |]). done.
  - intros p Hp. cbn [In] in Hp.
    repeat (destruct Hp as [<- | Hp]; [vm_compute; reflexivity |]). done.
Qed.
